(** * Replion backend: the comment automation engine

    A shallow embedding of [src/services/automation-engine.service.ts]
    (class [AutomationEngine]) and of [matchKeyword] from the Instagram
    platform service, with the properties the specification states about
    them.

    Modelling choices.
    - A JavaScript string is a [string] holding the UTF-8 encoding of its
      text (the texts of this program come from PostgreSQL and from JSON
      bodies, which hold no lone surrogate).  On such text the prefix,
      suffix and substring tests on bytes agree with those on UTF-16 code
      units.  What the runtime does on characters beyond that (case
      mapping, regular expressions, locale time formatting) is taken from
      an environment [Env], as are the remote collaborators (Instagram
      platform API, AI generator).
    - The [config] column of a trigger is JSONB that the controller stores
      as it receives it, and the engine reads it through [as any]: its
      [commentReply] is any JSON value, not only a string.
    - The Prisma store is an in-memory [World]: the automation table is a
      [gmap] keyed by id, the [AutomationLog] table a list in insertion
      order.  Store operations do not fail, except the update of a row that
      does not exist; platform and generator calls may throw, and every such
      call is recorded with its result in [events].
    - Time is the [clock] of the world, in milliseconds; it does not advance
      during a call, and local time is UTC plus a fixed offset.
    - [async] code is sequential here: each [await] is a monadic bind in the
      state-and-exception monad [M]. *)

From Stdlib Require Import ZArith Ascii String List Bool Lia DecimalString.
From stdpp Require Import gmap strings list sorting.

Local Open Scope Z_scope.

(** ** JavaScript strings *)

Module Js.

(** [s.startsWith(k)] *)
Definition startsWith (s k : string) : bool := String.prefix k s.

(** [s.includes(k)] *)
Fixpoint includes (s k : string) : bool :=
  String.prefix k s ||
  match s with
  | EmptyString => false
  | String _ s' => includes s' k
  end.

(** [s.endsWith(k)]: the last [k.length] units of [s] are [k]. *)
Definition endsWith (s k : string) : bool :=
  let n := String.length s in
  let m := String.length k in
  (m <=? n)%nat && String.eqb (String.substring (n - m) m s) k.

(** What [String.prototype.trim] strips: the WhiteSpace and LineTerminator
    code points U+0009 to U+000D, U+0020, U+00A0, U+1680, U+2000 to U+200A,
    U+2028, U+2029, U+202F, U+205F, U+3000 and U+FEFF.  In UTF-8 they take
    one, two or three bytes. *)
Definition isWhiteSpace1 (a : ascii) : bool :=
  let x := N_of_ascii a in
  ((9 <=? x) && (x <=? 13) || (x =? 32))%N.

Definition isWhiteSpace2 (a b : ascii) : bool :=
  ((N_of_ascii a =? 194) && (N_of_ascii b =? 160))%N.

Definition isWhiteSpace3 (a b c : ascii) : bool :=
  let x := N_of_ascii a in
  let y := N_of_ascii b in
  let z := N_of_ascii c in
  ((x =? 225) && (y =? 154) && (z =? 128)
   || (x =? 226) && (y =? 128)
      && ((128 <=? z) && (z <=? 138) || (z =? 168) || (z =? 169) || (z =? 175))
   || (x =? 226) && (y =? 129) && (z =? 159)
   || (x =? 227) && (y =? 128) && (z =? 128)
   || (x =? 239) && (y =? 187) && (z =? 191))%N.

(** Number of bytes of the white space code point [s] starts with; 0 when
    it starts with none. *)
Definition leadingWhiteSpace (s : string) : nat :=
  match s with
  | String a s1 =>
      if isWhiteSpace1 a then 1%nat
      else
        match s1 with
        | String b s2 =>
            if isWhiteSpace2 a b then 2%nat
            else
              match s2 with
              | String c _ => if isWhiteSpace3 a b c then 3%nat else 0%nat
              | EmptyString => 0%nat
              end
        | EmptyString => 0%nat
        end
  | EmptyString => 0%nat
  end.

(** The same for the end of a string, given last byte first. *)
Definition trailingWhiteSpace (reversed : string) : nat :=
  match reversed with
  | String c s1 =>
      if isWhiteSpace1 c then 1%nat
      else
        match s1 with
        | String b s2 =>
            if isWhiteSpace2 b c then 2%nat
            else
              match s2 with
              | String a _ => if isWhiteSpace3 a b c then 3%nat else 0%nat
              | EmptyString => 0%nat
              end
        | EmptyString => 0%nat
        end
  | EmptyString => 0%nat
  end.

(** Drop white space from the front of [s]: [width] tells how many bytes
    the white space in front takes, [skip] how many bytes of the current
    code point are still to be dropped. *)
Fixpoint strip (width : string -> nat) (skip : nat) (s : string) : string :=
  match s with
  | EmptyString => EmptyString
  | String _ s' =>
      match skip with
      | S k => strip width k s'
      | O =>
          match width s with
          | S k => strip width k s'
          | O => s
          end
      end
  end.

Definition trimStart (s : string) : string := strip leadingWhiteSpace 0 s.

(** [s.trim()] *)
Definition trim (s : string) : string :=
  String.rev (strip trailingWhiteSpace 0 (String.rev (trimStart s))).

(** Truthiness of a string value: the empty string is falsy. *)
Definition truthy (s : string) : bool := negb (String.eqb s EmptyString).

(** ASCII case mapping, the behaviour of [toLowerCase] on ASCII text. *)
Definition asciiLower (c : ascii) : ascii :=
  let n := nat_of_ascii c in
  if (65 <=? n)%nat && (n <=? 90)%nat then ascii_of_nat (n + 32) else c.

Fixpoint asciiToLowerCase (s : string) : string :=
  match s with
  | EmptyString => EmptyString
  | String c s' => String (asciiLower c) (asciiToLowerCase s')
  end.

(** [GetSubstitution] for a pattern without capture groups: in the
    replacement text [$$] is a dollar sign, [$&] the match, [$`] and
    [$'] the text before and after it; any other [$] is literal. *)
Fixpoint getSubstitution (matched before after repl : string) : string :=
  match repl with
  | EmptyString => EmptyString
  | String c r =>
      if Ascii.eqb c "$" then
        match r with
        | String d r' =>
            if Ascii.eqb d "$" then String "$" (getSubstitution matched before after r')
            else if Ascii.eqb d "&" then matched +:+ getSubstitution matched before after r'
            else if Ascii.eqb d "`" then before +:+ getSubstitution matched before after r'
            else if Ascii.eqb d "'" then after +:+ getSubstitution matched before after r'
            else String c (getSubstitution matched before after r)
        | EmptyString => String c EmptyString
        end
      else String c (getSubstitution matched before after r)
  end.

Fixpoint dropString (n : nat) (s : string) : string :=
  match n, s with
  | O, _ => s
  | S n', String _ s' => dropString n' s'
  | S _, EmptyString => EmptyString
  end.

(** Left-to-right scan of [s.replace(/pat/g, repl)] for a literal,
    non-empty [pat]; [before] is the text already scanned and [skip] the
    number of bytes of the current match still to be consumed. *)
Fixpoint replaceAllFrom (pat repl before s : string) (skip : nat) : string :=
  match s with
  | EmptyString => EmptyString
  | String c s' =>
      match skip with
      | S k => replaceAllFrom pat repl (before +:+ String c EmptyString) s' k
      | O =>
          if String.prefix pat s then
            getSubstitution pat before (dropString (String.length pat) s) repl
            +:+ replaceAllFrom pat repl (before +:+ String c EmptyString) s'
                  (String.length pat - 1)
          else
            String c (replaceAllFrom pat repl (before +:+ String c EmptyString) s' 0)
      end
  end.

Definition replaceAll (s pat repl : string) : string :=
  replaceAllFrom pat repl EmptyString s 0.

(** [arr.join(sep)] on an array of strings. *)
Fixpoint join (sep : string) (l : list string) : string :=
  match l with
  | [] => EmptyString
  | [x] => x
  | x :: rest => x +:+ sep +:+ join sep rest
  end.

(** Template interpolation of a number, [`${n}`]. *)
Definition showZ (n : Z) : string := NilZero.string_of_int (Z.to_int n).

End Js.

(** ** Values thrown and the runtime environment *)

(** A thrown value is an [Error] carrying a message, or something else. *)
Inductive Exn : Type :=
| JsError (message : string)
| NonError.

(** [error instanceof Error ? error.message : fallback] *)
Definition errorMessageOr (e : Exn) (fallback : string) : string :=
  match e with
  | JsError m => m
  | NonError => fallback
  end.

Record CommentFrom : Type := { from_id : string; from_username : string }.

(** [InstagramComment], also the shape of [commentData]. *)
Record InstagramComment : Type := {
  c_id : string;
  c_text : string;
  c_username : string;
  c_timestamp : string;
  c_from : CommentFrom;
}.

(** [AIResponseContext] as filled in by [generateResponse]. *)
Record AIResponseContext : Type := {
  commentText : string;
  userName : string;
  userPrompt : option string;
}.

(** Calls that leave the process. *)
Inductive Call : Type :=
| CallGetMediaComments (mediaId accessToken : string)
| CallSendDirectMessage (recipientUserId message accessToken : string)
| CallReplyToComment (commentId message accessToken : string)
| CallGenerateCommentReply (context : AIResponseContext).

(** A call together with what it threw, if anything. *)
Record Event : Type := { ev_call : Call; ev_failure : option Exn }.

Record Env : Type := {
  (** [String.prototype.toLowerCase] *)
  toLowerCase : string -> string;
  (** [new RegExp(pattern, flags)]: [None] when the constructor throws,
      otherwise the [test] method of the compiled expression. *)
  regExp : string -> string -> option (string -> bool);
  (** [new Date(t).toLocaleTimeString()] *)
  toLocaleTimeString : Z -> string;
  (** Server local time minus UTC, in milliseconds. *)
  tzOffset : Z;
  (** The platform and the generator answer as a function of the history
      of calls and of the arguments; [inl e] and [Some e] are throws. *)
  getMediaComments : list Event -> string -> string -> Exn + list InstagramComment;
  sendDirectMessage : list Event -> string -> string -> string -> option Exn;
  replyToComment : list Event -> string -> string -> string -> option Exn;
  generateCommentReply : list Event -> AIResponseContext -> option string;
}.

(** ** Keyword matcher: [instagramPlatformService.matchKeyword] *)

Definition matchKeyword (E : Env) (text keyword matchType : string)
    (caseSensitive : bool) : bool :=
  let searchText := if caseSensitive then text else toLowerCase E text in
  let searchKeyword := if caseSensitive then keyword else toLowerCase E keyword in
  if String.eqb matchType "EXACT" then String.eqb searchText searchKeyword
  else if String.eqb matchType "CONTAINS" then Js.includes searchText searchKeyword
  else if String.eqb matchType "STARTS_WITH" then Js.startsWith searchText searchKeyword
  else if String.eqb matchType "ENDS_WITH" then Js.endsWith searchText searchKeyword
  else if String.eqb matchType "REGEX" then
    match regExp E keyword (if caseSensitive then EmptyString else "i") with
    | Some test => test text
    | None => false
    end
  else Js.includes searchText searchKeyword.

(** ** Data model (the Prisma records the engine reads and writes) *)

Inductive AutomationStatus : Type := ACTIVE | PAUSED | COMPLETED | FAILED_STATUS.

Inductive LogStatus : Type := SUCCESS | FAILED | SKIPPED.

Inductive ResponseType : Type := CUSTOM | AI_GENERATED | TEMPLATE.

#[global] Instance AutomationStatus_eq_dec : EqDecision AutomationStatus.
Proof. solve_decision. Defined.

#[global] Instance LogStatus_eq_dec : EqDecision LogStatus.
Proof. solve_decision. Defined.

#[global] Instance ResponseType_eq_dec : EqDecision ResponseType.
Proof. solve_decision. Defined.

Record Keyword : Type := {
  kw_keyword : string;
  kw_matchType : string;
  kw_caseSensitive : bool;
}.

Record AutoResponse : Type := {
  responseType : ResponseType;
  customMessage : option string;
  aiPrompt : option string;
}.

(** A JSON value as the runtime holds it once parsed; a number is kept
    as an integer. *)
#[warnings="-register-all"] Inductive JsValue : Type :=
| JsNull
| JsBoolean (b : bool)
| JsNumber (n : Z)
| JsString (s : string)
| JsArray (items : list JsValue)
| JsObject (fields : list (string * JsValue)).

(** Truthiness of a value: [null], [false], [0] and the empty string are
    falsy, every array and object is truthy. *)
Definition truthyValue (v : JsValue) : bool :=
  match v with
  | JsNull => false
  | JsBoolean b => b
  | JsNumber n => negb (n =? 0)
  | JsString s => Js.truthy s
  | JsArray _ | JsObject _ => true
  end.

(** The JSON [config] of a trigger, of which the engine reads one field;
    [None] is [undefined], a field the object does not have. *)
Record TriggerConfig : Type := { commentReply : option JsValue }.

Record Trigger : Type := {
  tr_id : string;
  tr_isActive : bool;
  tr_keyword : option Keyword;
  tr_response : option AutoResponse;
  tr_config : option TriggerConfig;
}.

(** An automation row with its [user] and [triggers] relations. *)
Record Automation : Type := {
  a_id : string;
  a_status : AutomationStatus;
  a_userPlan : string;
  a_dailyLimit : option Z;
  a_hourlyLimit : option Z;
  a_totalExecutions : Z;
  a_successfulExecutions : Z;
  a_failedExecutions : Z;
  a_lastExecutedAt : option Z;
  a_triggers : list Trigger;
}.

Record LogMetadata : Type := {
  md_commentText : string;
  md_timestamp : string;
  md_userId : string;
}.

Record AutomationLog : Type := {
  l_automationId : string;
  l_action : string;
  l_targetId : string;
  l_targetUsername : string;
  l_targetType : string;
  l_status : LogStatus;
  l_message : string;
  l_responseText : option string;
  l_metadata : LogMetadata;
  l_executedAt : Z;
}.

Record World : Type := {
  automations : gmap string Automation;
  logs : list AutomationLog;
  events : list Event;
  clock : Z;
}.

(** ** The state-and-exception monad of the engine

    A computation over a state [S] returns a value or throws, and leaves a
    state either way.  Engine methods run over the [World]; a method body
    with mutable local variables runs over the world paired with them, so
    that an assignment made before a throw is still seen by the [catch]
    block. *)

Inductive Outcome (A : Type) : Type :=
| Ret (a : A)
| Throw (e : Exn).
Arguments Ret {A} a.
Arguments Throw {A} e.

Definition ST (S A : Type) : Type := S -> Outcome A * S.

Abbreviation M := (ST World).

Definition ret {S A} (a : A) : ST S A := fun s => (Ret a, s).

Definition throw {S A} (e : Exn) : ST S A := fun s => (Throw e, s).

Definition bind {S A B} (m : ST S A) (k : A -> ST S B) : ST S B :=
  fun s =>
    match m s with
    | (Ret a, s') => k a s'
    | (Throw e, s') => (Throw e, s')
    end.

(** [try { body } catch (e) { handler }] *)
Definition tryCatch {S A} (body : ST S A) (handler : Exn -> ST S A) : ST S A :=
  fun s =>
    match body s with
    | (Ret a, s') => (Ret a, s')
    | (Throw e, s') => handler e s'
    end.

(** Run a world computation inside a body that has locals. *)
Definition lift {L A} (m : M A) : ST (World * L) A :=
  fun s =>
    match m (fst s) with
    | (r, w') => (r, (w', snd s))
    end.

Definition getLocals {L} : ST (World * L) L := fun s => (Ret (snd s), s).

Definition modifyLocals {L} (f : L -> L) : ST (World * L) unit :=
  fun s => (Ret tt, (fst s, f (snd s))).

(** Enter a block whose locals start as [l0]; they are dropped on exit. *)
Definition withLocals {L A} (l0 : L) (m : ST (World * L) A) : M A :=
  fun w =>
    match m (w, l0) with
    | (r, s') => (r, fst s')
    end.

Declare Scope engine_scope.
Delimit Scope engine_scope with engine.
Notation "x <- m ;; k" := (bind m (fun x => k))
  (at level 100, m at next level, right associativity) : engine_scope.
Notation "m ;;; k" := (bind m (fun _ => k))
  (at level 100, right associativity) : engine_scope.
Local Open Scope engine_scope.

(** [for (const x of xs) { body }]; [continue] is an early [ret tt]. *)
Fixpoint forOf {S A} (xs : list A) (body : A -> ST S unit) : ST S unit :=
  match xs with
  | [] => ret tt
  | x :: rest => body x ;;; forOf rest body
  end.

(** *** Store operations *)

(** [new Date()] *)
Definition newDate : M Z := fun w => (Ret (clock w), w).

(** The [where: { isActive: true }] filter on the [triggers] relation. *)
Definition activeTriggers (a : Automation) : Automation :=
  {| a_id := a_id a; a_status := a_status a; a_userPlan := a_userPlan a;
     a_dailyLimit := a_dailyLimit a; a_hourlyLimit := a_hourlyLimit a;
     a_totalExecutions := a_totalExecutions a;
     a_successfulExecutions := a_successfulExecutions a;
     a_failedExecutions := a_failedExecutions a;
     a_lastExecutedAt := a_lastExecutedAt a;
     a_triggers := List.filter tr_isActive (a_triggers a) |}.

(** [prisma.automation.findUnique({ where: { id }, include: ... })] *)
Definition automationFindUnique (id : string) : M (option Automation) :=
  fun w => (Ret (activeTriggers <$> automations w !! id), w).

Definition logMatches (automationId targetId : string) (l : AutomationLog) : bool :=
  String.eqb (l_automationId l) automationId && String.eqb (l_targetId l) targetId.

(** [prisma.automationLog.findFirst({ where: { automationId, targetId } })] *)
Definition automationLogFindFirst (automationId targetId : string)
    : M (option AutomationLog) :=
  fun w => (Ret (List.find (logMatches automationId targetId) (logs w)), w).

Definition isSuccessSince (automationId : string) (since : Z) (l : AutomationLog) : bool :=
  String.eqb (l_automationId l) automationId
  && bool_decide (l_status l = SUCCESS)
  && (since <=? l_executedAt l).

(** [prisma.automationLog.count({ where: { automationId, status: 'SUCCESS',
    executedAt: { gte: since } } })] *)
Definition automationLogCount (automationId : string) (since : Z) : M Z :=
  fun w =>
    (Ret (Z.of_nat (length (List.filter (isSuccessSince automationId since) (logs w)))), w).

(** Insert a row into the [AutomationLog] table. *)
Definition addLog (row : AutomationLog) (w : World) : World :=
  {| automations := automations w; logs := logs w ++ [row];
     events := events w; clock := clock w |}.

(** [prisma.automationLog.create({ data })]: [data] lacks [executedAt],
    which gets the column default, the current time. *)
Definition automationLogCreate (data : Z -> AutomationLog) : M unit :=
  fun w => (Ret tt, addLog (data (clock w)) w).

(** The [data] of [updateAutomationStats] applied to a row at time [now]:
    [totalExecutions] and one of the two other counters are incremented,
    [lastExecutedAt] is set. *)
Definition bumpStats (success : bool) (now : Z) (a : Automation) : Automation :=
  {| a_id := a_id a; a_status := a_status a; a_userPlan := a_userPlan a;
     a_dailyLimit := a_dailyLimit a; a_hourlyLimit := a_hourlyLimit a;
     a_totalExecutions := a_totalExecutions a + 1;
     a_successfulExecutions :=
       if success then a_successfulExecutions a + 1 else a_successfulExecutions a;
     a_failedExecutions :=
       if negb success then a_failedExecutions a + 1 else a_failedExecutions a;
     a_lastExecutedAt := Some now;
     a_triggers := a_triggers a |}.

(** [prisma.automation.update({ where: { id }, data })]; updating a row
    that does not exist throws. *)
Definition automationUpdate (id : string) (data : Automation -> Automation) : M unit :=
  fun w =>
    match automations w !! id with
    | Some a =>
        (Ret tt, {| automations := <[id := data a]> (automations w); logs := logs w;
                    events := events w; clock := clock w |})
    | None => (Throw (JsError "Record to update not found."), w)
    end.

(** *** Remote calls: each one is appended to [events] with its result *)

Definition record (c : Call) (failure : option Exn) (w : World) : World :=
  {| automations := automations w; logs := logs w;
     events := events w ++ [{| ev_call := c; ev_failure := failure |}];
     clock := clock w |}.

Definition platformSendDirectMessage (E : Env)
    (recipientUserId message accessToken : string) : M unit :=
  fun w =>
    let r := sendDirectMessage E (events w) recipientUserId message accessToken in
    let w' := record (CallSendDirectMessage recipientUserId message accessToken) r w in
    match r with
    | None => (Ret tt, w')
    | Some e => (Throw e, w')
    end.

Definition platformReplyToComment (E : Env)
    (commentId message accessToken : string) : M unit :=
  fun w =>
    let r := replyToComment E (events w) commentId message accessToken in
    let w' := record (CallReplyToComment commentId message accessToken) r w in
    match r with
    | None => (Ret tt, w')
    | Some e => (Throw e, w')
    end.

Definition platformGetMediaComments (E : Env) (mediaId accessToken : string)
    : M (list InstagramComment) :=
  fun w =>
    match getMediaComments E (events w) mediaId accessToken with
    | inr comments =>
        (Ret comments, record (CallGetMediaComments mediaId accessToken) None w)
    | inl e =>
        (Throw e, record (CallGetMediaComments mediaId accessToken) (Some e) w)
    end.

(** [instagramPlatformService.getUserIdFromComment] *)
Definition getUserIdFromComment (comment : InstagramComment) : string :=
  from_id (c_from comment).

(** [aiService.generateCommentReply]: any failure of the generator is
    rethrown as [Error('Failed to generate AI response')]. *)
Definition aiGenerateCommentReply (E : Env) (context : AIResponseContext) : M string :=
  fun w =>
    match generateCommentReply E (events w) context with
    | Some text => (Ret text, record (CallGenerateCommentReply context) None w)
    | None =>
        let e := JsError "Failed to generate AI response" in
        (Throw e, record (CallGenerateCommentReply context) (Some e) w)
    end.

(** [aiService.isAIEnabled] *)
Definition isAIEnabled (userPlan : string) : bool :=
  String.eqb userPlan "PRO" || String.eqb userPlan "ENTERPRISE".

(** ** [Date] arithmetic in server local time *)

Definition msPerSecond : Z := 1000.
Definition msPerMinute : Z := 60000.
Definition msPerHour : Z := 3600000.
Definition msPerDay : Z := 86400000.

(** [d.setHours(h, m, s, ms)] on a date with time value [t]: the new time
    value, which the call both stores in [d] and returns. *)
Definition setHours (E : Env) (t h m s ms : Z) : Z :=
  let l := t + tzOffset E in
  (l - l mod msPerDay) + h * msPerHour + m * msPerMinute + s * msPerSecond + ms
  - tzOffset E.

(** [d.setMinutes(m, s, ms)] *)
Definition setMinutes (E : Env) (t m s ms : Z) : Z :=
  let l := t + tzOffset E in
  (l - l mod msPerHour) + m * msPerMinute + s * msPerSecond + ms - tzOffset E.

(** ** The engine: [class AutomationEngine] *)

(** Truthiness of a nullable [Int] column: [null] and [0] are falsy. *)
Definition truthyLimit (limit : option Z) : option Z :=
  match limit with
  | Some n => if n =? 0 then None else Some n
  | None => None
  end.

(** Truthiness of a nullable string: [null] and the empty string are falsy. *)
Definition truthyString (s : option string) : option string :=
  match s with
  | Some s => if Js.truthy s then Some s else None
  | None => None
  end.

(** [findMatchingTrigger] *)
Fixpoint findMatchingTrigger (E : Env) (commentText : string) (triggers : list Trigger)
    : option Trigger :=
  match triggers with
  | [] => None
  | trigger :: rest =>
      match tr_keyword trigger with
      | Some keyword =>
          let matches :=
            matchKeyword E commentText (kw_keyword keyword) (kw_matchType keyword)
              (kw_caseSensitive keyword) in
          if matches then Some trigger else findMatchingTrigger E commentText rest
      | None => findMatchingTrigger E commentText rest
      end
  end.

(** [personalizeMessage] *)
Definition personalizeMessage (E : Env) (template : string) (comment : InstagramComment)
    : M string :=
  now <- newDate ;;
  ret (Js.replaceAll
         (Js.replaceAll
            (Js.replaceAll template "{username}" (c_username comment))
            "{comment}" (c_text comment))
         "{time}" (toLocaleTimeString E now)).

(** [generateResponse] *)
Definition generateResponse (E : Env) (trigger : Trigger) (comment : InstagramComment)
    (userPlan accessToken : string) : M string :=
  match tr_response trigger with
  | None => throw (JsError "No response configured for trigger")
  | Some response =>
      match bool_decide (responseType response = CUSTOM),
            truthyString (customMessage response) with
      | true, Some message => personalizeMessage E message comment
      | _, _ =>
          if bool_decide (responseType response = AI_GENERATED) then
            if negb (isAIEnabled userPlan) then
              throw (JsError "AI responses require PRO plan")
            else
              aiGenerateCommentReply E
                {| commentText := c_text comment;
                   userName := c_username comment;
                   userPrompt := truthyString (aiPrompt response) |}
          else throw (JsError "Invalid response type")
      end
  end.

(** [checkLimits].  [now] is one mutable [Date]: [setHours] moves it to the
    start of the day, and [setMinutes] is then applied to that value. *)
Definition checkLimits (E : Env) (automation : Automation) : M bool :=
  now <- newDate ;;
  let now := setHours E now 0 0 0 0 in
  let startOfDay := now in
  let now := setMinutes E now 0 0 0 in
  let startOfHour := now in
  dailyReached <-
    match truthyLimit (a_dailyLimit automation) with
    | Some dailyLimit =>
        todayCount <- automationLogCount (a_id automation) startOfDay ;;
        ret (dailyLimit <=? todayCount)
    | None => ret false
    end ;;
  if dailyReached : bool then ret false
  else
    hourlyReached <-
      match truthyLimit (a_hourlyLimit automation) with
      | Some hourlyLimit =>
          hourCount <- automationLogCount (a_id automation) startOfHour ;;
          ret (hourlyLimit <=? hourCount)
      | None => ret false
      end ;;
    if hourlyReached : bool then ret false else ret true.

(** The [data] object [createLog] builds, completed with [executedAt]. *)
Definition logData (automationId : string) (comment : InstagramComment)
    (status : LogStatus) (responseText : option string) (message : string)
    (executedAt : Z) : AutomationLog :=
  let action :=
    if bool_decide (status = SUCCESS) then
      if match responseText with
         | Some text => Js.includes text "DM"
         | None => false
         end
      then "sent_dm" else "replied_comment"
    else "skipped_comment" in
  {| l_automationId := automationId;
     l_action := action;
     l_targetId := c_id comment;
     l_targetUsername := c_username comment;
     l_targetType := "comment";
     l_status := status;
     l_message := message;
     l_responseText := responseText;
     l_metadata := {| md_commentText := c_text comment;
                      md_timestamp := c_timestamp comment;
                      md_userId := from_id (c_from comment) |};
     l_executedAt := executedAt |}.

(** [createLog] *)
Definition createLog (automationId : string) (comment : InstagramComment)
    (status : LogStatus) (responseText : option string) (message : string) : M unit :=
  automationLogCreate (logData automationId comment status responseText message).

(** [updateAutomationStats] *)
Definition updateAutomationStats (automationId : string) (success : bool) : M unit :=
  now <- newDate ;;
  automationUpdate automationId (bumpStats success now).

(** *** Batch paths: [processCommentToDMAutomation], [processCommentReplyAutomation] *)

(** [let processed = 0; let successful = 0; let failed = 0;] *)
Record Counters : Type := { n_processed : Z; n_successful : Z; n_failed : Z }.

(** [successful++; processed++;] *)
Definition countSuccess (n : Counters) : Counters :=
  {| n_processed := n_processed n + 1;
     n_successful := n_successful n + 1;
     n_failed := n_failed n |}.

(** [failed++;] *)
Definition countFailure (n : Counters) : Counters :=
  {| n_processed := n_processed n;
     n_successful := n_successful n;
     n_failed := n_failed n + 1 |}.

(** What a batch run returns; the early returns carry no
    [successful]/[failed]. *)
Record BatchResult : Type := {
  br_processed : Z;
  br_successful : option Z;
  br_failed : option Z;
  br_message : string;
}.

Definition batchEarly (message : string) : BatchResult :=
  {| br_processed := 0; br_successful := None; br_failed := None;
     br_message := message |}.

(** The [catch (error)] block of the per-comment [try], common to both
    batch paths. *)
Definition commentFailed (automationId : string) (comment : InstagramComment)
    (error : Exn) : ST (World * Counters) unit :=
  modifyLocals countFailure ;;;
  lift (createLog automationId comment FAILED None (errorMessageOr error "Unknown error")) ;;;
  lift (updateAutomationStats automationId false).

(** Body of the [for] loop of [processCommentToDMAutomation]. *)
Definition dmLoopBody (E : Env) (automationId accessToken : string)
    (automation : Automation) (comment : InstagramComment) : ST (World * Counters) unit :=
  tryCatch
    (existingLog <- lift (automationLogFindFirst automationId (c_id comment)) ;;
     match existingLog with
     | Some _ => ret tt
     | None =>
         match findMatchingTrigger E (c_text comment) (a_triggers automation) with
         | None =>
             lift (createLog automationId comment SKIPPED None "No keyword match")
         | Some matchedTrigger =>
             responseText <-
               lift (generateResponse E matchedTrigger comment
                       (a_userPlan automation) accessToken) ;;
             let recipientUserId := getUserIdFromComment comment in
             lift (platformSendDirectMessage E recipientUserId responseText accessToken) ;;;
             lift (createLog automationId comment SUCCESS (Some responseText)
                     ("DM sent to @" +:+ c_username comment)) ;;;
             modifyLocals countSuccess ;;;
             lift (updateAutomationStats automationId true)
         end
     end)
    (commentFailed automationId comment).

(** Body of the [for] loop of [processCommentReplyAutomation]. *)
Definition replyLoopBody (E : Env) (automationId accessToken : string)
    (automation : Automation) (comment : InstagramComment) : ST (World * Counters) unit :=
  tryCatch
    (existingLog <- lift (automationLogFindFirst automationId (c_id comment)) ;;
     match existingLog with
     | Some _ => ret tt
     | None =>
         match findMatchingTrigger E (c_text comment) (a_triggers automation) with
         | None =>
             lift (createLog automationId comment SKIPPED None "No keyword match")
         | Some matchedTrigger =>
             responseText <-
               lift (generateResponse E matchedTrigger comment
                       (a_userPlan automation) accessToken) ;;
             lift (platformReplyToComment E (c_id comment) responseText accessToken) ;;;
             lift (createLog automationId comment SUCCESS (Some responseText)
                     "Comment replied successfully") ;;;
             modifyLocals countSuccess ;;;
             lift (updateAutomationStats automationId true)
         end
     end)
    (commentFailed automationId comment).

(** The two batch methods differ in the loop body and in the wording of
    the final message only. *)
Definition processBatch (E : Env)
    (body : Automation -> InstagramComment -> ST (World * Counters) unit)
    (summary : Counters -> string)
    (automationId postId accessToken : string) : M BatchResult :=
  tryCatch
    (automation <- automationFindUnique automationId ;;
     match automation with
     | None => ret (batchEarly "Automation not active")
     | Some automation =>
         if negb (bool_decide (a_status automation = ACTIVE)) then
           ret (batchEarly "Automation not active")
         else
           withinLimits <- checkLimits E automation ;;
           if negb withinLimits then ret (batchEarly "Rate limit reached")
           else
             comments <- platformGetMediaComments E postId accessToken ;;
             withLocals {| n_processed := 0; n_successful := 0; n_failed := 0 |}
               (forOf comments (body automation) ;;;
                n <- getLocals ;;
                ret {| br_processed := n_processed n;
                       br_successful := Some (n_successful n);
                       br_failed := Some (n_failed n);
                       br_message := summary n |})
     end)
    (fun error => throw error).

Definition processCommentToDMAutomation (E : Env)
    (automationId postId accessToken : string) : M BatchResult :=
  processBatch E (dmLoopBody E automationId accessToken)
    (fun n => "Processed " +:+ Js.showZ (n_processed n) +:+ " comments, sent "
              +:+ Js.showZ (n_successful n) +:+ " DMs")
    automationId postId accessToken.

Definition processCommentReplyAutomation (E : Env)
    (automationId postId accessToken : string) : M BatchResult :=
  processBatch E (replyLoopBody E automationId accessToken)
    (fun n => "Processed " +:+ Js.showZ (n_processed n) +:+ " comments, replied to "
              +:+ Js.showZ (n_successful n))
    automationId postId accessToken.

(** *** Webhook path: [processSingleComment] *)

(** [const actions = []; const responses = []; let hasError = false;
    let errorMessage = '';] *)
Record Locals : Type := {
  actions : list string;
  responses : list string;
  hasError : bool;
  errorMessage : string;
}.

Definition initialLocals : Locals :=
  {| actions := []; responses := []; hasError := false; errorMessage := EmptyString |}.

Definition pushAction (action response : string) (l : Locals) : Locals :=
  {| actions := actions l ++ [action];
     responses := responses l ++ [response];
     hasError := hasError l;
     errorMessage := errorMessage l |}.

Definition setError (message : string) (l : Locals) : Locals :=
  {| actions := actions l; responses := responses l;
     hasError := true; errorMessage := message |}.

Record SingleResult : Type := {
  sr_processed : bool;
  sr_message : string;
  sr_response : option string;
  sr_actions : option (list string);
}.

Definition notProcessed (message : string) : SingleResult :=
  {| sr_processed := false; sr_message := message;
     sr_response := None; sr_actions := None |}.

(** ACTION 1: send the DM (mandatory). *)
Definition dmAction (E : Env) (automationId accessToken : string)
    (automation : Automation) (matchedTrigger : Trigger) (commentData : InstagramComment)
    : ST (World * Locals) unit :=
  tryCatch
    (dmResponse <-
       lift (generateResponse E matchedTrigger commentData
               (a_userPlan automation) accessToken) ;;
     lift (platformSendDirectMessage E (from_id (c_from commentData)) dmResponse
             accessToken) ;;;
     modifyLocals (pushAction "sent_dm" ("DM: " +:+ dmResponse)))
    (fun dmError =>
       let message := errorMessageOr dmError "Failed to send DM" in
       modifyLocals (setError message) ;;;
       lift (createLog automationId commentData FAILED None ("DM failed: " +:+ message))).

(** [(matchedTrigger.config as any)?.commentReply] *)
Definition commentReplyText (matchedTrigger : Trigger) : option JsValue :=
  match tr_config matchedTrigger with
  | Some config => commentReply config
  | None => None
  end.

(** The condition [commentReplyText && commentReplyText.trim()]: the
    template when it holds, nothing when it does not.  Only a string has
    [trim]; on any other truthy value the call is a TypeError (with the
    message V8 gives it). *)
Definition replyCondition (commentReplyText : option JsValue) : Exn + option string :=
  match commentReplyText with
  | None => inr None
  | Some (JsString text) =>
      inr (if Js.truthy text && Js.truthy (Js.trim text) then Some text else None)
  | Some value =>
      if truthyValue value
      then inl (JsError "commentReplyText.trim is not a function")
      else inr None
  end.

(** ACTION 2: reply to the comment (optional).  The condition is evaluated
    outside the [try] of the action. *)
Definition replyAction (E : Env) (automationId accessToken : string)
    (matchedTrigger : Trigger) (commentData : InstagramComment)
    : ST (World * Locals) unit :=
  match replyCondition (commentReplyText matchedTrigger) with
  | inl typeError => throw typeError
  | inr (Some text) =>
      tryCatch
        (personalizedReply <- lift (personalizeMessage E text commentData) ;;
         lift (platformReplyToComment E (c_id commentData) personalizedReply
                 accessToken) ;;;
         modifyLocals (pushAction "replied_comment" ("Comment: " +:+ personalizedReply)))
        (fun replyError =>
           let replyErrorMsg := errorMessageOr replyError "Failed to reply to comment" in
           l <- getLocals ;;
           let dmSent := (0 <? length (actions l))%nat in
           lift (createLog automationId commentData
                   (if dmSent then SUCCESS else FAILED)
                   (Some (Js.join " | " (responses l)))
                   ("Comment reply failed: " +:+ replyErrorMsg
                    +:+ (if dmSent then " (DM sent successfully)" else EmptyString))))
  | inr None => ret tt
  end.

(** FINAL RESULT *)
Definition finalResult (automationId : string) (commentData : InstagramComment)
    : ST (World * Locals) SingleResult :=
  l <- getLocals ;;
  if (length (actions l) =? 0)%nat then
    lift (updateAutomationStats automationId false) ;;;
    ret (notProcessed ("Failed: " +:+ errorMessage l))
  else
    lift (createLog automationId commentData SUCCESS
            (Some (Js.join " | " (responses l)))
            ("Actions completed: " +:+ Js.join ", " (actions l))) ;;;
    lift (updateAutomationStats automationId true) ;;;
    ret {| sr_processed := true;
           sr_message := "Success: " +:+ Js.join " + " (actions l);
           sr_response := Some (Js.join " | " (responses l));
           sr_actions := Some (actions l) |}.

(** The dual-action block and the final result, with their locals. *)
Definition dualAction (E : Env) (automationId accessToken : string)
    (automation : Automation) (matchedTrigger : Trigger) (commentData : InstagramComment)
    : M SingleResult :=
  withLocals initialLocals
    (dmAction E automationId accessToken automation matchedTrigger commentData ;;;
     replyAction E automationId accessToken matchedTrigger commentData ;;;
     finalResult automationId commentData).

Definition processSingleComment (E : Env) (automationId : string)
    (commentData : InstagramComment) (accessToken : string) : M SingleResult :=
  tryCatch
    (automation <- automationFindUnique automationId ;;
     match automation with
     | None => ret (notProcessed "Automation not active")
     | Some automation =>
         if negb (bool_decide (a_status automation = ACTIVE)) then
           ret (notProcessed "Automation not active")
         else
           existingLog <- automationLogFindFirst automationId (c_id commentData) ;;
           match existingLog with
           | Some _ => ret (notProcessed "Already processed")
           | None =>
               match findMatchingTrigger E (c_text commentData) (a_triggers automation) with
               | None =>
                   createLog automationId commentData SKIPPED None "No keyword match" ;;;
                   ret (notProcessed "No keyword match")
               | Some matchedTrigger =>
                   withinLimits <- checkLimits E automation ;;
                   if negb withinLimits then ret (notProcessed "Rate limit reached")
                   else
                     dualAction E automationId accessToken automation matchedTrigger
                       commentData
               end
           end
     end)
    (fun error =>
       createLog automationId commentData FAILED None
         (errorMessageOr error "Unknown error") ;;;
       updateAutomationStats automationId false ;;;
       throw error).

(** ** The specification's wording of the matcher and of the rate limiter *)

Inductive MatchMode : Type := EXACT | CONTAINS | STARTS_WITH | ENDS_WITH | REGEX.

(** The mode a [matchType] string names; an unknown one is CONTAINS. *)
Definition modeOf (matchType : string) : MatchMode :=
  if String.eqb matchType "EXACT" then EXACT
  else if String.eqb matchType "STARTS_WITH" then STARTS_WITH
  else if String.eqb matchType "ENDS_WITH" then ENDS_WITH
  else if String.eqb matchType "REGEX" then REGEX
  else CONTAINS.

Definition IsPrefix (k s : string) : Prop := exists b, s = k +:+ b.
Definition IsSuffix (k s : string) : Prop := exists a, s = a +:+ k.
Definition IsSubstring (k s : string) : Prop := exists a b, s = a +:+ k +:+ b.

(** Section 4.1 of the specification, as a relation. *)
Definition matchKeyword_spec (E : Env) (text keyword matchType : string)
    (caseSensitive : bool) : Prop :=
  let normalize s := if caseSensitive then s else toLowerCase E s in
  match modeOf matchType with
  | EXACT => normalize text = normalize keyword
  | CONTAINS => IsSubstring (normalize keyword) (normalize text)
  | STARTS_WITH => IsPrefix (normalize keyword) (normalize text)
  | ENDS_WITH => IsSuffix (normalize keyword) (normalize text)
  | REGEX =>
      exists test,
        regExp E keyword (if caseSensitive then EmptyString else "i") = Some test
        /\ test text = true
  end.

(** A trigger matches a text when it has a keyword and the keyword
    matches. *)
Definition triggerMatches (E : Env) (text : string) (t : Trigger) : Prop :=
  exists k,
    tr_keyword t = Some k
    /\ matchKeyword E text (kw_keyword k) (kw_matchType k) (kw_caseSensitive k) = true.

(** Remote actions as they show in the event history. *)
Definition isDmSent (e : Event) : bool :=
  match ev_call e, ev_failure e with
  | CallSendDirectMessage _ _ _, None => true
  | _, _ => false
  end.

Definition isReplySent (e : Event) : bool :=
  match ev_call e, ev_failure e with
  | CallReplyToComment _ _ _, None => true
  | _, _ => false
  end.

Definition isDmFailed (e : Event) : bool :=
  match ev_call e, ev_failure e with
  | CallSendDirectMessage _ _ _, Some _ => true
  | _, _ => false
  end.

Definition isReplyFailed (e : Event) : bool :=
  match ev_call e, ev_failure e with
  | CallReplyToComment _ _ _, Some _ => true
  | _, _ => false
  end.

(** Calls that act on the platform (a DM or a public reply). *)
Definition isAction (e : Event) : bool :=
  match ev_call e with
  | CallSendDirectMessage _ _ _ | CallReplyToComment _ _ _ => true
  | CallGetMediaComments _ _ | CallGenerateCommentReply _ => false
  end.

(** [anyEvent p evs]: some event of [evs] satisfies [p]. *)
Definition anyEvent (p : Event -> bool) (evs : list Event) : bool := existsb p evs.

(** [w'] is [w] with [rows] appended to the log table and [evs] to the
    event history; automations and clock are the same. *)
Definition Extends (w w' : World) (rows : list AutomationLog) (evs : list Event) : Prop :=
  automations w' = automations w
  /\ clock w' = clock w
  /\ logs w' = logs w ++ rows
  /\ events w' = events w ++ evs.

(** *** Outcomes of the two actions of [processSingleComment]

    What the DM action and the reply action came to, and what the method
    then logs and returns, as functions of those two outcomes. *)

Inductive DmOutcome : Type :=
| DmSent (text : string)                  (* generated and delivered *)
| DmRejected (text : string) (error : Exn) (* generated, the platform call threw *)
| DmNotGenerated (error : Exn).            (* [generateResponse] threw *)

Inductive ReplyOutcome : Type :=
| ReplyNotConfigured
| ReplySent (text : string)
| ReplyFailed (text : string) (error : Exn).

Definition dmSucceeded (dm : DmOutcome) : bool :=
  match dm with DmSent _ => true | _ => false end.

Definition dmError (dm : DmOutcome) : option Exn :=
  match dm with
  | DmSent _ => None
  | DmRejected _ error | DmNotGenerated error => Some error
  end.

Definition localsAfterDm (dm : DmOutcome) : Locals :=
  match dm with
  | DmSent text =>
      {| actions := ["sent_dm"]; responses := ["DM: " +:+ text];
         hasError := false; errorMessage := EmptyString |}
  | DmRejected _ error | DmNotGenerated error =>
      {| actions := []; responses := []; hasError := true;
         errorMessage := errorMessageOr error "Failed to send DM" |}
  end.

Definition localsAfterReply (dm : DmOutcome) (reply : ReplyOutcome) : Locals :=
  match reply with
  | ReplySent text =>
      pushAction "replied_comment" ("Comment: " +:+ text) (localsAfterDm dm)
  | ReplyNotConfigured | ReplyFailed _ _ => localsAfterDm dm
  end.

Definition dmRows (automationId : string) (comment : InstagramComment) (now : Z)
    (dm : DmOutcome) : list AutomationLog :=
  match dmError dm with
  | None => []
  | Some error =>
      [logData automationId comment FAILED None
         ("DM failed: " +:+ errorMessageOr error "Failed to send DM") now]
  end.

Definition replyRows (automationId : string) (comment : InstagramComment) (now : Z)
    (dm : DmOutcome) (reply : ReplyOutcome) : list AutomationLog :=
  match reply with
  | ReplyFailed _ error =>
      [logData automationId comment
         (if dmSucceeded dm then SUCCESS else FAILED)
         (Some (Js.join " | " (responses (localsAfterDm dm))))
         ("Comment reply failed: " +:+ errorMessageOr error "Failed to reply to comment"
          +:+ (if dmSucceeded dm then " (DM sent successfully)" else EmptyString))
         now]
  | ReplyNotConfigured | ReplySent _ => []
  end.

(** The platform calls the two actions made. *)
Definition dmEvents (comment : InstagramComment) (accessToken : string)
    (dm : DmOutcome) : list Event :=
  match dm with
  | DmSent text =>
      [{| ev_call := CallSendDirectMessage (from_id (c_from comment)) text accessToken;
          ev_failure := None |}]
  | DmRejected text error =>
      [{| ev_call := CallSendDirectMessage (from_id (c_from comment)) text accessToken;
          ev_failure := Some error |}]
  | DmNotGenerated _ => []
  end.

Definition replyEvents (comment : InstagramComment) (accessToken : string)
    (reply : ReplyOutcome) : list Event :=
  match reply with
  | ReplyNotConfigured => []
  | ReplySent text =>
      [{| ev_call := CallReplyToComment (c_id comment) text accessToken;
          ev_failure := None |}]
  | ReplyFailed text error =>
      [{| ev_call := CallReplyToComment (c_id comment) text accessToken;
          ev_failure := Some error |}]
  end.

Definition finalRows (automationId : string) (comment : InstagramComment) (now : Z)
    (l : Locals) : list AutomationLog :=
  match actions l with
  | [] => []
  | _ :: _ =>
      [logData automationId comment SUCCESS
         (Some (Js.join " | " (responses l)))
         ("Actions completed: " +:+ Js.join ", " (actions l)) now]
  end.

Definition anySucceeded (l : Locals) : bool :=
  match actions l with [] => false | _ :: _ => true end.

Definition resultOf (l : Locals) : SingleResult :=
  match actions l with
  | [] => notProcessed ("Failed: " +:+ errorMessage l)
  | _ :: _ =>
      {| sr_processed := true;
         sr_message := "Success: " +:+ Js.join " + " (actions l);
         sr_response := Some (Js.join " | " (responses l));
         sr_actions := Some (actions l) |}
  end.

(** All rows one dual-action run writes, in order. *)
Definition dualRows (automationId : string) (comment : InstagramComment) (now : Z)
    (dm : DmOutcome) (reply : ReplyOutcome) : list AutomationLog :=
  dmRows automationId comment now dm
  ++ replyRows automationId comment now dm reply
  ++ finalRows automationId comment now (localsAfterReply dm reply).

(** Number of rows of [rows] with status [status]. *)
Definition countStatus (status : LogStatus) (rows : list AutomationLog) : Z :=
  Z.of_nat (length (List.filter (fun row => bool_decide (l_status row = status)) rows)).

(** What a stretch of a batch loop does to the counters, in terms of the
    rows it writes: [processed] and [successful] grow together, by one for
    each SUCCESS row; [failed] grows by one for each FAILED row.  The
    automation is still there afterwards. *)
Definition IterationCounts (automationId : string) (w : World) (n : Counters)
    (w' : World) (n' : Counters) (rows : list AutomationLog) : Prop :=
  (exists a1, automations w' !! automationId = Some a1)
  /\ logs w' = logs w ++ rows
  /\ n_processed n' = n_processed n + countStatus SUCCESS rows
  /\ n_successful n' = n_successful n + countStatus SUCCESS rows
  /\ n_failed n' = n_failed n + countStatus FAILED rows.

(** The same world at a later (or any other) time [t]. *)
Definition atTime (t : Z) (w : World) : World :=
  {| automations := automations w; logs := logs w; events := events w; clock := t |}.

(** The rows of automation [automationId] for comment [targetId]. *)
Definition logsFor (automationId targetId : string) (w : World) : list AutomationLog :=
  List.filter (logMatches automationId targetId) (logs w).

(** Start of the local calendar day and of the local clock hour of [t]. *)
Definition startOfDay_spec (E : Env) (t : Z) : Z :=
  let l := t + tzOffset E in l - l mod msPerDay - tzOffset E.

Definition startOfHour_spec (E : Env) (t : Z) : Z :=
  let l := t + tzOffset E in l - l mod msPerHour - tzOffset E.

Definition successCountSince (automationId : string) (since : Z) (w : World) : Z :=
  Z.of_nat (length (List.filter (isSuccessSince automationId since) (logs w))).

(** Section 4.3 of the specification: each configured cap must be
    strictly above the count of its own window. *)
Definition checkLimits_spec (E : Env) (automation : Automation) (w : World) : bool :=
  match a_dailyLimit automation with
  | Some dailyLimit =>
      successCountSince (a_id automation) (startOfDay_spec E (clock w)) w <? dailyLimit
  | None => true
  end
  &&
  match a_hourlyLimit automation with
  | Some hourlyLimit =>
      successCountSince (a_id automation) (startOfHour_spec E (clock w)) w <? hourlyLimit
  | None => true
  end.

(** ** A concrete deployment used by the examples *)

Module Scenario.

(** An environment whose platform answers [dm] to every DM and [reply]
    to every comment reply; no regular expression engine, no generator. *)
Definition env (dm reply : option Exn) : Env :=
  {| toLowerCase := Js.asciiToLowerCase;
     regExp := fun _ _ => None;
     toLocaleTimeString := fun _ => "10:15:00 AM";
     tzOffset := 0;
     getMediaComments := fun _ _ _ => inr [];
     sendDirectMessage := fun _ _ _ _ => dm;
     replyToComment := fun _ _ _ _ => reply;
     generateCommentReply := fun _ _ => None |}.

Definition kw (pattern : string) : Keyword :=
  {| kw_keyword := pattern; kw_matchType := "CONTAINS"; kw_caseSensitive := false |}.

Definition thanks : AutoResponse :=
  {| responseType := CUSTOM;
     customMessage := Some "Thanks {username}, check your DMs!";
     aiPrompt := None |}.

Definition trigger (id pattern : string) (reply : option string) : Trigger :=
  {| tr_id := id; tr_isActive := true; tr_keyword := Some (kw pattern);
     tr_response := Some thanks;
     tr_config := Some {| commentReply := JsString <$> reply |} |}.

Definition automation (status : AutomationStatus) (daily hourly : option Z)
    (triggers : list Trigger) : Automation :=
  {| a_id := "a1"; a_status := status; a_userPlan := "FREE";
     a_dailyLimit := daily; a_hourlyLimit := hourly;
     a_totalExecutions := 0; a_successfulExecutions := 0; a_failedExecutions := 0;
     a_lastExecutedAt := None; a_triggers := triggers |}.

Definition comment : InstagramComment :=
  {| c_id := "c1"; c_text := "How much does it cost?"; c_username := "buyer1";
     c_timestamp := "2025-10-26T10:15:00+0000";
     c_from := {| from_id := "u1"; from_username := "buyer1" |} |}.

(** A post with three comments: [c1] and [c2] ask for the cost, [c3]
    does not; the platform refuses to message or answer [buyer2]. *)
Definition comment2 : InstagramComment :=
  {| c_id := "c2"; c_text := "what does it COST"; c_username := "buyer2";
     c_timestamp := "2025-10-26T10:16:00+0000";
     c_from := {| from_id := "u2"; from_username := "buyer2" |} |}.

Definition comment3 : InstagramComment :=
  {| c_id := "c3"; c_text := "nice photo"; c_username := "fan";
     c_timestamp := "2025-10-26T10:17:00+0000";
     c_from := {| from_id := "u3"; from_username := "fan" |} |}.

Definition batchEnv : Env :=
  {| toLowerCase := Js.asciiToLowerCase;
     regExp := fun _ _ => None;
     toLocaleTimeString := fun _ => "10:15:00 AM";
     tzOffset := 0;
     getMediaComments := fun _ _ _ => inr [comment; comment2; comment3];
     sendDirectMessage := fun _ recipient _ _ =>
       if String.eqb recipient "u2"
       then Some (JsError "This user cannot receive messages") else None;
     replyToComment := fun _ commentId _ _ =>
       if String.eqb commentId "c2"
       then Some (JsError "Comment replies are disabled") else None;
     generateCommentReply := fun _ _ => None |}.

(** A log row of automation [a1] for comment [target] at time [at]. *)
Definition logRow (target : string) (status : LogStatus) (at_ : Z) : AutomationLog :=
  {| l_automationId := "a1"; l_action := "sent_dm"; l_targetId := target;
     l_targetUsername := "someone"; l_targetType := "comment"; l_status := status;
     l_message := "Actions completed: sent_dm"; l_responseText := Some "DM: hi";
     l_metadata := {| md_commentText := "cost"; md_timestamp := EmptyString; md_userId := "u0" |};
     l_executedAt := at_ |}.

Definition world (a : Automation) (rows : list AutomationLog) (now : Z) : World :=
  {| automations := {[ "a1" := a ]}; logs := rows; events := []; clock := now |}.

(** The ordering example: T1 on "price", T2 on "cost". *)
Definition T1 : Trigger := trigger "T1" "price" None.
Definition T2 : Trigger := trigger "T2" "cost" None.

(** 15:30:00 on day 20000 after the epoch, and 10:00:00 the same day. *)
Definition halfPastThree : Z := 20000 * msPerDay + 15 * msPerHour + 30 * msPerMinute.
Definition tenOClock : Z := 20000 * msPerDay + 10 * msPerHour.

End Scenario.



(** ** Further methods of the engine *)

(** The batch loop body with its platform call left open: [dmLoopBody] and
    [replyLoopBody] are its two instances. *)
Definition batchLoopBody (E : Env) (automationId accessToken : string)
    (send : InstagramComment -> string -> M unit)
    (successMessage : InstagramComment -> string)
    (automation : Automation) (comment : InstagramComment) : ST (World * Counters) unit :=
  tryCatch
    (existingLog <- lift (automationLogFindFirst automationId (c_id comment)) ;;
     match existingLog with
     | Some _ => ret tt
     | None =>
         match findMatchingTrigger E (c_text comment) (a_triggers automation) with
         | None =>
             lift (createLog automationId comment SKIPPED None "No keyword match")
         | Some matchedTrigger =>
             responseText <-
               lift (generateResponse E matchedTrigger comment
                       (a_userPlan automation) accessToken) ;;
             lift (send comment responseText) ;;;
             lift (createLog automationId comment SUCCESS (Some responseText)
                     (successMessage comment)) ;;;
             modifyLocals countSuccess ;;;
             lift (updateAutomationStats automationId true)
         end
     end)
    (commentFailed automationId comment).

(** The columns and relations of an automation that the paths above do not
    read: its [type], the [accessToken] of its integration (by automation
    id), and the [postId] of the post a trigger monitors (by trigger id). *)
Inductive AutomationType : Type :=
| COMMENT_TO_DM | COMMENT_REPLY | DM_REPLY | AUTO_LIKE | AUTO_FOLLOW
| AUTO_COMMENT | AUTO_UNFOLLOW | SCHEDULED_POST | STORY_VIEW.

Record Relations : Type := {
  rel_type : string -> AutomationType;
  rel_accessToken : string -> option string;
  rel_postId : string -> option string;
}.

(** [type: { in: ['COMMENT_TO_DM', 'COMMENT_REPLY'] }] *)
Definition isCommentType (t : AutomationType) : bool :=
  match t with
  | COMMENT_TO_DM | COMMENT_REPLY => true
  | _ => false
  end.

(** [prisma.automation.findMany({ where: { status: 'ACTIVE', type: { in:
    [...] } }, include: ... })], in the order of the table. *)
Definition automationFindManyActive (R : Relations) : M (list Automation) :=
  fun w =>
    (Ret (List.map activeTriggers
            (List.filter
               (fun a => bool_decide (a_status a = ACTIVE)
                         && isCommentType (rel_type R (a_id a)))
               (List.map snd (map_to_list (automations w))))), w).

(** [let totalProcessed = 0; let totalSuccessful = 0; let totalFailed = 0;] *)
Record RunTotals : Type := {
  t_processed : Z;
  t_successful : Z;
  t_failed : Z;
}.

(** [totalProcessed += result.processed; totalSuccessful +=
    result.successful ?? 0; totalFailed += result.failed ?? 0;] *)
Definition addResult (result : BatchResult) (t : RunTotals) : RunTotals :=
  {| t_processed := t_processed t + br_processed result;
     t_successful := t_successful t + default 0 (br_successful result);
     t_failed := t_failed t + default 0 (br_failed result) |}.

(** [totalFailed++;] in the [catch] block of a post. *)
Definition countPostFailure (t : RunTotals) : RunTotals :=
  {| t_processed := t_processed t;
     t_successful := t_successful t;
     t_failed := t_failed t + 1 |}.

Record RunResult : Type := {
  rr_success : bool;
  rr_processed : Z;
  rr_totalProcessed : Z;
  rr_totalSuccessful : Z;
  rr_totalFailed : Z;
}.

(** [automation.triggers.filter(t => t.post).map(t => t.post!)], as the
    [postId]s the loop uses. *)
Definition monitoredPosts (R : Relations) (automation : Automation) : list string :=
  omap (fun t => rel_postId R (tr_id t)) (a_triggers automation).

(** Body of the inner loop of [runActiveAutomations], one monitored post. *)
Definition runPost (E : Env) (R : Relations) (automation : Automation)
    (accessToken postId : string) : ST (World * RunTotals) unit :=
  tryCatch
    (result <-
       match rel_type R (a_id automation) with
       | COMMENT_TO_DM =>
           r <- lift (processCommentToDMAutomation E (a_id automation) postId accessToken) ;;
           ret (Some r)
       | COMMENT_REPLY =>
           r <- lift (processCommentReplyAutomation E (a_id automation) postId accessToken) ;;
           ret (Some r)
       | _ => ret None
       end ;;
     match result with
     | Some result => modifyLocals (addResult result)
     | None => ret tt
     end)
    (fun error => modifyLocals countPostFailure).

(** Body of the outer loop of [runActiveAutomations], one automation. *)
Definition runAutomation (E : Env) (R : Relations) (automation : Automation)
    : ST (World * RunTotals) unit :=
  match truthyString (rel_accessToken R (a_id automation)) with
  | None => ret tt
  | Some accessToken =>
      forOf (monitoredPosts R automation) (runPost E R automation accessToken)
  end.

(** [runActiveAutomations] *)
Definition runActiveAutomations (E : Env) (R : Relations) : M RunResult :=
  tryCatch
    (activeAutomations <- automationFindManyActive R ;;
     withLocals {| t_processed := 0; t_successful := 0; t_failed := 0 |}
       (forOf activeAutomations (runAutomation E R) ;;;
        t <- getLocals ;;
        ret {| rr_success := true;
               rr_processed := Z.of_nat (length activeAutomations);
               rr_totalProcessed := t_processed t;
               rr_totalSuccessful := t_successful t;
               rr_totalFailed := t_failed t |}))
    (fun error => throw error).

(** What the totals of [runActiveAutomations] satisfy at every point of
    its loops. *)
Definition TotalsBalanced (s : World * RunTotals) : Prop :=
  t_processed (snd s) = t_successful (snd s)
  /\ 0 <= t_processed (snd s)
  /\ 0 <= t_failed (snd s).

Record MatchedComment : Type := {
  mc_username : string;
  mc_text : string;
  mc_timestamp : string;
}.

Record TestResult : Type := {
  ts_success : bool;
  ts_totalComments : Z;
  ts_matchedComments : Z;
  ts_matches : list MatchedComment;
}.

(** [testAutomation] *)
Definition testAutomation (E : Env) (R : Relations) (automationId postId : string)
    : M TestResult :=
  tryCatch
    (automation <- automationFindUnique automationId ;;
     match automation with
     | None => throw (JsError "Automation not found")
     | Some automation =>
         match truthyString (rel_accessToken R (a_id automation)) with
         | None => throw (JsError "Integration not configured properly")
         | Some accessToken =>
             comments <- platformGetMediaComments E postId accessToken ;;
             let matchedComments :=
               List.filter
                 (fun comment =>
                    match findMatchingTrigger E (c_text comment) (a_triggers automation) with
                    | Some _ => true
                    | None => false
                    end)
                 comments in
             ret {| ts_success := true;
                    ts_totalComments := Z.of_nat (length comments);
                    ts_matchedComments := Z.of_nat (length matchedComments);
                    ts_matches :=
                      List.map (fun c => {| mc_username := c_username c;
                                            mc_text := c_text c;
                                            mc_timestamp := c_timestamp c |})
                        matchedComments |}
         end
     end)
    (fun error => throw error).

(** One entry of [stats.byDay]. *)
Record DayStats : Type := { d_success : Z; d_failed : Z; d_skipped : Z }.

Record Stats : Type := {
  st_total : Z;
  st_successful : Z;
  st_failed : Z;
  st_skipped : Z;
  st_byDay : gmap string DayStats;
}.

(** [if (log.status === 'SUCCESS') ...success++ else if (... 'FAILED')
    ...failed++ else ...skipped++] *)
Definition countInDay (status : LogStatus) (d : DayStats) : DayStats :=
  match status with
  | SUCCESS => {| d_success := d_success d + 1; d_failed := d_failed d;
                  d_skipped := d_skipped d |}
  | FAILED => {| d_success := d_success d; d_failed := d_failed d + 1;
                 d_skipped := d_skipped d |}
  | SKIPPED => {| d_success := d_success d; d_failed := d_failed d;
                  d_skipped := d_skipped d + 1 |}
  end.

(** Body of [logs.forEach]: [isoDay] is
    [log.executedAt.toISOString().split('T')[0]]. *)
Definition groupByDay (isoDay : Z -> string) (byDay : gmap string DayStats)
    (log : AutomationLog) : gmap string DayStats :=
  let day := isoDay (l_executedAt log) in
  let entry :=
    match byDay !! day with
    | Some d => d
    | None => {| d_success := 0; d_failed := 0; d_skipped := 0 |}
    end in
  <[day := countInDay (l_status log) entry]> byDay.

Definition countWithStatus (status : LogStatus) (rows : list AutomationLog) : Z :=
  Z.of_nat (length (List.filter (fun l => bool_decide (l_status l = status)) rows)).

(** [orderBy: { executedAt: 'desc' }] *)
Definition newerFirst (a b : AutomationLog) : Prop := l_executedAt b <= l_executedAt a.

#[global] Instance newerFirst_dec : RelDecision newerFirst :=
  fun a b => decide (l_executedAt b <= l_executedAt a).

(** [prisma.automationLog.findMany({ where: { automationId, executedAt: {
    gte: since } }, orderBy: { executedAt: 'desc' } })] *)
Definition automationLogFindManySince (automationId : string) (since : Z)
    : M (list AutomationLog) :=
  fun w =>
    (Ret (merge_sort newerFirst
            (List.filter
               (fun l => String.eqb (l_automationId l) automationId
                         && (since <=? l_executedAt l))
               (logs w))), w).

(** [getAutomationStats]; [startDate.setDate(startDate.getDate() - days)]
    moves the date back by [days] local days. *)
Definition getAutomationStats (isoDay : Z -> string) (automationId : string) (days : Z)
    : M Stats :=
  tryCatch
    (startDate <- newDate ;;
     let startDate := startDate - days * msPerDay in
     logs <- automationLogFindManySince automationId startDate ;;
     ret {| st_total := Z.of_nat (length logs);
            st_successful := countWithStatus SUCCESS logs;
            st_failed := countWithStatus FAILED logs;
            st_skipped := countWithStatus SKIPPED logs;
            st_byDay := fold_left (groupByDay isoDay) logs ∅ |})
    (fun error => throw error).

(** The rows [getAutomationStats] reads, in table order: those of the
    automation executed at [since] or later. *)
Definition rowsSince (automationId : string) (since : Z) (w : World)
    : list AutomationLog :=
  List.filter
    (fun l => String.eqb (l_automationId l) automationId && (since <=? l_executedAt l))
    (logs w).

(** The rows of [rows] executed on day [day]. *)
Definition rowsOnDay (isoDay : Z -> string) (day : string) (rows : list AutomationLog)
    : list AutomationLog :=
  List.filter (fun l => String.eqb (isoDay (l_executedAt l)) day) rows.

(** An entry of [byDay] with the status counts of [rows] added. *)
Definition addDayCounts (d : DayStats) (rows : list AutomationLog) : DayStats :=
  {| d_success := d_success d + countWithStatus SUCCESS rows;
     d_failed := d_failed d + countWithStatus FAILED rows;
     d_skipped := d_skipped d + countWithStatus SKIPPED rows |}.

(** ** More of the concrete deployment *)

(** Automation [a1] is a COMMENT_TO_DM automation with a token, and its
    trigger [t1] monitors [post1]. *)
Definition scenarioRelations : Relations :=
  {| rel_type := fun _ => COMMENT_TO_DM;
     rel_accessToken := fun id => if String.eqb id "a1" then Some "tok" else None;
     rel_postId := fun id => if String.eqb id "t1" then Some "post1" else None |}.

(** A response that asks the generator. *)
Definition scenarioAiResponse : AutoResponse :=
  {| responseType := AI_GENERATED; customMessage := None;
     aiPrompt := Some "Be brief" |}.

Definition scenarioAiTrigger : Trigger :=
  {| tr_id := "t1"; tr_isActive := true; tr_keyword := Some (Scenario.kw "cost");
     tr_response := Some scenarioAiResponse;
     tr_config := Some {| commentReply := None |} |}.

(** A trigger whose response is of the TEMPLATE type. *)
Definition scenarioTemplateTrigger : Trigger :=
  {| tr_id := "t1"; tr_isActive := true; tr_keyword := Some (Scenario.kw "cost");
     tr_response := Some {| responseType := TEMPLATE; customMessage := Some "Hello";
                            aiPrompt := None |};
     tr_config := Some {| commentReply := None |} |}.

(** A platform with a working generator, and one whose comment endpoint
    is down. *)
Definition scenarioAiEnv : Env :=
  {| toLowerCase := Js.asciiToLowerCase;
     regExp := fun _ _ => None;
     toLocaleTimeString := fun _ => "10:15:00 AM";
     tzOffset := 0;
     getMediaComments := fun _ _ _ => inr [];
     sendDirectMessage := fun _ _ _ _ => None;
     replyToComment := fun _ _ _ _ => None;
     generateCommentReply := fun _ context =>
       Some ("Hi " +:+ userName context +:+ ", it is {time}") |}.

Definition scenarioFetchDown : Env :=
  {| toLowerCase := Js.asciiToLowerCase;
     regExp := fun _ _ => None;
     toLocaleTimeString := fun _ => "10:15:00 AM";
     tzOffset := 0;
     getMediaComments := fun _ _ _ => inl (JsError "Failed to fetch comments");
     sendDirectMessage := fun _ _ _ _ => None;
     replyToComment := fun _ _ _ _ => None;
     generateCommentReply := fun _ _ => None |}.

(** The shop of the examples: automation [a1], one trigger on "cost". *)
Definition scenarioShop (daily : option Z) : Automation :=
  Scenario.automation ACTIVE daily None [Scenario.trigger "t1" "cost" None].

(** A trigger on "cost" that has no Response but carries a reply
    template, and one whose stored config is [{ commentReply: 5 }]. *)
Definition scenarioReplyOnly : Trigger :=
  {| tr_id := "t1"; tr_isActive := true; tr_keyword := Some (Scenario.kw "cost");
     tr_response := None;
     tr_config :=
       Some {| commentReply := Some (JsString "Check your DMs, {username}!") |} |}.

Definition scenarioIllTyped : Trigger :=
  {| tr_id := "t1"; tr_isActive := true; tr_keyword := Some (Scenario.kw "cost");
     tr_response := Some Scenario.thanks;
     tr_config := Some {| commentReply := Some (JsNumber 5) |} |}.

(** * Properties *)

(** ** Strings *)

Section StringFacts.

Implicit Types s k a b : string.

Lemma append_cons c a b : String c a +:+ b = String c (a +:+ b).
Proof. reflexivity. Qed.

Lemma append_nil_l b : EmptyString +:+ b = b.
Proof. reflexivity. Qed.

Lemma length_append a b :
  String.length (a +:+ b) = (String.length a + String.length b)%nat.
Proof.
  induction a as [|c a IH]; [reflexivity|].
  rewrite append_cons. simpl. now rewrite IH.
Qed.

Lemma prefix_IsPrefix k s : String.prefix k s = true <-> IsPrefix k s.
Proof.
  unfold IsPrefix. revert s.
  induction k as [|c k IH]; intros [|d s]; simpl.
  - split; [now exists EmptyString | reflexivity].
  - split; [now exists (String d s) | reflexivity].
  - split; [discriminate | intros [b Hb]; discriminate].
  - destruct (ascii_dec c d) as [->|Hne].
    + rewrite IH. split; intros [b Hb]; exists b; rewrite append_cons in *; congruence.
    + split; [discriminate | intros [b Hb]; rewrite append_cons in Hb; congruence].
Qed.

Lemma includes_nil k : Js.includes EmptyString k = String.prefix k EmptyString.
Proof. unfold Js.includes. apply orb_false_r. Qed.

Lemma includes_cons c s k :
  Js.includes (String c s) k = String.prefix k (String c s) || Js.includes s k.
Proof. reflexivity. Qed.

Lemma includes_IsSubstring s k : Js.includes s k = true <-> IsSubstring k s.
Proof.
  unfold IsSubstring.
  induction s as [|c s IH].
  - rewrite includes_nil, prefix_IsPrefix. split.
    + intros [b Hb]. now exists EmptyString, b.
    + intros (a & b & Hab). destruct a; [now exists b | discriminate].
  - rewrite includes_cons, orb_true_iff, prefix_IsPrefix, IH. split.
    + intros [[b Hb] | (a & b & Hab)].
      * now exists EmptyString, b.
      * exists (String c a), b. rewrite append_cons. now rewrite Hab.
    + intros (a & b & Hab). destruct a as [|d a].
      * left. now exists b.
      * right. exists a, b. rewrite append_cons in Hab. congruence.
Qed.

Lemma substring_full s : String.substring 0 (String.length s) s = s.
Proof. induction s as [|c s IH]; simpl; [reflexivity | now rewrite IH]. Qed.

Lemma substring_suffix a k :
  String.substring (String.length a) (String.length k) (a +:+ k) = k.
Proof.
  induction a as [|c a IH]; [apply substring_full | exact IH].
Qed.

Lemma substring_split s (i : nat) :
  (i <= String.length s)%nat ->
  s = String.substring 0 i s +:+ String.substring i (String.length s - i) s.
Proof.
  revert i. induction s as [|c s IH]; intros i Hi; simpl in *.
  - now destruct i.
  - destruct i as [|i]; simpl.
    + rewrite append_nil_l. now rewrite substring_full.
    + rewrite append_cons. f_equal. apply IH. lia.
Qed.

Lemma endsWith_IsSuffix s k : Js.endsWith s k = true <-> IsSuffix k s.
Proof.
  unfold Js.endsWith, IsSuffix.
  rewrite andb_true_iff, Nat.leb_le, String.eqb_eq. split.
  - intros [Hle Hsub].
    exists (String.substring 0 (String.length s - String.length k) s).
    pose proof (substring_split s (String.length s - String.length k)) as Hs.
    replace (String.length s - (String.length s - String.length k))%nat
      with (String.length k) in Hs by lia.
    rewrite Hsub in Hs. apply Hs. lia.
  - intros [a ->]. rewrite length_append. split; [lia|].
    replace (String.length a + String.length k - String.length k)%nat
      with (String.length a) by lia.
    apply substring_suffix.
Qed.

End StringFacts.

(** ** Keyword matcher *)

(** C7. For every text, keyword, match type and case flag, [matchKeyword]
    compares the text and the keyword lowercased unless [caseSensitive],
    by equality (EXACT), containment (CONTAINS), prefix (STARTS_WITH) or
    suffix (ENDS_WITH); for REGEX it tests the raw text against the raw
    keyword compiled with flag [i] unless [caseSensitive], and is false
    when the keyword does not compile; any other match type is CONTAINS. *)
Theorem matchKeyword_meets_spec (E : Env) (text keyword matchType : string)
    (caseSensitive : bool) :
  matchKeyword E text keyword matchType caseSensitive = true
  <-> matchKeyword_spec E text keyword matchType caseSensitive.
Proof.
  unfold matchKeyword, matchKeyword_spec, modeOf.
  destruct (String.eqb matchType "EXACT") eqn:He.
  { apply String.eqb_eq. }
  destruct (String.eqb matchType "CONTAINS") eqn:Hc.
  { apply String.eqb_eq in Hc. subst matchType. simpl. apply includes_IsSubstring. }
  destruct (String.eqb matchType "STARTS_WITH") eqn:Hs.
  { apply prefix_IsPrefix. }
  destruct (String.eqb matchType "ENDS_WITH") eqn:Hw.
  { apply endsWith_IsSuffix. }
  destruct (String.eqb matchType "REGEX") eqn:Hr.
  { destruct (regExp E keyword (if caseSensitive then EmptyString else "i")) as [test|].
    - split; [intros H; now exists test | intros (t & Ht & H); congruence].
    - split; [discriminate | intros (t & Ht & _); discriminate]. }
  apply includes_IsSubstring.
Qed.

(** ** Trigger selection *)

Lemma triggerMatches_dec (E : Env) (text : string) (t : Trigger) :
  match tr_keyword t with
  | Some k =>
      matchKeyword E text (kw_keyword k) (kw_matchType k) (kw_caseSensitive k) = true
      <-> triggerMatches E text t
  | None => ~ triggerMatches E text t
  end.
Proof.
  unfold triggerMatches. destruct (tr_keyword t) as [k|].
  - split; [intros H; now exists k | intros (k' & Hk & H); congruence].
  - intros (k & Hk & _). discriminate.
Qed.

(** C8. [findMatchingTrigger] returns the first trigger, in list order,
    that has a keyword matching the text: every trigger before it fails to
    match, the returned one carries a keyword, and the result is [None]
    exactly when no trigger matches.  On [T1 "price"; T2 "cost"] and the
    text "what is the cost" it returns T2. *)
Theorem findMatchingTrigger_first_match (E : Env) (text : string)
    (triggers : list Trigger) :
  match findMatchingTrigger E text triggers with
  | Some t =>
      exists before after,
        triggers = before ++ t :: after
        /\ triggerMatches E text t
        /\ tr_keyword t <> None
        /\ Forall (fun t' => ~ triggerMatches E text t') before
  | None => Forall (fun t' => ~ triggerMatches E text t') triggers
  end
  /\ findMatchingTrigger (Scenario.env None None) "what is the cost"
       [Scenario.T1; Scenario.T2] = Some Scenario.T2.
Proof.
  split; [|reflexivity].
  induction triggers as [|t rest IH]; simpl.
  - constructor.
  - pose proof (triggerMatches_dec E text t) as Ht.
    destruct (tr_keyword t) as [k|] eqn:Hk.
    + destruct (matchKeyword E text (kw_keyword k) (kw_matchType k)
                  (kw_caseSensitive k)) eqn:Hm.
      * exists [], rest. repeat split; [now apply Ht | congruence | constructor].
      * assert (~ triggerMatches E text t) as Hno.
        { intros H. apply Ht in H. congruence. }
        destruct (findMatchingTrigger E text rest) as [t'|].
        -- destruct IH as (before & after & -> & Hm' & Hk' & Hall).
           exists (t :: before), after. repeat split; auto.
        -- constructor; auto.
    + destruct (findMatchingTrigger E text rest) as [t'|].
      * destruct IH as (before & after & -> & Hm' & Hk' & Hall).
        exists (t :: before), after. repeat split; auto.
      * constructor; auto.
Qed.

(** ** Log rows *)

Lemma createLog_run (automationId : string) (comment : InstagramComment)
    (status : LogStatus) (responseText : option string) (message : string) (w : World) :
  createLog automationId comment status responseText message w
  = (Ret tt, addLog (logData automationId comment status responseText message (clock w)) w).
Proof. reflexivity. Qed.

(** C9. The row written by [createLog] has action [skipped_comment] when
    the status is FAILED or SKIPPED; when the status is SUCCESS its action
    is [sent_dm] exactly when the response text contains "DM", and
    [replied_comment] otherwise. *)
Theorem createLog_action (automationId : string) (comment : InstagramComment)
    (status : LogStatus) (responseText : option string) (message : string) (w : World) :
  exists row,
    logs (snd (createLog automationId comment status responseText message w))
    = logs w ++ [row]
    /\ l_status row = status
    /\ l_responseText row = responseText
    /\ match status with
       | SUCCESS =>
           (l_action row = "sent_dm"
            <-> exists text, responseText = Some text /\ IsSubstring "DM" text)
           /\ (l_action row <> "sent_dm" <-> l_action row = "replied_comment")
       | FAILED | SKIPPED => l_action row = "skipped_comment"
       end.
Proof.
  eexists. split; [reflexivity|]. simpl. do 2 (split; [reflexivity|]).
  destruct status; simpl; try reflexivity.
  destruct responseText as [text|].
  - destruct (Js.includes text "DM") eqn:Hi.
    + split.
      * split; [intros _; exists text; split; [reflexivity | now apply includes_IsSubstring]
               | reflexivity].
      * split; [congruence | discriminate].
    + split.
      * split; [discriminate|].
        intros (t & [= <-] & Hsub). apply includes_IsSubstring in Hsub. congruence.
      * split; [reflexivity | discriminate].
  - split.
    + split; [discriminate | intros (t & Ht & _); discriminate].
    + split; [reflexivity | discriminate].
Qed.

(** ** Frames: what a step leaves unchanged *)

Lemma Extends_refl (w : World) : Extends w w [] [].
Proof. unfold Extends. now rewrite !app_nil_r. Qed.

Lemma Extends_trans (w w1 w2 : World) r1 e1 r2 e2 :
  Extends w w1 r1 e1 -> Extends w1 w2 r2 e2 -> Extends w w2 (r1 ++ r2) (e1 ++ e2).
Proof.
  intros (Ha & Hc & Hl & He) (Ha' & Hc' & Hl' & He'). unfold Extends.
  rewrite Ha', Hc', Hl', He', Ha, Hc, Hl, He, <- !app_assoc. auto.
Qed.

Lemma Extends_addLog (w : World) (row : AutomationLog) : Extends w (addLog row w) [row] [].
Proof. unfold Extends. simpl. now rewrite app_nil_r. Qed.

Lemma Extends_record (w : World) (c : Call) (f : option Exn) :
  Extends w (record c f w) [] [{| ev_call := c; ev_failure := f |}].
Proof. unfold Extends. simpl. now rewrite app_nil_r. Qed.

Lemma anyEvent_app (p : Event -> bool) (e1 e2 : list Event) :
  anyEvent p (e1 ++ e2) = anyEvent p e1 || anyEvent p e2.
Proof. apply existsb_app. Qed.

(** A predicate that only holds of platform actions can be evaluated on
    the action events alone. *)
Lemma anyEvent_actions (p : Event -> bool) (evs : list Event) :
  (forall e, p e = true -> isAction e = true) ->
  anyEvent p evs = anyEvent p (List.filter isAction evs).
Proof.
  intros Hp. induction evs as [|e evs IH]; simpl; [reflexivity|].
  destruct (isAction e) eqn:Ha; simpl.
  - now rewrite IH.
  - destruct (p e) eqn:Hpe; [apply Hp in Hpe; congruence | exact IH].
Qed.

Lemma filter_app_action (e1 e2 : list Event) :
  List.filter isAction (e1 ++ e2) = List.filter isAction e1 ++ List.filter isAction e2.
Proof. apply List.filter_app. Qed.

(** ** Response resolver *)

Lemma personalizeMessage_run (E : Env) (template : string) (c : InstagramComment)
    (w : World) :
  exists text, personalizeMessage E template c w = (Ret text, w).
Proof. eexists. reflexivity. Qed.

Lemma generateResponse_run (E : Env) (t : Trigger) (c : InstagramComment)
    (plan tok : string) (w : World) :
  exists o w1 evs,
    generateResponse E t c plan tok w = (o, w1)
    /\ Extends w w1 [] evs
    /\ List.filter isAction evs = []
    /\ (tr_response t = None -> o = Throw (JsError "No response configured for trigger")).
Proof.
  unfold generateResponse.
  destruct (tr_response t) as [r|].
  2:{ exists (Throw (JsError "No response configured for trigger")), w, [].
      split; [reflexivity|]. split; [apply Extends_refl|]. split; reflexivity. }
  assert (forall o, exists o' w1 evs,
             (o, w) = (o', w1) /\ Extends w w1 [] evs
             /\ List.filter isAction evs = []
             /\ (Some r = None ->
                 o' = @Throw string (JsError "No response configured for trigger")))
    as Hpure.
  { intros o. exists o, w, [].
    split; [reflexivity|]. split; [apply Extends_refl|]. split; [reflexivity|discriminate]. }
  assert (exists o' w1 evs,
             (if bool_decide (responseType r = AI_GENERATED) then
                if negb (isAIEnabled plan) then
                  throw (JsError "AI responses require PRO plan")
                else
                  aiGenerateCommentReply E
                    {| commentText := c_text c; userName := c_username c;
                       userPrompt := truthyString (aiPrompt r) |}
              else throw (JsError "Invalid response type")) w = (o', w1)
             /\ Extends w w1 [] evs
             /\ List.filter isAction evs = []
             /\ (Some r = None ->
                 o' = @Throw string (JsError "No response configured for trigger")))
    as Hrest.
  { destruct (bool_decide (responseType r = AI_GENERATED)); [|apply Hpure].
    destruct (negb (isAIEnabled plan)); [apply Hpure|].
    unfold aiGenerateCommentReply.
    destruct (generateCommentReply E (events w) _) as [text|];
      do 3 eexists; (split; [reflexivity|]);
      (split; [apply Extends_record|]); split; [reflexivity|discriminate|reflexivity|discriminate]. }
  destruct (bool_decide (responseType r = CUSTOM)); [|exact Hrest].
  destruct (truthyString (customMessage r)) as [message|]; [|exact Hrest].
  destruct (personalizeMessage_run E message c w) as [text ->]. apply Hpure.
Qed.

(** ** The dual action of [processSingleComment] *)

Lemma dmAction_run (E : Env) (aid tok : string) (a : Automation) (t : Trigger)
    (c : InstagramComment) (w : World) :
  exists dm w1 evs,
    dmAction E aid tok a t c (w, initialLocals) = (Ret tt, (w1, localsAfterDm dm))
    /\ Extends w w1 (dmRows aid c (clock w) dm) evs
    /\ List.filter isAction evs = dmEvents c tok dm
    /\ (tr_response t = None ->
        dm = DmNotGenerated (JsError "No response configured for trigger")).
Proof.
  destruct (generateResponse_run E t c (a_userPlan a) tok w)
    as (o & w1 & evs & Hgen & Hext & Hact & Hnone).
  unfold dmAction, tryCatch, bind, lift, modifyLocals. cbn [fst snd]. rewrite Hgen.
  destruct o as [text|e].
  - unfold platformSendDirectMessage. cbn [fst snd].
    destruct (sendDirectMessage E (events w1) (from_id (c_from c)) text tok) as [e|] eqn:Hs.
    + exists (DmRejected text e). do 2 eexists. split; [reflexivity|].
      split; [|split].
      * replace (clock w) with (clock w1) by apply Hext.
        change (dmRows aid c (clock w1) (DmRejected text e))
          with ([] ++ [] ++ dmRows aid c (clock w1) (DmRejected text e)).
        eapply Extends_trans; [exact Hext|].
        eapply Extends_trans; [apply Extends_record|]. apply Extends_addLog.
      * rewrite app_nil_r, filter_app_action, Hact. reflexivity.
      * intros H. specialize (Hnone H). discriminate.
    + exists (DmSent text). do 2 eexists. split; [reflexivity|].
      split; [|split].
      * change (dmRows aid c (clock w) (DmSent text)) with (@nil AutomationLog ++ []).
        eapply Extends_trans; [exact Hext|]. apply Extends_record.
      * rewrite filter_app_action, Hact. reflexivity.
      * intros H. specialize (Hnone H). discriminate.
  - exists (DmNotGenerated e). eexists. exists (evs ++ []). split; [reflexivity|].
    split; [|split].
    + replace (clock w) with (clock w1) by apply Hext.
      change (dmRows aid c (clock w1) (DmNotGenerated e))
        with ([] ++ dmRows aid c (clock w1) (DmNotGenerated e)).
      eapply Extends_trans; [exact Hext|]. apply Extends_addLog.
    + rewrite app_nil_r. exact Hact.
    + intros H. specialize (Hnone H). congruence.
Qed.

Lemma dmSent_actions (dm : DmOutcome) :
  (0 <? length (actions (localsAfterDm dm)))%nat = dmSucceeded dm.
Proof. now destruct dm. Qed.

Lemma replyAction_run (E : Env) (aid tok : string) (t : Trigger) (c : InstagramComment)
    (dm : DmOutcome) (w : World) (configured : option string) :
  replyCondition (commentReplyText t) = inr configured ->
  exists reply w1,
    replyAction E aid tok t c (w, localsAfterDm dm)
    = (Ret tt, (w1, localsAfterReply dm reply))
    /\ Extends w w1 (replyRows aid c (clock w) dm reply) (replyEvents c tok reply)
    /\ (reply = ReplyNotConfigured <-> configured = None).
Proof.
  intros Hcond. unfold replyAction. rewrite Hcond.
  destruct configured as [template|].
  2:{ exists ReplyNotConfigured, w. split; [reflexivity|].
      split; [apply Extends_refl | tauto]. }
  destruct (personalizeMessage_run E template c w) as [text Hp].
  unfold tryCatch, bind, lift, modifyLocals, getLocals, platformReplyToComment.
  cbn [fst snd]. rewrite Hp. cbn [fst snd].
  destruct (replyToComment E (events w) (c_id c) text tok) as [e|] eqn:Hr.
  - exists (ReplyFailed text e). eexists. split; [|split].
    + rewrite createLog_run. cbn [fst snd]. rewrite dmSent_actions. reflexivity.
    + change (replyRows aid c (clock w) dm (ReplyFailed text e))
        with ([] ++ replyRows aid c (clock w) dm (ReplyFailed text e)).
      change (replyEvents c tok (ReplyFailed text e))
        with (replyEvents c tok (ReplyFailed text e) ++ []).
      eapply Extends_trans; [apply Extends_record | apply Extends_addLog].
    + split; discriminate.
  - exists (ReplySent text). eexists. split; [reflexivity|].
    split; [apply Extends_record | split; discriminate].
Qed.

(** On a [commentReply] that has no [trim], the reply action throws before
    its [try]: nothing is written and the locals are as the DM left them. *)
Lemma replyAction_throws (E : Env) (aid tok : string) (t : Trigger) (c : InstagramComment)
    (s : World * Locals) (typeError : Exn) :
  replyCondition (commentReplyText t) = inl typeError ->
  replyAction E aid tok t c s = (Throw typeError, s).
Proof. intros Hcond. unfold replyAction. now rewrite Hcond. Qed.

Lemma updateAutomationStats_run (aid : string) (success : bool) (a0 : Automation)
    (w : World) :
  automations w !! aid = Some a0 ->
  updateAutomationStats aid success w
  = (Ret tt, {| automations := <[aid := bumpStats success (clock w) a0]> (automations w);
                logs := logs w; events := events w; clock := clock w |}).
Proof.
  intros H. unfold updateAutomationStats, bind, newDate, automationUpdate.
  now rewrite H.
Qed.

Lemma finalResult_run (aid : string) (c : InstagramComment) (a0 : Automation)
    (w : World) (l : Locals) :
  automations w !! aid = Some a0 ->
  exists w1,
    finalResult aid c (w, l) = (Ret (resultOf l), (w1, l))
    /\ automations w1 = <[aid := bumpStats (anySucceeded l) (clock w) a0]> (automations w)
    /\ clock w1 = clock w
    /\ logs w1 = logs w ++ finalRows aid c (clock w) l
    /\ events w1 = events w.
Proof.
  intros H.
  unfold finalResult, bind, lift, getLocals, resultOf, anySucceeded, finalRows.
  cbn [fst snd].
  destruct (actions l) as [|x acts] eqn:Hacts; cbn [length Nat.eqb fst snd].
  - rewrite (updateAutomationStats_run aid false a0 w H). cbn [fst snd].
    eexists. split; [reflexivity|]. simpl. now rewrite app_nil_r.
  - rewrite createLog_run. cbn [fst snd].
    rewrite (updateAutomationStats_run aid true a0 (addLog _ w) H). cbn [fst snd].
    eexists. split; [reflexivity|]. simpl. auto.
Qed.

(** One run of the dual-action block: the two outcomes determine the
    result, the rows written, the platform calls and the counters. *)
Lemma dualAction_run (E : Env) (aid tok : string) (a : Automation) (a0 : Automation)
    (t : Trigger) (c : InstagramComment) (w : World) (configured : option string) :
  automations w !! aid = Some a0 ->
  replyCondition (commentReplyText t) = inr configured ->
  exists dm reply w' evs,
    dualAction E aid tok a t c w = (Ret (resultOf (localsAfterReply dm reply)), w')
    /\ automations w'
       = <[aid := bumpStats (anySucceeded (localsAfterReply dm reply)) (clock w) a0]>
           (automations w)
    /\ clock w' = clock w
    /\ logs w' = logs w ++ dualRows aid c (clock w) dm reply
    /\ events w' = events w ++ evs
    /\ List.filter isAction evs = dmEvents c tok dm ++ replyEvents c tok reply
    /\ (reply = ReplyNotConfigured <-> configured = None)
    /\ (tr_response t = None ->
        dm = DmNotGenerated (JsError "No response configured for trigger")).
Proof.
  intros H Hcond.
  destruct (dmAction_run E aid tok a t c w)
    as (dm & w1 & evs1 & Hdm & (Ha1 & Hc1 & Hl1 & He1) & Hact1 & Hnone).
  destruct (replyAction_run E aid tok t c dm w1 configured Hcond)
    as (reply & w2 & Hre & (Ha2 & Hc2 & Hl2 & He2) & Hcfg).
  assert (automations w2 !! aid = Some a0) as H2 by now rewrite Ha2, Ha1.
  destruct (finalResult_run aid c a0 w2 (localsAfterReply dm reply) H2)
    as (w3 & Hfin & Ha3 & Hc3 & Hl3 & He3).
  exists dm, reply, w3, (evs1 ++ replyEvents c tok reply).
  split.
  { unfold dualAction, withLocals, bind. rewrite Hdm, Hre, Hfin. reflexivity. }
  rewrite Ha3, Hc3, Hl3, He3, Ha2, Hc2, Hl2, He2, Ha1, Hc1, Hl1, He1.
  unfold dualRows. rewrite <- !app_assoc, filter_app_action, Hact1.
  repeat split; try tauto.
  f_equal. now destruct reply.
Qed.

(** The dual-action block on a [commentReply] that has no [trim]: the DM
    action runs, then the block throws; no final row, no counter. *)
Lemma dualAction_throws (E : Env) (aid tok : string) (a : Automation) (t : Trigger)
    (c : InstagramComment) (w : World) (typeError : Exn) :
  replyCondition (commentReplyText t) = inl typeError ->
  exists dm w' evs,
    dualAction E aid tok a t c w = (Throw typeError, w')
    /\ Extends w w' (dmRows aid c (clock w) dm) evs
    /\ List.filter isAction evs = dmEvents c tok dm
    /\ (tr_response t = None ->
        dm = DmNotGenerated (JsError "No response configured for trigger")).
Proof.
  intros Hcond.
  destruct (dmAction_run E aid tok a t c w)
    as (dm & w1 & evs1 & Hdm & Hext & Hact1 & Hnone).
  exists dm, w1, evs1. split; [|auto].
  unfold dualAction, withLocals, bind.
  rewrite Hdm, (replyAction_throws E aid tok t c _ typeError Hcond). reflexivity.
Qed.

(** ** Rate limiter *)

Lemma setHours_startOfDay (E : Env) (t : Z) :
  setHours E t 0 0 0 0 = startOfDay_spec E t.
Proof.
  unfold setHours, startOfDay_spec, msPerDay, msPerHour, msPerMinute, msPerSecond.
  cbv zeta. generalize (tzOffset E). intros z. lia.
Qed.

(** Applied to the start of the day, [setMinutes(0, 0, 0)] changes nothing. *)
Lemma setMinutes_startOfDay (E : Env) (t : Z) :
  setMinutes E (startOfDay_spec E t) 0 0 0 = startOfDay_spec E t.
Proof.
  unfold setMinutes, startOfDay_spec, msPerDay, msPerHour, msPerMinute, msPerSecond.
  cbv zeta. generalize (tzOffset E). intros z.
  set (l := t + z).
  assert (l - l mod 86400000 = 24 * (l / 86400000) * 3600000) as Hday.
  { pose proof (Z.div_mod l 86400000). lia. }
  replace (l - l mod 86400000 - z + z) with (l - l mod 86400000) by lia.
  rewrite Hday at 2. rewrite Z.mod_mul by lia. lia.
Qed.

(** What [checkLimits] computes: both caps are compared with the number
    of SUCCESS rows since the start of the local day, a cap of [0] counts
    as no cap, and the world is left as it was. *)
Lemma checkLimits_run (E : Env) (a : Automation) (w : World) :
  checkLimits E a w
  = (Ret (match truthyLimit (a_dailyLimit a) with
          | Some dailyLimit =>
              successCountSince (a_id a) (startOfDay_spec E (clock w)) w <? dailyLimit
          | None => true
          end
          && match truthyLimit (a_hourlyLimit a) with
             | Some hourlyLimit =>
                 successCountSince (a_id a) (startOfDay_spec E (clock w)) w <? hourlyLimit
             | None => true
             end), w).
Proof.
  unfold checkLimits, bind, newDate, ret, automationLogCount, successCountSince.
  rewrite setHours_startOfDay, setMinutes_startOfDay.
  destruct (truthyLimit (a_dailyLimit a)) as [d|];
    destruct (truthyLimit (a_hourlyLimit a)) as [h|]; cbn [fst snd];
    rewrite ?Z.ltb_antisym;
    repeat match goal with
           | |- context [?x <=? ?y] => destruct (x <=? y); cbn
           end; reflexivity.
Qed.

(** A cap of zero never blocks. *)
Lemma checkLimits_zero_cap (E : Env) (a : Automation) (w : World) :
  a_dailyLimit a = Some 0 -> a_hourlyLimit a = None ->
  checkLimits E a w = (Ret true, w).
Proof. intros Hd Hh. rewrite checkLimits_run, Hd, Hh. reflexivity. Qed.

(** C5. At 15:30, with an hourly cap of 1 and one SUCCESS row written at
    10:00 the same day, no SUCCESS row lies in the current clock hour, so
    the rate limiter of the specification allows the run; [checkLimits]
    refuses it, because it counts the rows since the start of the day. *)
Theorem checkLimits_hourly_window_is_the_day :
  let E := Scenario.env None None in
  let a := Scenario.automation ACTIVE None (Some 1) [] in
  let w := Scenario.world a [Scenario.logRow "c0" SUCCESS Scenario.tenOClock]
             Scenario.halfPastThree in
  successCountSince (a_id a) (startOfHour_spec E (clock w)) w = 0
  /\ checkLimits_spec E a w = true
  /\ checkLimits E a w = (Ret false, w).
Proof.
  cbv zeta. split; [reflexivity|]. split; [reflexivity|].
  rewrite checkLimits_run. reflexivity.
Qed.

(** ** [processSingleComment] *)

Lemma find_logsFor (aid cid : string) (w : World) :
  List.find (logMatches aid cid) (logs w) = None <-> logsFor aid cid w = [].
Proof.
  unfold logsFor. induction (logs w) as [|row rows IH]; simpl; [tauto|].
  destruct (logMatches aid cid row); [split; discriminate | exact IH].
Qed.

Lemma logData_matches (aid : string) (c : InstagramComment) (st : LogStatus)
    (rt : option string) (msg : string) (now : Z) :
  logMatches aid (c_id c) (logData aid c st rt msg now) = true.
Proof. unfold logMatches. simpl. now rewrite !String.eqb_refl. Qed.

Lemma dualRows_match (aid : string) (c : InstagramComment) (now : Z)
    (dm : DmOutcome) (reply : ReplyOutcome) :
  List.filter (logMatches aid (c_id c)) (dualRows aid c now dm reply)
  = dualRows aid c now dm reply.
Proof.
  destruct dm, reply; cbn -[logData logMatches]; rewrite ?logData_matches; reflexivity.
Qed.

(** A run of the dual-action block writes one row or two. *)
Lemma dualRows_length (aid : string) (c : InstagramComment) (now : Z)
    (dm : DmOutcome) (reply : ReplyOutcome) :
  length (dualRows aid c now dm reply)
  = if match reply with
       | ReplyNotConfigured => false
       | ReplySent _ => negb (dmSucceeded dm)
       | ReplyFailed _ _ => true
       end
    then 2%nat else 1%nat.
Proof. now destruct dm, reply. Qed.

Lemma logsFor_extend (aid cid : string) (w w' : World) (rows : list AutomationLog) :
  logs w' = logs w ++ rows ->
  logsFor aid cid w' = logsFor aid cid w ++ List.filter (logMatches aid cid) rows.
Proof. intros H. unfold logsFor. now rewrite H, List.filter_app. Qed.

(** Past the three gates, [processSingleComment] is its dual-action block
    when the reply condition can be evaluated. *)
Lemma processSingleComment_gated (E : Env) (aid : string) (c : InstagramComment)
    (tok : string) (w : World) (a : Automation) (t : Trigger)
    (configured : option string) :
  automations w !! aid = Some a ->
  a_status a = ACTIVE ->
  logsFor aid (c_id c) w = [] ->
  findMatchingTrigger E (c_text c) (a_triggers (activeTriggers a)) = Some t ->
  checkLimits E (activeTriggers a) w = (Ret true, w) ->
  replyCondition (commentReplyText t) = inr configured ->
  processSingleComment E aid c tok w = dualAction E aid tok (activeTriggers a) t c w.
Proof.
  intros H1 H2 H3 H4 H5 Hcond.
  destruct (dualAction_run E aid tok (activeTriggers a) a t c w configured H1 Hcond)
    as (dm & reply & w' & evs & Hrun & _).
  unfold processSingleComment, tryCatch, bind, automationFindUnique, automationLogFindFirst.
  rewrite H1. cbn [fmap option_fmap option_map activeTriggers a_status a_triggers].
  rewrite H2. rewrite bool_decide_eq_true_2 by reflexivity. cbn [negb].
  apply find_logsFor in H3. rewrite H3.
  cbn [a_triggers activeTriggers] in H4. rewrite H4, H5. cbn [negb].
  rewrite Hrun. reflexivity.
Qed.

(** Past the three gates, on a [commentReply] that has no [trim]: after the
    DM action the TypeError reaches the outer [catch], which writes a FAILED
    row with its message, counts a failure and throws it on. *)
Lemma processSingleComment_ill_typed (E : Env) (aid : string) (c : InstagramComment)
    (tok : string) (w : World) (a : Automation) (t : Trigger) (typeError : Exn) :
  automations w !! aid = Some a ->
  a_status a = ACTIVE ->
  logsFor aid (c_id c) w = [] ->
  findMatchingTrigger E (c_text c) (a_triggers (activeTriggers a)) = Some t ->
  checkLimits E (activeTriggers a) w = (Ret true, w) ->
  replyCondition (commentReplyText t) = inl typeError ->
  exists dm w' evs,
    processSingleComment E aid c tok w = (Throw typeError, w')
    /\ automations w' = <[aid := bumpStats false (clock w) a]> (automations w)
    /\ clock w' = clock w
    /\ logs w'
       = logs w
         ++ dmRows aid c (clock w) dm
         ++ [logData aid c FAILED None (errorMessageOr typeError "Unknown error")
               (clock w)]
    /\ events w' = events w ++ evs
    /\ List.filter isAction evs = dmEvents c tok dm
    /\ (tr_response t = None ->
        dm = DmNotGenerated (JsError "No response configured for trigger")).
Proof.
  intros H1 H2 H3 H4 H5 Hcond.
  destruct (dualAction_throws E aid tok (activeTriggers a) t c w typeError Hcond)
    as (dm & w1 & evs & Hrun & (Ha1 & Hc1 & Hl1 & He1) & Hact & Hnone).
  exists dm. eexists. exists evs.
  unfold processSingleComment, tryCatch, bind, automationFindUnique, automationLogFindFirst.
  rewrite H1. cbn [fmap option_fmap option_map activeTriggers a_status a_triggers].
  rewrite H2. rewrite bool_decide_eq_true_2 by reflexivity. cbn [negb].
  apply find_logsFor in H3. rewrite H3.
  cbn [a_triggers activeTriggers] in H4. rewrite H4, H5. cbn [negb].
  rewrite Hrun, createLog_run.
  rewrite (updateAutomationStats_run aid false a (addLog _ w1))
    by (cbn; now rewrite Ha1).
  split; [reflexivity|]. cbn. rewrite Ha1, Hc1, Hl1, He1, <- app_assoc.
  repeat split; auto.
Qed.

Lemma processSingleComment_already (E : Env) (aid : string) (c : InstagramComment)
    (tok : string) (w : World) (a : Automation) :
  automations w !! aid = Some a ->
  a_status a = ACTIVE ->
  logsFor aid (c_id c) w <> [] ->
  processSingleComment E aid c tok w = (Ret (notProcessed "Already processed"), w).
Proof.
  intros H1 H2 H3.
  unfold processSingleComment, tryCatch, bind, automationFindUnique, automationLogFindFirst.
  rewrite H1. cbn [fmap option_fmap option_map activeTriggers a_status].
  rewrite H2. rewrite bool_decide_eq_true_2 by reflexivity. cbn [negb].
  destruct (List.find (logMatches aid (c_id c)) (logs w)) as [row|] eqn:Hf.
  - reflexivity.
  - apply find_logsFor in Hf. contradiction.
Qed.

(** On an automation that is missing or not ACTIVE nothing happens at all. *)
Lemma processSingleComment_inactive (E : Env) (aid : string) (c : InstagramComment)
    (tok : string) (w : World) :
  match automations w !! aid with
  | Some a => a_status a <> ACTIVE
  | None => True
  end ->
  processSingleComment E aid c tok w = (Ret (notProcessed "Automation not active"), w).
Proof.
  intros H.
  unfold processSingleComment, tryCatch, bind, automationFindUnique.
  destruct (automations w !! aid) as [a|]; [|reflexivity].
  cbn [fmap option_fmap option_map activeTriggers a_status].
  rewrite bool_decide_eq_false_2 by exact H. reflexivity.
Qed.

Lemma processSingleComment_no_match (E : Env) (aid : string) (c : InstagramComment)
    (tok : string) (w : World) (a : Automation) :
  automations w !! aid = Some a ->
  a_status a = ACTIVE ->
  logsFor aid (c_id c) w = [] ->
  findMatchingTrigger E (c_text c) (a_triggers (activeTriggers a)) = None ->
  processSingleComment E aid c tok w
  = (Ret (notProcessed "No keyword match"),
     addLog (logData aid c SKIPPED None "No keyword match" (clock w)) w).
Proof.
  intros H1 H2 H3 H4.
  unfold processSingleComment, tryCatch, bind, automationFindUnique, automationLogFindFirst.
  rewrite H1. cbn [fmap option_fmap option_map activeTriggers a_status a_triggers].
  rewrite H2. rewrite bool_decide_eq_true_2 by reflexivity. cbn [negb].
  apply find_logsFor in H3. rewrite H3.
  cbn [a_triggers activeTriggers] in H4. rewrite H4, createLog_run. reflexivity.
Qed.

Lemma processSingleComment_limited (E : Env) (aid : string) (c : InstagramComment)
    (tok : string) (w : World) (a : Automation) (t : Trigger) :
  automations w !! aid = Some a ->
  a_status a = ACTIVE ->
  logsFor aid (c_id c) w = [] ->
  findMatchingTrigger E (c_text c) (a_triggers (activeTriggers a)) = Some t ->
  checkLimits E (activeTriggers a) w = (Ret false, w) ->
  processSingleComment E aid c tok w = (Ret (notProcessed "Rate limit reached"), w).
Proof.
  intros H1 H2 H3 H4 H5.
  unfold processSingleComment, tryCatch, bind, automationFindUnique, automationLogFindFirst.
  rewrite H1. cbn [fmap option_fmap option_map activeTriggers a_status a_triggers].
  rewrite H2. rewrite bool_decide_eq_true_2 by reflexivity. cbn [negb].
  apply find_logsFor in H3. rewrite H3.
  cbn [a_triggers activeTriggers] in H4. rewrite H4, H5. reflexivity.
Qed.

Lemma resultOf_not_limited (l : Locals) :
  resultOf l <> notProcessed "Rate limit reached".
Proof.
  unfold resultOf, notProcessed. destruct (actions l).
  - intros H. injection H as H. discriminate.
  - intros [=].
Qed.

(** C1 (as amended). On an ACTIVE automation, a call for a comment that
    already has an ExecutionLog returns [processed = false] with message
    'Already processed' and leaves the whole world as it was: no platform
    call, no new row, counters and [lastExecutedAt] untouched.  Hence, of two
    sequential calls for the same pair, when the first is not stopped by the
    rate limit it leaves at least one row for the pair, and the second,
    whenever and with whatever platform it runs, is 'Already processed' and
    changes nothing; a first call stopped by the rate limit changes nothing
    either. *)
Theorem processSingleComment_idempotency_guard (E : Env) (aid : string)
    (c : InstagramComment) (tok : string) (w : World) (a : Automation) :
  automations w !! aid = Some a ->
  a_status a = ACTIVE ->
  (logsFor aid (c_id c) w <> [] ->
   processSingleComment E aid c tok w = (Ret (notProcessed "Already processed"), w))
  /\ (forall r1 w1,
        processSingleComment E aid c tok w = (r1, w1) ->
        (r1 <> Ret (notProcessed "Rate limit reached") ->
         logsFor aid (c_id c) w1 <> []
         /\ forall E2 tok2 t2,
              processSingleComment E2 aid c tok2 (atTime t2 w1)
              = (Ret (notProcessed "Already processed"), atTime t2 w1))
        /\ (r1 = Ret (notProcessed "Rate limit reached") -> w1 = w)).
Proof.
  intros H1 H2. split; [now apply (processSingleComment_already E aid c tok w a)|].
  intros r1 w1 Hrun.
  assert (forall a1, automations w1 !! aid = Some a1 -> a_status a1 = ACTIVE ->
                     logsFor aid (c_id c) w1 <> [] ->
                     logsFor aid (c_id c) w1 <> []
                     /\ forall E2 tok2 t2,
                          processSingleComment E2 aid c tok2 (atTime t2 w1)
                          = (Ret (notProcessed "Already processed"), atTime t2 w1))
    as Hsecond.
  { intros a1 Ha1 Hs1 Hl1. split; [exact Hl1|]. intros E2 tok2 t2.
    now apply (processSingleComment_already E2 aid c tok2 (atTime t2 w1) a1). }
  destruct (logsFor aid (c_id c) w) as [|row0 rows0] eqn:H3.
  2:{ rewrite (processSingleComment_already E aid c tok w a) in Hrun
        by (try rewrite H3; done).
      injection Hrun as <- <-. split; [|reflexivity].
      intros _. apply (Hsecond a); try done. now rewrite H3. }
  destruct (findMatchingTrigger E (c_text c) (a_triggers (activeTriggers a)))
    as [t|] eqn:H4.
  2:{ rewrite (processSingleComment_no_match E aid c tok w a) in Hrun by done.
      injection Hrun as <- <-. split; [|intros [=]].
      intros _. apply (Hsecond a); try done.
      rewrite (logsFor_extend aid (c_id c) w _ [logData aid c SKIPPED None
                 "No keyword match" (clock w)]) by reflexivity.
      rewrite H3. cbn [List.filter]. rewrite logData_matches. discriminate. }
  pose proof (checkLimits_run E (activeTriggers a) w) as H5.
  match type of H5 with _ = (Ret ?b, _) => destruct b end.
  2:{ rewrite (processSingleComment_limited E aid c tok w a t) in Hrun by done.
      injection Hrun as <- <-. split; [intros Hn; now elim Hn | reflexivity]. }
  destruct (replyCondition (commentReplyText t)) as [typeError|configured] eqn:Hcond.
  { destruct (processSingleComment_ill_typed E aid c tok w a t typeError
                H1 H2 H3 H4 H5 Hcond) as (dm & w' & evs & Hthrow & Ha' & _ & Hl' & _).
    rewrite Hthrow in Hrun. injection Hrun as <- <-. split; [|intros [=]].
    intros _. eapply Hsecond.
    - rewrite Ha'. apply lookup_insert_eq.
    - exact H2.
    - rewrite (logsFor_extend aid (c_id c) w w' _ Hl'), H3, List.filter_app.
      cbn [app List.filter]. rewrite logData_matches.
      intros Hnil. now apply app_eq_nil in Hnil as [_ Hnil]. }
  rewrite (processSingleComment_gated E aid c tok w a t configured) in Hrun by done.
  destruct (dualAction_run E aid tok (activeTriggers a) a t c w configured H1 Hcond)
    as (dm & reply & w' & evs & Hdual & Ha' & _ & Hl' & _).
  rewrite Hdual in Hrun. injection Hrun as <- <-. split.
  - intros _. eapply Hsecond.
    + rewrite Ha'. apply lookup_insert_eq.
    + exact H2.
    + rewrite (logsFor_extend aid (c_id c) w w' _ Hl'), H3, dualRows_match.
      cbn [app]. intros Hnil. apply (f_equal (@length _)) in Hnil.
      rewrite dualRows_length in Hnil. simpl in Hnil.
      destruct (match reply with
                | ReplyNotConfigured => false
                | ReplySent _ => negb (dmSucceeded dm)
                | ReplyFailed _ _ => true
                end); discriminate.
  - intros [= Hr]. now apply resultOf_not_limited in Hr.
Qed.

Lemma sent_is_action (e : Event) : isDmSent e || isReplySent e = true -> isAction e = true.
Proof. destruct e as [[] []]; simpl; auto. Qed.

Lemma isDmSent_action (e : Event) : isDmSent e = true -> isAction e = true.
Proof. destruct e as [[] []]; simpl; auto. Qed.

Lemma isDmFailed_action (e : Event) : isDmFailed e = true -> isAction e = true.
Proof. destruct e as [[] []]; simpl; auto. Qed.

Lemma isReplySent_action (e : Event) : isReplySent e = true -> isAction e = true.
Proof. destruct e as [[] []]; simpl; auto. Qed.

Lemma isReplyFailed_action (e : Event) : isReplyFailed e = true -> isAction e = true.
Proof. destruct e as [[] []]; simpl; auto. Qed.

(** C2 (as amended). A call that passes the idempotency, keyword and
    rate-limit gates, on a trigger whose [commentReply] is absent, falsy or
    a string, returns, and its outcome is SUCCESS ([processed = true], the
    success counter incremented, a final SUCCESS row) exactly when a DM or
    a comment reply was delivered during the call; otherwise it is FAILED
    ([processed = false], message 'Failed: ...', the failure counter
    incremented, only FAILED rows).  With no Response on the trigger no DM
    call is made at all and a FAILED row says so; the outcome is then
    SUCCESS, with the single action [replied_comment], when the reply is
    delivered, and FAILED with the message of the missing Response when it
    is not, as it always is without a reply template. *)
Theorem processSingleComment_outcome (E : Env) (aid : string) (c : InstagramComment)
    (tok : string) (w : World) (a : Automation) (t : Trigger)
    (configured : option string) :
  automations w !! aid = Some a ->
  a_status a = ACTIVE ->
  logsFor aid (c_id c) w = [] ->
  findMatchingTrigger E (c_text c) (a_triggers (activeTriggers a)) = Some t ->
  checkLimits E (activeTriggers a) w = (Ret true, w) ->
  replyCondition (commentReplyText t) = inr configured ->
  exists r w' evs rows,
    processSingleComment E aid c tok w = (Ret r, w')
    /\ events w' = events w ++ evs
    /\ logs w' = logs w ++ rows
    /\ sr_processed r = anyEvent (fun e => isDmSent e || isReplySent e) evs
    /\ automations w' !! aid = Some (bumpStats (sr_processed r) (clock w) a)
    /\ (if sr_processed r
        then exists earlier row, rows = earlier ++ [row] /\ l_status row = SUCCESS
        else (exists m, sr_message r = "Failed: " +:+ m)
             /\ Forall (fun row => l_status row = FAILED) rows)
    /\ (tr_response t = None ->
        anyEvent isDmSent evs = false
        /\ anyEvent isDmFailed evs = false
        /\ (exists later,
              rows = logData aid c FAILED None
                       "DM failed: No response configured for trigger" (clock w)
                     :: later)
        /\ sr_processed r = anyEvent isReplySent evs
        /\ (sr_processed r = true -> sr_actions r = Some ["replied_comment"])
        /\ (sr_processed r = false ->
            sr_message r = "Failed: No response configured for trigger")
        /\ (configured = None -> sr_processed r = false)).
Proof.
  intros H1 H2 H3 H4 H5 Hcond.
  rewrite (processSingleComment_gated E aid c tok w a t configured) by done.
  destruct (dualAction_run E aid tok (activeTriggers a) a t c w configured H1 Hcond)
    as (dm & reply & w' & evs & Hdual & Ha' & _ & Hl' & He' & Hact & Hcfg & Hnone).
  exists (resultOf (localsAfterReply dm reply)), w', evs,
    (dualRows aid c (clock w) dm reply).
  do 3 (split; [assumption|]).
  assert (sr_processed (resultOf (localsAfterReply dm reply))
          = anySucceeded (localsAfterReply dm reply)) as Hproc.
  { now destruct dm, reply. }
  split; [|split; [|split]].
  - rewrite (anyEvent_actions _ evs sent_is_action), Hact. now destruct dm, reply.
  - rewrite Ha', Hproc. apply lookup_insert_eq.
  - destruct dm as [text|text e|e], reply as [|reply|reply e'];
      cbn -[logData String.append].
    + now exists [], (logData aid c SUCCESS (Some ("DM: " +:+ text))
                        ("Actions completed: " +:+ "sent_dm") (clock w)).
    + eexists [], _. split; reflexivity.
    + eexists [_], _. split; reflexivity.
    + split; [eexists; reflexivity | repeat constructor].
    + eexists [_], _. split; reflexivity.
    + split; [eexists; reflexivity | repeat constructor].
    + split; [eexists; reflexivity | repeat constructor].
    + eexists [_], _. split; reflexivity.
    + split; [eexists; reflexivity | repeat constructor].
  - intros Hresp. specialize (Hnone Hresp). subst dm.
    rewrite (anyEvent_actions _ evs isDmSent_action),
      (anyEvent_actions _ evs isDmFailed_action),
      (anyEvent_actions _ evs isReplySent_action), Hact.
    do 2 (split; [now destruct reply|]).
    split; [eexists; reflexivity|].
    split; [now destruct reply|].
    split; [destruct reply; cbn; intros; done|].
    split; [destruct reply; cbn; intros; done|].
    intros Hnot. apply Hcfg in Hnot. now subst reply.
Qed.

(** C3 (as amended). On a matched trigger that carries a non-empty reply
    template, past the gates: if the DM call fails and the reply call
    succeeds, the outcome is SUCCESS with the single action
    [replied_comment], after a FAILED row for the DM; if the DM call
    succeeds and the reply call fails, the outcome is SUCCESS with the
    single action [sent_dm], and the reply failure is noted in the message
    of a row written before the final one. *)
Theorem processSingleComment_dual_action (E : Env) (aid : string) (c : InstagramComment)
    (tok : string) (w : World) (a : Automation) (t : Trigger) (template : string) :
  automations w !! aid = Some a ->
  a_status a = ACTIVE ->
  logsFor aid (c_id c) w = [] ->
  findMatchingTrigger E (c_text c) (a_triggers (activeTriggers a)) = Some t ->
  checkLimits E (activeTriggers a) w = (Ret true, w) ->
  replyCondition (commentReplyText t) = inr (Some template) ->
  exists r w' evs rows,
    processSingleComment E aid c tok w = (Ret r, w')
    /\ events w' = events w ++ evs
    /\ logs w' = logs w ++ rows
    /\ (anyEvent isDmFailed evs = true ->
        anyEvent isReplySent evs = true ->
        sr_processed r = true
        /\ sr_message r = "Success: replied_comment"
        /\ sr_actions r = Some ["replied_comment"]
        /\ automations w' !! aid = Some (bumpStats true (clock w) a)
        /\ exists m,
             List.map (fun row => (l_status row, l_message row)) rows
             = [(FAILED, "DM failed: " +:+ m);
                (SUCCESS, "Actions completed: replied_comment")])
    /\ (anyEvent isDmSent evs = true ->
        anyEvent isReplyFailed evs = true ->
        sr_processed r = true
        /\ sr_message r = "Success: sent_dm"
        /\ sr_actions r = Some ["sent_dm"]
        /\ automations w' !! aid = Some (bumpStats true (clock w) a)
        /\ exists m,
             List.map (fun row => (l_status row, l_message row)) rows
             = [(SUCCESS, "Comment reply failed: " +:+ m +:+ " (DM sent successfully)");
                (SUCCESS, "Actions completed: sent_dm")]).
Proof.
  intros H1 H2 H3 H4 H5 Hreply.
  rewrite (processSingleComment_gated E aid c tok w a t (Some template)) by done.
  destruct (dualAction_run E aid tok (activeTriggers a) a t c w (Some template)
              H1 Hreply)
    as (dm & reply & w' & evs & Hdual & Ha' & _ & Hl' & He' & Hact & Hcfg & _).
  exists (resultOf (localsAfterReply dm reply)), w', evs,
    (dualRows aid c (clock w) dm reply).
  do 3 (split; [assumption|]).
  rewrite (anyEvent_actions _ evs isDmSent_action),
    (anyEvent_actions _ evs isDmFailed_action),
    (anyEvent_actions _ evs isReplySent_action),
    (anyEvent_actions _ evs isReplyFailed_action), Hact, Ha', lookup_insert_eq.
  split.
  - destruct dm as [text|text e|e], reply as [|reply|reply e'];
      cbn -[String.append]; try discriminate.
    intros _ _. repeat split. eexists. reflexivity.
  - destruct dm as [text|text e|e], reply as [|reply|reply e'];
      cbn -[String.append]; try discriminate.
    intros _ _. repeat split. eexists. reflexivity.
Qed.

(** C1 as first stated does not hold: the guard does not answer
    'Already processed' on a paused automation, and two sequential calls
    that the rate limit stops leave no row at all for the pair. *)
Lemma processSingleComment_guard_counterexample :
  ~ (forall E aid c tok w,
       logsFor aid (c_id c) w <> [] ->
       exists w',
         processSingleComment E aid c tok w
         = (Ret (notProcessed "Already processed"), w'))
  /\ (let E := Scenario.env None None in
      let a := Scenario.automation ACTIVE (Some 1) None
                 [Scenario.trigger "t1" "cost" None] in
      let w := Scenario.world a [Scenario.logRow "c0" SUCCESS Scenario.tenOClock]
                 Scenario.halfPastThree in
      let first := processSingleComment E "a1" Scenario.comment "tok" w in
      let second := processSingleComment E "a1" Scenario.comment "tok" (snd first) in
      fst first = Ret (notProcessed "Rate limit reached")
      /\ fst second = Ret (notProcessed "Rate limit reached")
      /\ logsFor "a1" "c1" (snd second) = []).
Proof.
  split.
  - intros Hclaim.
    destruct (Hclaim (Scenario.env None None) "a1" Scenario.comment "tok"
                (Scenario.world
                   (Scenario.automation PAUSED None None
                      [Scenario.trigger "t1" "cost" None])
                   [Scenario.logRow "c1" SUCCESS Scenario.tenOClock]
                   Scenario.halfPastThree)) as [w' Hw'].
    + discriminate.
    + rewrite processSingleComment_inactive in Hw' by (vm_compute; discriminate).
      discriminate.
  - vm_compute. repeat split.
Qed.

(** C3 as first stated does not hold: with a reply template, a failing
    DM call and a succeeding reply call, the outcome is SUCCESS, not
    FAILED: [processed] is [true] and the success counter is the one
    incremented. *)
Lemma processSingleComment_dm_fails_reply_succeeds :
  let E := Scenario.env (Some (JsError "This user cannot receive messages")) None in
  let a := Scenario.automation ACTIVE None None
             [Scenario.trigger "t1" "cost" (Some "Check your DMs, {username}!")] in
  let w := Scenario.world a [] Scenario.halfPastThree in
  let run := processSingleComment E "a1" Scenario.comment "tok" w in
  anyEvent isDmFailed (events (snd run)) = true
  /\ anyEvent isReplySent (events (snd run)) = true
  /\ fst run = Ret {| sr_processed := true;
                      sr_message := "Success: replied_comment";
                      sr_response := Some "Comment: Check your DMs, buyer1!";
                      sr_actions := Some ["replied_comment"] |}
  /\ a_successfulExecutions <$> automations (snd run) !! "a1" = Some 1
  /\ a_failedExecutions <$> automations (snd run) !! "a1" = Some 0.
Proof. vm_compute. repeat split. Qed.

(** C2 as first stated does not hold.  On a trigger without Response that
    carries a reply template, the error of the missing Response comes
    before any action, and the outcome is SUCCESS all the same once the
    reply is delivered.  And on a stored config [{ commentReply: 5 }] the DM
    is delivered, an action has succeeded, and the call then throws: the
    only row is FAILED and the failure counter is the one incremented. *)
Lemma processSingleComment_outcome_counterexample :
  let E := Scenario.env None None in
  let world t :=
    Scenario.world (Scenario.automation ACTIVE None None [t]) [] Scenario.halfPastThree in
  let replyOnly := processSingleComment E "a1" Scenario.comment "tok"
                     (world scenarioReplyOnly) in
  let illTyped := processSingleComment E "a1" Scenario.comment "tok"
                    (world scenarioIllTyped) in
  (tr_response scenarioReplyOnly = None
   /\ List.filter isAction (events (snd replyOnly))
      = [{| ev_call := CallReplyToComment "c1" "Check your DMs, buyer1!" "tok";
            ev_failure := None |}]
   /\ fst replyOnly = Ret {| sr_processed := true;
                             sr_message := "Success: replied_comment";
                             sr_response := Some "Comment: Check your DMs, buyer1!";
                             sr_actions := Some ["replied_comment"] |}
   /\ List.map (fun row => (l_status row, l_message row)) (logs (snd replyOnly))
      = [(FAILED, "DM failed: No response configured for trigger");
         (SUCCESS, "Actions completed: replied_comment")]
   /\ a_successfulExecutions <$> automations (snd replyOnly) !! "a1" = Some 1
   /\ a_failedExecutions <$> automations (snd replyOnly) !! "a1" = Some 0)
  /\ (List.filter isAction (events (snd illTyped))
       = [{| ev_call := CallSendDirectMessage "u1" "Thanks buyer1, check your DMs!" "tok";
             ev_failure := None |}]
      /\ fst illTyped = Throw (JsError "commentReplyText.trim is not a function")
      /\ List.map (fun row => (l_status row, l_message row)) (logs (snd illTyped))
         = [(FAILED, "commentReplyText.trim is not a function")]
      /\ a_successfulExecutions <$> automations (snd illTyped) !! "a1" = Some 0
      /\ a_failedExecutions <$> automations (snd illTyped) !! "a1" = Some 1).
Proof. vm_compute. repeat split. Qed.

(** C4. One call whose DM fails and whose reply is then attempted writes
    two rows for the pair, not one: FAILED and FAILED when the reply fails
    too, FAILED and SUCCESS when it succeeds; so does a call whose DM
    succeeds and whose reply fails (SUCCESS twice). *)
Theorem processSingleComment_two_rows :
  let a := Scenario.automation ACTIVE None None
             [Scenario.trigger "t1" "cost" (Some "Check your DMs, {username}!")] in
  let w := Scenario.world a [] Scenario.halfPastThree in
  let rowsOf dm reply :=
    List.map l_status
      (logsFor "a1" "c1"
         (snd (processSingleComment (Scenario.env dm reply) "a1" Scenario.comment
                 "tok" w))) in
  logsFor "a1" "c1" w = []
  /\ rowsOf (Some (JsError "no DM")) (Some (JsError "no reply")) = [FAILED; FAILED]
  /\ rowsOf (Some (JsError "no DM")) None = [FAILED; SUCCESS]
  /\ rowsOf None (Some (JsError "no reply")) = [SUCCESS; SUCCESS].
Proof. vm_compute. repeat split. Qed.

(** The number of rows one gated call writes, in general: two as soon as
    the reply is attempted and one of the two actions fails. *)
Lemma processSingleComment_rows_written (E : Env) (aid : string) (c : InstagramComment)
    (tok : string) (w : World) (a : Automation) (t : Trigger)
    (configured : option string) :
  automations w !! aid = Some a ->
  a_status a = ACTIVE ->
  logsFor aid (c_id c) w = [] ->
  findMatchingTrigger E (c_text c) (a_triggers (activeTriggers a)) = Some t ->
  checkLimits E (activeTriggers a) w = (Ret true, w) ->
  replyCondition (commentReplyText t) = inr configured ->
  exists evs,
    events (snd (processSingleComment E aid c tok w)) = events w ++ evs
    /\ length (logsFor aid (c_id c) (snd (processSingleComment E aid c tok w)))
       = if anyEvent isReplyFailed evs
            || (anyEvent isReplySent evs && negb (anyEvent isDmSent evs))
         then 2%nat else 1%nat.
Proof.
  intros H1 H2 H3 H4 H5 Hcond.
  rewrite (processSingleComment_gated E aid c tok w a t configured) by done.
  destruct (dualAction_run E aid tok (activeTriggers a) a t c w configured H1 Hcond)
    as (dm & reply & w' & evs & Hdual & Ha' & _ & Hl' & He' & Hact & _).
  rewrite Hdual. cbn [snd]. exists evs. split; [exact He'|].
  rewrite (logsFor_extend aid (c_id c) w w' _ Hl'), H3, dualRows_match. cbn [app].
  rewrite dualRows_length.
  rewrite (anyEvent_actions _ evs isDmSent_action),
    (anyEvent_actions _ evs isReplySent_action),
    (anyEvent_actions _ evs isReplyFailed_action), Hact.
  now destruct dm, reply.
Qed.

(** C6. With [dailyLimit = 0] the matching comment of the end-to-end
    scenario is not stopped by the rate limiter: the DM is sent, a SUCCESS
    row is written and the success counter is incremented. *)
Theorem processSingleComment_zero_daily_limit :
  let E := Scenario.env None None in
  let a := Scenario.automation ACTIVE (Some 0) None
             [Scenario.trigger "t1" "cost" None] in
  let w := Scenario.world a [] Scenario.halfPastThree in
  let run := processSingleComment E "a1" Scenario.comment "tok" w in
  checkLimits E a w = (Ret true, w)
  /\ fst run = Ret {| sr_processed := true;
                      sr_message := "Success: sent_dm";
                      sr_response := Some "DM: Thanks buyer1, check your DMs!";
                      sr_actions := Some ["sent_dm"] |}
  /\ List.map (fun e => (ev_call e, ev_failure e)) (events (snd run))
     = [(CallSendDirectMessage "u1" "Thanks buyer1, check your DMs!" "tok", None)]
  /\ List.map (fun row => (l_status row, l_action row)) (logs (snd run))
     = [(SUCCESS, "sent_dm")]
  /\ a_successfulExecutions <$> automations (snd run) !! "a1" = Some 1.
Proof. vm_compute. repeat split. Qed.

(** ** Batch paths *)

Lemma countStatus_app (st : LogStatus) (r1 r2 : list AutomationLog) :
  countStatus st (r1 ++ r2) = countStatus st r1 + countStatus st r2.
Proof. unfold countStatus. rewrite List.filter_app, length_app. lia. Qed.

Lemma countStatus_one (st st' : LogStatus) (aid : string) (c : InstagramComment)
    (rt : option string) (msg : string) (now : Z) :
  countStatus st [logData aid c st' rt msg now] = if bool_decide (st' = st) then 1 else 0.
Proof.
  unfold countStatus. cbn [List.filter logData l_status].
  now destruct (bool_decide (st' = st)).
Qed.

Ltac count_rows :=
  rewrite ?countStatus_one;
  repeat match goal with
         | |- context [bool_decide (?x = ?y)] =>
             let b := eval vm_compute in (bool_decide (x = y)) in
             change (bool_decide (x = y)) with b
         end;
  change (countStatus SUCCESS []) with 0;
  change (countStatus FAILED []) with 0;
  cbv iota.

Lemma commentFailed_run (aid : string) (c : InstagramComment) (e : Exn)
    (w0 w : World) (n : Counters) (a0 : Automation) :
  automations w !! aid = Some a0 ->
  logs w = logs w0 ->
  exists w',
    commentFailed aid c e (w, n) = (Ret tt, (w', countFailure n))
    /\ IterationCounts aid w0 n w' (countFailure n)
         [logData aid c FAILED None (errorMessageOr e "Unknown error") (clock w)].
Proof.
  intros H Hl. unfold commentFailed, bind, lift, modifyLocals. cbn [fst snd].
  rewrite createLog_run. cbn [fst snd].
  rewrite (updateAutomationStats_run aid false a0 (addLog _ w) H). cbn [fst snd].
  eexists. split; [reflexivity|]. unfold IterationCounts.
  cbn -[countStatus logData]. count_rows.
  rewrite lookup_insert_eq, Hl. split; [eauto|]. repeat split; lia.
Qed.

Section LoopBody.

Variables (E : Env) (aid tok : string) (a : Automation).

(** The platform call of a batch path, [send c text]: the DM to the
    author in one, the public reply in the other. *)
Variable send : InstagramComment -> string -> M unit.
Variable successMessage : InstagramComment -> string.

Hypothesis send_frame :
  forall c text w, exists o w1 evs, send c text w = (o, w1) /\ Extends w w1 [] evs.

Let body (c : InstagramComment) : ST (World * Counters) unit :=
  tryCatch
    (existingLog <- lift (automationLogFindFirst aid (c_id c)) ;;
     match existingLog with
     | Some _ => ret tt
     | None =>
         match findMatchingTrigger E (c_text c) (a_triggers a) with
         | None => lift (createLog aid c SKIPPED None "No keyword match")
         | Some matchedTrigger =>
             responseText <-
               lift (generateResponse E matchedTrigger c (a_userPlan a) tok) ;;
             lift (send c responseText) ;;;
             lift (createLog aid c SUCCESS (Some responseText) (successMessage c)) ;;;
             modifyLocals countSuccess ;;;
             lift (updateAutomationStats aid true)
         end
     end)
    (commentFailed aid c).

Lemma body_run (c : InstagramComment) (w : World) (n : Counters) (a0 : Automation) :
  automations w !! aid = Some a0 ->
  exists w' n' rows,
    body c (w, n) = (Ret tt, (w', n'))
    /\ IterationCounts aid w n w' n' rows
    /\ (length rows <= 1)%nat.
Proof.
  intros H. unfold body, tryCatch, bind, lift, automationLogFindFirst. cbn [fst snd].
  destruct (List.find (logMatches aid (c_id c)) (logs w)).
  { exists w, n, []. split; [reflexivity|]. unfold IterationCounts.
    rewrite app_nil_r. count_rows. cbn [length]. repeat split; eauto; lia. }
  destruct (findMatchingTrigger E (c_text c) (a_triggers a)) as [t|].
  2:{ rewrite createLog_run. cbn [fst snd]. do 3 eexists. split; [reflexivity|].
      unfold IterationCounts. cbn -[countStatus logData]. count_rows.
      repeat split; eauto; lia. }
  destruct (generateResponse_run E t c (a_userPlan a) tok w)
    as (o & w1 & evs & Hgen & (Ha1 & Hc1 & Hl1 & He1) & _).
  cbn [fst snd]. rewrite Hgen. cbn [fst snd]. rewrite app_nil_r in Hl1.
  destruct o as [text|e].
  2:{ destruct (commentFailed_run aid c e w w1 n a0) as (w' & -> & Hit);
        [now rewrite Ha1 | exact Hl1 |].
      do 3 eexists. split; [reflexivity|]. split; [exact Hit | simpl; lia]. }
  destruct (send_frame c text w1) as (o & w2 & evs2 & -> & (Ha2 & Hc2 & Hl2 & He2)).
  rewrite app_nil_r in Hl2. cbn [fst snd].
  destruct o as [[]|e].
  2:{ destruct (commentFailed_run aid c e w w2 n a0) as (w' & -> & Hit);
        [now rewrite Ha2, Ha1 | now rewrite Hl2 |].
      do 3 eexists. split; [reflexivity|]. split; [exact Hit | simpl; lia]. }
  rewrite createLog_run. unfold modifyLocals. cbn [fst snd].
  rewrite (updateAutomationStats_run aid true a0 (addLog _ w2))
    by (cbn; now rewrite Ha2, Ha1).
  cbn [fst snd]. do 3 eexists. split; [reflexivity|].
  unfold IterationCounts. cbn -[countStatus logData]. count_rows.
  rewrite lookup_insert_eq, Hl2, Hl1.
  repeat split; eauto; lia.
Qed.

Lemma forOf_run (comments : list InstagramComment) (w : World) (n : Counters)
    (a0 : Automation) :
  automations w !! aid = Some a0 ->
  exists w' n' rows,
    forOf comments body (w, n) = (Ret tt, (w', n'))
    /\ IterationCounts aid w n w' n' rows
    /\ (length rows <= length comments)%nat.
Proof.
  revert w n a0. induction comments as [|c rest IH]; intros w n a0 H.
  - exists w, n, []. split; [reflexivity|]. unfold IterationCounts.
    rewrite app_nil_r. count_rows. cbn [length]. repeat split; eauto; lia.
  - destruct (body_run c w n a0 H)
      as (w1 & n1 & rows1 & Hb & ([a1 Ha1] & Hl1 & Hp1 & Hs1 & Hf1) & Hlen1).
    destruct (IH w1 n1 a1 Ha1)
      as (w2 & n2 & rows2 & Hr & (Ha2 & Hl2 & Hp2 & Hs2 & Hf2) & Hlen2).
    exists w2, n2, (rows1 ++ rows2). split.
    + cbn [forOf]. unfold bind at 1. rewrite Hb. exact Hr.
    + unfold IterationCounts.
      rewrite !countStatus_app, Hl2, Hl1, <- app_assoc, length_app. cbn [length].
      repeat split; auto; lia.
Qed.

End LoopBody.

Lemma platformSendDirectMessage_frame (E : Env) (recipient text tok : string) (w : World) :
  exists o w1 evs,
    platformSendDirectMessage E recipient text tok w = (o, w1) /\ Extends w w1 [] evs.
Proof.
  unfold platformSendDirectMessage.
  destruct (sendDirectMessage E (events w) recipient text tok);
    do 3 eexists; (split; [reflexivity | apply Extends_record]).
Qed.

Lemma platformReplyToComment_frame (E : Env) (commentId text tok : string) (w : World) :
  exists o w1 evs,
    platformReplyToComment E commentId text tok w = (o, w1) /\ Extends w w1 [] evs.
Proof.
  unfold platformReplyToComment.
  destruct (replyToComment E (events w) commentId text tok);
    do 3 eexists; (split; [reflexivity | apply Extends_record]).
Qed.



(** The batch paths on a post with one comment answered, one refused by
    the platform and one that matches no keyword. *)
Example batch_three_comments :
  let a := Scenario.automation ACTIVE None None [Scenario.trigger "t1" "cost" None] in
  let w := Scenario.world a [] Scenario.halfPastThree in
  fst (processCommentToDMAutomation Scenario.batchEnv "a1" "post1" "tok" w)
  = Ret {| br_processed := 1; br_successful := Some 1; br_failed := Some 1;
           br_message := "Processed 1 comments, sent 1 DMs" |}
  /\ fst (processCommentReplyAutomation Scenario.batchEnv "a1" "post1" "tok" w)
     = Ret {| br_processed := 1; br_successful := Some 1; br_failed := Some 1;
              br_message := "Processed 1 comments, replied to 1" |}
  /\ List.map l_status
       (logs (snd (processCommentToDMAutomation Scenario.batchEnv "a1" "post1" "tok" w)))
     = [SUCCESS; FAILED; SKIPPED].
Proof. vm_compute. repeat split. Qed.

(** ** The theorems at a concrete deployment *)

Lemma processSingleComment_idempotency_guard_witness :
  let E := Scenario.env None None in
  let a := Scenario.automation ACTIVE None None [Scenario.trigger "t1" "cost" None] in
  let w := Scenario.world a [] Scenario.halfPastThree in
  (automations w !! "a1" = Some a /\ a_status a = ACTIVE)
  /\ (logsFor "a1" "c1" w <> [] ->
      processSingleComment E "a1" Scenario.comment "tok" w
      = (Ret (notProcessed "Already processed"), w))
  /\ (forall r1 w1,
        processSingleComment E "a1" Scenario.comment "tok" w = (r1, w1) ->
        (r1 <> Ret (notProcessed "Rate limit reached") ->
         logsFor "a1" "c1" w1 <> []
         /\ forall E2 tok2 t2,
              processSingleComment E2 "a1" Scenario.comment tok2 (atTime t2 w1)
              = (Ret (notProcessed "Already processed"), atTime t2 w1))
        /\ (r1 = Ret (notProcessed "Rate limit reached") -> w1 = w)).
Proof.
  cbv zeta. split; [split; reflexivity|].
  apply (processSingleComment_idempotency_guard (Scenario.env None None) "a1"
           Scenario.comment "tok"
           (Scenario.world
              (Scenario.automation ACTIVE None None [Scenario.trigger "t1" "cost" None])
              [] Scenario.halfPastThree)
           (Scenario.automation ACTIVE None None [Scenario.trigger "t1" "cost" None]));
    reflexivity.
Defined.

Lemma processSingleComment_outcome_witness :
  let E := Scenario.env None (Some (JsError "Comment replies are disabled")) in
  let t := scenarioReplyOnly in
  let a := Scenario.automation ACTIVE (Some 5) (Some 2) [t] in
  let w := Scenario.world a [Scenario.logRow "c0" SUCCESS Scenario.tenOClock]
             Scenario.halfPastThree in
  (automations w !! "a1" = Some a
   /\ a_status a = ACTIVE
   /\ logsFor "a1" "c1" w = []
   /\ findMatchingTrigger E "How much does it cost?" (a_triggers (activeTriggers a)) = Some t
   /\ checkLimits E (activeTriggers a) w = (Ret true, w)
   /\ replyCondition (commentReplyText t) = inr (Some "Check your DMs, {username}!"))
  /\ exists r w' evs rows,
       processSingleComment E "a1" Scenario.comment "tok" w = (Ret r, w')
       /\ events w' = events w ++ evs
       /\ logs w' = logs w ++ rows
       /\ sr_processed r = anyEvent (fun e => isDmSent e || isReplySent e) evs
       /\ automations w' !! "a1" = Some (bumpStats (sr_processed r) (clock w) a)
       /\ (if sr_processed r
           then exists earlier row, rows = earlier ++ [row] /\ l_status row = SUCCESS
           else (exists m, sr_message r = "Failed: " +:+ m)
                /\ Forall (fun row => l_status row = FAILED) rows)
       /\ (tr_response t = None ->
           anyEvent isDmSent evs = false
           /\ anyEvent isDmFailed evs = false
           /\ (exists later,
                 rows = logData "a1" Scenario.comment FAILED None
                          "DM failed: No response configured for trigger" (clock w)
                        :: later)
           /\ sr_processed r = anyEvent isReplySent evs
           /\ (sr_processed r = true -> sr_actions r = Some ["replied_comment"])
           /\ (sr_processed r = false ->
               sr_message r = "Failed: No response configured for trigger")
           /\ (Some "Check your DMs, {username}!" = None -> sr_processed r = false)).
Proof.
  cbv zeta. split; [repeat split|].
  apply (processSingleComment_outcome
           (Scenario.env None (Some (JsError "Comment replies are disabled")))
           "a1" Scenario.comment "tok"
           (Scenario.world
              (Scenario.automation ACTIVE (Some 5) (Some 2) [scenarioReplyOnly])
              [Scenario.logRow "c0" SUCCESS Scenario.tenOClock] Scenario.halfPastThree)
           (Scenario.automation ACTIVE (Some 5) (Some 2) [scenarioReplyOnly])
           scenarioReplyOnly (Some "Check your DMs, {username}!"));
    reflexivity.
Defined.

Lemma processSingleComment_dual_action_witness :
  let E := Scenario.env None (Some (JsError "Comment replies are disabled")) in
  let t := Scenario.trigger "t1" "cost" (Some "Check your DMs, {username}!") in
  let a := Scenario.automation ACTIVE None None [t] in
  let w := Scenario.world a [] Scenario.halfPastThree in
  (automations w !! "a1" = Some a
   /\ a_status a = ACTIVE
   /\ logsFor "a1" "c1" w = []
   /\ findMatchingTrigger E "How much does it cost?" (a_triggers (activeTriggers a)) = Some t
   /\ checkLimits E (activeTriggers a) w = (Ret true, w)
   /\ replyCondition (commentReplyText t) = inr (Some "Check your DMs, {username}!"))
  /\ exists r w' evs rows,
       processSingleComment E "a1" Scenario.comment "tok" w = (Ret r, w')
       /\ events w' = events w ++ evs
       /\ logs w' = logs w ++ rows
       /\ (anyEvent isDmFailed evs = true ->
           anyEvent isReplySent evs = true ->
           sr_processed r = true
           /\ sr_message r = "Success: replied_comment"
           /\ sr_actions r = Some ["replied_comment"]
           /\ automations w' !! "a1" = Some (bumpStats true (clock w) a)
           /\ exists m,
                List.map (fun row => (l_status row, l_message row)) rows
                = [(FAILED, "DM failed: " +:+ m);
                   (SUCCESS, "Actions completed: replied_comment")])
       /\ (anyEvent isDmSent evs = true ->
           anyEvent isReplyFailed evs = true ->
           sr_processed r = true
           /\ sr_message r = "Success: sent_dm"
           /\ sr_actions r = Some ["sent_dm"]
           /\ automations w' !! "a1" = Some (bumpStats true (clock w) a)
           /\ exists m,
                List.map (fun row => (l_status row, l_message row)) rows
                = [(SUCCESS,
                    "Comment reply failed: " +:+ m +:+ " (DM sent successfully)");
                   (SUCCESS, "Actions completed: sent_dm")]).
Proof.
  cbv zeta. split; [repeat split|].
  apply (processSingleComment_dual_action
           (Scenario.env None (Some (JsError "Comment replies are disabled")))
           "a1" Scenario.comment "tok"
           (Scenario.world
              (Scenario.automation ACTIVE None None
                 [Scenario.trigger "t1" "cost" (Some "Check your DMs, {username}!")])
              [] Scenario.halfPastThree)
           (Scenario.automation ACTIVE None None
              [Scenario.trigger "t1" "cost" (Some "Check your DMs, {username}!")])
           (Scenario.trigger "t1" "cost" (Some "Check your DMs, {username}!"))
           "Check your DMs, {username}!");
    reflexivity.
Defined.


(** * Further properties of the engine *)

(** * Further properties *)

(** ** Keyword matcher and trigger selection *)

Lemma append_nil_r (s : string) : s +:+ EmptyString = s.
Proof. induction s as [|c s IH]; [reflexivity|]. rewrite append_cons. now f_equal. Qed.

Lemma IsPrefix_IsSubstring (k s : string) : IsPrefix k s -> IsSubstring k s.
Proof. intros [b ->]. now exists EmptyString, b. Qed.

Lemma IsSuffix_IsSubstring (k s : string) : IsSuffix k s -> IsSubstring k s.
Proof. intros [a ->]. exists a, EmptyString. now rewrite append_nil_r. Qed.

(** X1. A keyword that is empty once normalised matches every text in the
    CONTAINS, STARTS_WITH and ENDS_WITH modes and in any unknown mode. *)
Theorem matchKeyword_empty_keyword (E : Env) (text keyword matchType : string)
    (caseSensitive : bool) :
  (if caseSensitive then keyword else toLowerCase E keyword) = EmptyString ->
  matchType <> "EXACT" ->
  matchType <> "REGEX" ->
  matchKeyword E text keyword matchType caseSensitive = true.
Proof.
  intros Hk Hx Hr. unfold matchKeyword. rewrite Hk.
  set (s := if caseSensitive then text else toLowerCase E text).
  assert (Js.includes s EmptyString = true) as Hinc.
  { apply includes_IsSubstring. exists EmptyString, s. reflexivity. }
  destruct (String.eqb matchType "EXACT") eqn:H1.
  { apply String.eqb_eq in H1. contradiction. }
  destruct (String.eqb matchType "CONTAINS"); [exact Hinc|].
  destruct (String.eqb matchType "STARTS_WITH").
  { apply prefix_IsPrefix. now exists s. }
  destruct (String.eqb matchType "ENDS_WITH").
  { apply endsWith_IsSuffix. exists s. now rewrite append_nil_r. }
  destruct (String.eqb matchType "REGEX") eqn:H5.
  { apply String.eqb_eq in H5. contradiction. }
  exact Hinc.
Qed.

Lemma matchKeyword_empty_keyword_witness :
  Js.asciiToLowerCase EmptyString = EmptyString
  /\ matchKeyword (Scenario.env None None) "nice photo" EmptyString "STARTS_WITH" false
     = true.
Proof.
  split; [reflexivity|].
  apply (matchKeyword_empty_keyword (Scenario.env None None) "nice photo" EmptyString
           "STARTS_WITH" false); [reflexivity | discriminate | discriminate].
Defined.

(** X2. For the same text, keyword and case flag the modes are ordered:
    an EXACT match is a STARTS_WITH and an ENDS_WITH match, and a
    STARTS_WITH or ENDS_WITH match is a CONTAINS match. *)
Theorem matchKeyword_mode_hierarchy (E : Env) (text keyword : string)
    (caseSensitive : bool) :
  (matchKeyword E text keyword "EXACT" caseSensitive = true ->
   matchKeyword E text keyword "STARTS_WITH" caseSensitive = true
   /\ matchKeyword E text keyword "ENDS_WITH" caseSensitive = true)
  /\ (matchKeyword E text keyword "STARTS_WITH" caseSensitive = true ->
      matchKeyword E text keyword "CONTAINS" caseSensitive = true)
  /\ (matchKeyword E text keyword "ENDS_WITH" caseSensitive = true ->
      matchKeyword E text keyword "CONTAINS" caseSensitive = true).
Proof.
  unfold matchKeyword. cbn [String.eqb Ascii.eqb Bool.eqb].
  set (s := if caseSensitive then text else toLowerCase E text).
  set (k := if caseSensitive then keyword else toLowerCase E keyword).
  split; [|split].
  - intros H. apply String.eqb_eq in H. rewrite H. split.
    + apply prefix_IsPrefix. exists EmptyString. now rewrite append_nil_r.
    + apply endsWith_IsSuffix. now exists EmptyString.
  - intros H. apply includes_IsSubstring, IsPrefix_IsSubstring.
    now apply prefix_IsPrefix.
  - intros H. apply includes_IsSubstring, IsSuffix_IsSubstring.
    now apply endsWith_IsSuffix.
Qed.

(** X3. Triggers appended to a list never displace a match found in the
    list: the result on [ts ++ more] is the result on [ts] if there is one,
    and the result on [more] otherwise. *)
Theorem findMatchingTrigger_app (E : Env) (text : string) (ts more : list Trigger) :
  findMatchingTrigger E text (ts ++ more)
  = match findMatchingTrigger E text ts with
    | Some t => Some t
    | None => findMatchingTrigger E text more
    end.
Proof.
  induction ts as [|t ts IH]; [reflexivity|].
  cbn [app findMatchingTrigger].
  destruct (tr_keyword t) as [k|]; [|exact IH].
  destruct (matchKeyword E text (kw_keyword k) (kw_matchType k) (kw_caseSensitive k));
    [reflexivity | exact IH].
Qed.

(** ** Response resolver *)

Lemma includes_cons_false (c : ascii) (s k : string) :
  Js.includes (String c s) k = false ->
  String.prefix k (String c s) = false /\ Js.includes s k = false.
Proof. rewrite includes_cons. apply orb_false_iff. Qed.

Lemma replaceAllFrom_absent (pat repl before s : string) :
  Js.includes s pat = false -> Js.replaceAllFrom pat repl before s 0 = s.
Proof.
  revert before. induction s as [|c s IH]; intros before H; [reflexivity|].
  apply includes_cons_false in H as [Hp Hs].
  cbn [Js.replaceAllFrom]. rewrite Hp. f_equal. now apply IH.
Qed.

(** A [replace] whose pattern does not occur returns the string itself. *)
Lemma replaceAll_absent (s pat repl : string) :
  Js.includes s pat = false -> Js.replaceAll s pat repl = s.
Proof. apply replaceAllFrom_absent. Qed.

(** X4. A template that contains none of the three placeholders is
    returned as it is, whatever the comment and the time. *)
Theorem personalizeMessage_no_placeholder (E : Env) (template : string)
    (comment : InstagramComment) (w : World) :
  Js.includes template "{username}" = false ->
  Js.includes template "{comment}" = false ->
  Js.includes template "{time}" = false ->
  personalizeMessage E template comment w = (Ret template, w).
Proof.
  intros Hu Hc Ht. unfold personalizeMessage, bind, newDate, ret.
  now rewrite (replaceAll_absent template _ _ Hu), (replaceAll_absent template _ _ Hc),
    (replaceAll_absent template _ _ Ht).
Qed.

Lemma personalizeMessage_no_placeholder_witness :
  Js.includes "Check your DMs!" "{username}" = false
  /\ personalizeMessage (Scenario.env None None) "Check your DMs!" Scenario.comment
       (Scenario.world (Scenario.automation ACTIVE None None []) [] 0)
     = (Ret "Check your DMs!",
        Scenario.world (Scenario.automation ACTIVE None None []) [] 0).
Proof.
  split; [reflexivity|].
  apply (personalizeMessage_no_placeholder (Scenario.env None None) "Check your DMs!"
           Scenario.comment); reflexivity.
Defined.

(** X5. An AI response on a plan other than PRO and ENTERPRISE fails with
    'AI responses require PRO plan' before anything is asked of the
    generator: the world, and so the event history, is untouched. *)
Theorem generateResponse_ai_requires_plan (E : Env) (t : Trigger) (r : AutoResponse)
    (c : InstagramComment) (plan tok : string) (w : World) :
  tr_response t = Some r ->
  responseType r = AI_GENERATED ->
  plan <> "PRO" ->
  plan <> "ENTERPRISE" ->
  generateResponse E t c plan tok w = (Throw (JsError "AI responses require PRO plan"), w).
Proof.
  intros Hr Hty Hpro Hent. unfold generateResponse, isAIEnabled. rewrite Hr, Hty.
  cbn [bool_decide]. rewrite bool_decide_eq_false_2 by discriminate.
  rewrite bool_decide_eq_true_2 by reflexivity.
  apply String.eqb_neq in Hpro, Hent. rewrite Hpro, Hent. reflexivity.
Qed.

Lemma generateResponse_ai_requires_plan_witness :
  generateResponse (Scenario.env None None) scenarioAiTrigger Scenario.comment "FREE" "tok"
    (Scenario.world (Scenario.automation ACTIVE None None [scenarioAiTrigger]) [] 0)
  = (Throw (JsError "AI responses require PRO plan"),
     Scenario.world (Scenario.automation ACTIVE None None [scenarioAiTrigger]) [] 0).
Proof.
  apply (generateResponse_ai_requires_plan (Scenario.env None None) scenarioAiTrigger
           scenarioAiResponse Scenario.comment "FREE" "tok");
    [reflexivity | reflexivity | discriminate | discriminate].
Defined.

(** X6. On a PRO or ENTERPRISE plan an AI response is exactly what the
    generator returns for the comment text, the author's username and the
    stored prompt (an empty prompt is passed as none): no placeholder is
    substituted in it, and the one call is recorded. *)
Theorem generateResponse_ai_verbatim (E : Env) (t : Trigger) (r : AutoResponse)
    (c : InstagramComment) (plan tok text : string) (w : World) :
  tr_response t = Some r ->
  responseType r = AI_GENERATED ->
  plan = "PRO" \/ plan = "ENTERPRISE" ->
  generateCommentReply E (events w)
    {| commentText := c_text c; userName := c_username c;
       userPrompt := truthyString (aiPrompt r) |} = Some text ->
  generateResponse E t c plan tok w
  = (Ret text,
     record (CallGenerateCommentReply
               {| commentText := c_text c; userName := c_username c;
                  userPrompt := truthyString (aiPrompt r) |}) None w).
Proof.
  intros Hr Hty Hplan Hgen. unfold generateResponse, isAIEnabled. rewrite Hr, Hty.
  rewrite bool_decide_eq_false_2 by discriminate.
  rewrite bool_decide_eq_true_2 by reflexivity.
  assert (String.eqb plan "PRO" || String.eqb plan "ENTERPRISE" = true) as ->.
  { destruct Hplan as [-> | ->]; reflexivity. }
  cbn [negb]. unfold aiGenerateCommentReply. now rewrite Hgen.
Qed.

(** X7. A response of type TEMPLATE, or of type CUSTOM with a missing or
    empty message, fails with 'Invalid response type' and touches nothing. *)
Theorem generateResponse_invalid_type (E : Env) (t : Trigger) (r : AutoResponse)
    (c : InstagramComment) (plan tok : string) (w : World) :
  tr_response t = Some r ->
  responseType r = TEMPLATE
  \/ (responseType r = CUSTOM /\ truthyString (customMessage r) = None) ->
  generateResponse E t c plan tok w = (Throw (JsError "Invalid response type"), w).
Proof.
  intros Hr Hty. unfold generateResponse. rewrite Hr.
  destruct Hty as [Hty | [Hty Hmsg]]; rewrite Hty.
  - rewrite !bool_decide_eq_false_2 by discriminate. reflexivity.
  - rewrite Hmsg. rewrite bool_decide_eq_true_2 by reflexivity.
    rewrite bool_decide_eq_false_2 by discriminate. reflexivity.
Qed.

(** ** Counters *)

(** X8. [updateAutomationStats] on an existing automation adds one to
    [totalExecutions] and one to exactly one of the two other counters, so
    [successful + failed] grows with [total]; it sets [lastExecutedAt] to
    the current time and leaves status, caps, plan and triggers, every
    other automation, the log table and the event history as they were.
    On a missing automation it throws and changes nothing. *)
Theorem updateAutomationStats_effect (aid : string) (success : bool) (w : World) :
  match automations w !! aid with
  | Some a =>
      exists w' a',
        updateAutomationStats aid success w = (Ret tt, w')
        /\ automations w' !! aid = Some a'
        /\ (forall id, id <> aid -> automations w' !! id = automations w !! id)
        /\ logs w' = logs w /\ events w' = events w /\ clock w' = clock w
        /\ a_totalExecutions a' = a_totalExecutions a + 1
        /\ a_successfulExecutions a' + a_failedExecutions a'
           = a_successfulExecutions a + a_failedExecutions a + 1
        /\ a_successfulExecutions a'
           = (if success then a_successfulExecutions a + 1 else a_successfulExecutions a)
        /\ a_lastExecutedAt a' = Some (clock w)
        /\ a_id a' = a_id a /\ a_status a' = a_status a
        /\ a_userPlan a' = a_userPlan a
        /\ a_dailyLimit a' = a_dailyLimit a /\ a_hourlyLimit a' = a_hourlyLimit a
        /\ a_triggers a' = a_triggers a
  | None =>
      exists e, updateAutomationStats aid success w = (Throw e, w)
  end.
Proof.
  destruct (automations w !! aid) as [a|] eqn:H.
  - rewrite (updateAutomationStats_run aid success a w H).
    eexists _, (bumpStats success (clock w) a). split; [reflexivity|].
    cbn [automations logs events clock]. split; [apply lookup_insert_eq|].
    split; [intros id Hne; now apply lookup_insert_ne|].
    destruct success; cbn; repeat split; lia.
  - unfold updateAutomationStats, bind, newDate, automationUpdate. rewrite H.
    eexists. reflexivity.
Qed.

(** ** [processSingleComment] on any world *)

Lemma dualRows_owner (aid : string) (c : InstagramComment) (now : Z)
    (dm : DmOutcome) (reply : ReplyOutcome) :
  Forall (fun row => l_automationId row = aid /\ l_targetId row = c_id c)
    (dualRows aid c now dm reply).
Proof. destruct dm, reply; repeat constructor. Qed.

Lemma dualRows_length_le (aid : string) (c : InstagramComment) (now : Z)
    (dm : DmOutcome) (reply : ReplyOutcome) :
  (1 <= length (dualRows aid c now dm reply) <= 2)%nat.
Proof. destruct dm, reply; cbn [length dualRows app]; simpl; lia. Qed.

Lemma dmRows_owner (aid : string) (c : InstagramComment) (now : Z) (dm : DmOutcome) :
  Forall (fun row => l_automationId row = aid /\ l_targetId row = c_id c)
    (dmRows aid c now dm).
Proof. destruct dm; repeat constructor. Qed.

Lemma dmRows_length_le (aid : string) (c : InstagramComment) (now : Z) (dm : DmOutcome) :
  (length (dmRows aid c now dm) <= 1)%nat.
Proof. destruct dm; simpl; lia. Qed.

(** What any call can have done to the world, whether it returns or
    throws, and the one way it throws. *)
Lemma processSingleComment_any (E : Env) (aid : string) (c : InstagramComment)
    (tok : string) (w : World) :
  exists o w' rows evs,
    processSingleComment E aid c tok w = (o, w')
    /\ logs w' = logs w ++ rows
    /\ events w' = events w ++ evs
    /\ clock w' = clock w
    /\ Forall (fun row => l_automationId row = aid /\ l_targetId row = c_id c) rows
    /\ (length rows <= 2)%nat
    /\ ((automations w' = automations w /\ evs = [])
        \/ exists a success,
             automations w !! aid = Some a
             /\ automations w' = <[aid := bumpStats success (clock w) a]> (automations w)
             /\ (1 <= length rows)%nat)
    /\ (forall e,
          o = Throw e ->
          exists a t,
            automations w !! aid = Some a
            /\ findMatchingTrigger E (c_text c) (a_triggers (activeTriggers a)) = Some t
            /\ replyCondition (commentReplyText t) = inl e).
Proof.
  assert (forall r : SingleResult, exists o w' rows evs,
             (Ret r, w) = (o, w')
             /\ logs w' = logs w ++ rows
             /\ events w' = events w ++ evs
             /\ clock w' = clock w
             /\ Forall (fun row => l_automationId row = aid /\ l_targetId row = c_id c) rows
             /\ (length rows <= 2)%nat
             /\ ((automations w' = automations w /\ evs = [])
                 \/ exists a success,
                      automations w !! aid = Some a
                      /\ automations w' = <[aid := bumpStats success (clock w) a]>
                                            (automations w)
                      /\ (1 <= length rows)%nat)
             /\ (forall e,
                   o = Throw e ->
                   exists a t,
                     automations w !! aid = Some a
                     /\ findMatchingTrigger E (c_text c) (a_triggers (activeTriggers a))
                        = Some t
                     /\ replyCondition (commentReplyText t) = inl e)) as Hsame.
  { intros r. exists (Ret r), w, [], []. rewrite !app_nil_r.
    repeat split; auto; try (simpl; lia). intros e [=]. }
  destruct (automations w !! aid) as [a|] eqn:H1.
  2:{ rewrite processSingleComment_inactive by now rewrite H1. apply Hsame. }
  destruct (decide (a_status a = ACTIVE)) as [H2|H2].
  2:{ rewrite processSingleComment_inactive by now rewrite H1. apply Hsame. }
  destruct (logsFor aid (c_id c) w) as [|row0 rows0] eqn:H3.
  2:{ rewrite (processSingleComment_already E aid c tok w a)
        by (try rewrite H3; done).
      apply Hsame. }
  destruct (findMatchingTrigger E (c_text c) (a_triggers (activeTriggers a)))
    as [t|] eqn:H4.
  2:{ rewrite (processSingleComment_no_match E aid c tok w a) by done.
      exists (Ret (notProcessed "No keyword match")),
        (addLog (logData aid c SKIPPED None "No keyword match" (clock w)) w),
        [logData aid c SKIPPED None "No keyword match" (clock w)], [].
      rewrite app_nil_r. repeat split; auto; try (simpl; lia). intros e [=]. }
  pose proof (checkLimits_run E (activeTriggers a) w) as H5.
  match type of H5 with _ = (Ret ?b, _) => destruct b end.
  2:{ rewrite (processSingleComment_limited E aid c tok w a t) by done. apply Hsame. }
  destruct (replyCondition (commentReplyText t)) as [typeError|configured] eqn:Hcond.
  { destruct (processSingleComment_ill_typed E aid c tok w a t typeError
                H1 H2 H3 H4 H5 Hcond)
      as (dm & w' & evs & Hthrow & Ha' & Hc' & Hl' & He' & _).
    rewrite Hthrow.
    exists (Throw typeError), w',
      (dmRows aid c (clock w) dm
       ++ [logData aid c FAILED None (errorMessageOr typeError "Unknown error") (clock w)]),
      evs.
    pose proof (dmRows_length_le aid c (clock w) dm) as Hlen.
    do 4 (split; [assumption || reflexivity|]).
    split.
    { apply Forall_app. split; [apply dmRows_owner | repeat constructor]. }
    rewrite length_app. cbn [length].
    split; [lia|]. split.
    - right. exists a, false. repeat split; auto; lia.
    - intros e [= <-]. exists a, t. auto. }
  rewrite (processSingleComment_gated E aid c tok w a t configured) by done.
  destruct (dualAction_run E aid tok (activeTriggers a) a t c w configured H1 Hcond)
    as (dm & reply & w' & evs & Hdual & Ha' & Hc' & Hl' & He' & _).
  exists (Ret (resultOf (localsAfterReply dm reply))), w',
    (dualRows aid c (clock w) dm reply), evs.
  pose proof (dualRows_length_le aid c (clock w) dm reply) as Hlen.
  repeat split; auto using dualRows_owner; try lia.
  - right. exists a, (anySucceeded (localsAfterReply dm reply)).
    repeat split; auto; lia.
  - intros e [=].
Qed.

(** X9. Whether it returns or throws, [processSingleComment] only appends
    to the log table and to the event history, and the rows it appends, two
    at most, are all rows of this automation for this comment.  No failure
    of the platform or of the generator makes it throw: it throws only the
    TypeError of a matched trigger whose [commentReply] is a truthy value
    that is not a string. *)
Theorem processSingleComment_frame (E : Env) (aid : string) (c : InstagramComment)
    (tok : string) (w : World) :
  exists o w' rows evs,
    processSingleComment E aid c tok w = (o, w')
    /\ logs w' = logs w ++ rows
    /\ events w' = events w ++ evs
    /\ clock w' = clock w
    /\ Forall (fun row => l_automationId row = aid /\ l_targetId row = c_id c) rows
    /\ (length rows <= 2)%nat
    /\ (forall e,
          o = Throw e ->
          exists a t,
            automations w !! aid = Some a
            /\ findMatchingTrigger E (c_text c) (a_triggers (activeTriggers a)) = Some t
            /\ replyCondition (commentReplyText t) = inl e).
Proof.
  destruct (processSingleComment_any E aid c tok w)
    as (o & w' & rows & evs & H & Hl & He & Hc & Hown & Hlen & _ & Hthrow).
  exists o, w', rows, evs. auto 10.
Qed.

(** X10. [processSingleComment] leaves every other automation as it was,
    never creates or removes one, and on its own automation changes only
    the counters and [lastExecutedAt]: [totalExecutions] grows by at most
    one, and [successful + failed] grows by the same amount, so an
    automation whose total equals [successful + failed] keeps that. *)
Theorem processSingleComment_counters (E : Env) (aid : string) (c : InstagramComment)
    (tok : string) (w : World) :
  let w' := snd (processSingleComment E aid c tok w) in
  (forall id, id <> aid -> automations w' !! id = automations w !! id)
  /\ match automations w !! aid with
     | None => automations w' !! aid = None
     | Some a =>
         exists a',
           automations w' !! aid = Some a'
           /\ a_id a' = a_id a /\ a_status a' = a_status a
           /\ a_userPlan a' = a_userPlan a
           /\ a_dailyLimit a' = a_dailyLimit a /\ a_hourlyLimit a' = a_hourlyLimit a
           /\ a_triggers a' = a_triggers a
           /\ 0 <= a_totalExecutions a' - a_totalExecutions a <= 1
           /\ a_successfulExecutions a' + a_failedExecutions a'
              - (a_successfulExecutions a + a_failedExecutions a)
              = a_totalExecutions a' - a_totalExecutions a
     end.
Proof.
  cbv zeta.
  destruct (processSingleComment_any E aid c tok w)
    as (o & w' & rows & evs & -> & _ & _ & _ & _ & _ & Hauto & _).
  cbn [snd].
  destruct Hauto as [[-> _] | (a & success & Ha & -> & _)].
  - split; [reflexivity|].
    destruct (automations w !! aid) as [a|]; [|reflexivity].
    exists a. repeat split; lia.
  - split; [intros id Hne; now apply lookup_insert_ne|].
    rewrite Ha, lookup_insert_eq. eexists. split; [reflexivity|].
    destruct success; cbn; repeat split; lia.
Qed.

(** X11. On an ACTIVE automation, a comment without a row that matches
    no trigger keyword gets exactly one SKIPPED row with action
    [skipped_comment] and no response text; nothing is sent and no counter
    moves. *)
Theorem processSingleComment_skips_unmatched (E : Env) (aid : string)
    (c : InstagramComment) (tok : string) (w : World) (a : Automation) :
  automations w !! aid = Some a ->
  a_status a = ACTIVE ->
  logsFor aid (c_id c) w = [] ->
  findMatchingTrigger E (c_text c) (a_triggers (activeTriggers a)) = None ->
  exists w' row,
    processSingleComment E aid c tok w = (Ret (notProcessed "No keyword match"), w')
    /\ logs w' = logs w ++ [row]
    /\ logsFor aid (c_id c) w' = [row]
    /\ l_status row = SKIPPED
    /\ l_action row = "skipped_comment"
    /\ l_responseText row = None
    /\ md_commentText (l_metadata row) = c_text c
    /\ events w' = events w
    /\ automations w' = automations w.
Proof.
  intros H1 H2 H3 H4.
  rewrite (processSingleComment_no_match E aid c tok w a) by done.
  do 2 eexists. split; [reflexivity|]. split; [reflexivity|]. split.
  - rewrite (logsFor_extend aid (c_id c) w _
               [logData aid c SKIPPED None "No keyword match" (clock w)])
      by reflexivity.
    rewrite H3. cbn [List.filter app]. now rewrite logData_matches.
  - repeat split.
Qed.

Lemma checkLimits_daily_reached (E : Env) (a : Automation) (w : World) (n : Z) :
  a_dailyLimit a = Some n ->
  0 < n ->
  n <= successCountSince (a_id a) (startOfDay_spec E (clock w)) w ->
  checkLimits E (activeTriggers a) w = (Ret false, w).
Proof.
  intros Hd Hpos Hcount.
  rewrite checkLimits_run. cbn [activeTriggers a_dailyLimit a_id]. rewrite Hd.
  cbn [truthyLimit]. destruct (Z.eqb_spec n 0) as [->|_]; [lia|].
  replace (successCountSince (a_id a) (startOfDay_spec E (clock w)) w <? n)
    with false by (symmetry; apply Z.ltb_ge; lia).
  reflexivity.
Qed.

(** X12. On an ACTIVE automation with a daily cap [n > 0], once [n] or
    more SUCCESS rows of the automation date from the current local day, a
    new matching comment is refused with 'Rate limit reached' and nothing
    at all happens: no call, no row, no counter. *)
Theorem processSingleComment_daily_cap (E : Env) (aid : string) (c : InstagramComment)
    (tok : string) (w : World) (a : Automation) (t : Trigger) (n : Z) :
  automations w !! aid = Some a ->
  a_status a = ACTIVE ->
  logsFor aid (c_id c) w = [] ->
  findMatchingTrigger E (c_text c) (a_triggers (activeTriggers a)) = Some t ->
  a_dailyLimit a = Some n ->
  0 < n ->
  n <= successCountSince (a_id a) (startOfDay_spec E (clock w)) w ->
  processSingleComment E aid c tok w = (Ret (notProcessed "Rate limit reached"), w).
Proof.
  intros H1 H2 H3 H4 Hd Hpos Hcount.
  apply (processSingleComment_limited E aid c tok w a t); try done.
  now apply (checkLimits_daily_reached E a w n).
Qed.

Lemma dmAction_not_generated (E : Env) (aid tok : string) (a : Automation) (t : Trigger)
    (c : InstagramComment) (w w1 : World) (e : Exn) :
  generateResponse E t c (a_userPlan a) tok w = (Throw e, w1) ->
  dmAction E aid tok a t c (w, initialLocals)
  = (Ret tt,
     (addLog (logData aid c FAILED None
                ("DM failed: " +:+ errorMessageOr e "Failed to send DM") (clock w1)) w1,
      localsAfterDm (DmNotGenerated e))).
Proof.
  intros Hgen. unfold dmAction, tryCatch, bind, lift, modifyLocals. cbn [fst snd].
  rewrite Hgen. cbn [fst snd]. rewrite createLog_run. reflexivity.
Qed.

(** X13. Past the gates, on a trigger without reply template, when the
    response cannot be produced and the generator is not even reached
    (no Response, invalid type, AI without the plan), the call is FAILED
    with the error's message: one FAILED row 'DM failed: ...', the failure
    counter incremented, and no call to the platform or the generator. *)
Theorem processSingleComment_response_error (E : Env) (aid : string)
    (c : InstagramComment) (tok : string) (w : World) (a : Automation) (t : Trigger)
    (m : string) :
  automations w !! aid = Some a ->
  a_status a = ACTIVE ->
  logsFor aid (c_id c) w = [] ->
  findMatchingTrigger E (c_text c) (a_triggers (activeTriggers a)) = Some t ->
  checkLimits E (activeTriggers a) w = (Ret true, w) ->
  replyCondition (commentReplyText t) = inr None ->
  generateResponse E t c (a_userPlan a) tok w = (Throw (JsError m), w) ->
  exists w' row,
    processSingleComment E aid c tok w = (Ret (notProcessed ("Failed: " +:+ m)), w')
    /\ events w' = events w
    /\ logs w' = logs w ++ [row]
    /\ l_status row = FAILED
    /\ l_message row = "DM failed: " +:+ m
    /\ automations w' = <[aid := bumpStats false (clock w) a]> (automations w).
Proof.
  intros H1 H2 H3 H4 H5 Hreply Hgen.
  rewrite (processSingleComment_gated E aid c tok w a t None) by done.
  unfold dualAction, withLocals, bind.
  rewrite (dmAction_not_generated E aid tok (activeTriggers a) t c w w (JsError m))
    by exact Hgen.
  unfold replyAction. rewrite Hreply. unfold ret at 1.
  set (w1 := addLog _ w).
  destruct (finalResult_run aid c a w1 (localsAfterDm (DmNotGenerated (JsError m))))
    as (w2 & Hfin & Ha2 & Hc2 & Hl2 & He2); [exact H1|].
  rewrite Hfin. cbn [fst snd]. exists w2. eexists. split; [reflexivity|].
  rewrite He2, Hl2, Ha2. cbn -[logData String.append bumpStats].
  rewrite app_nil_r. repeat split.
Qed.

Lemma replyCondition_not_a_string (value : JsValue) :
  truthyValue value = true ->
  (forall text, value <> JsString text) ->
  replyCondition (Some value) = inl (JsError "commentReplyText.trim is not a function").
Proof.
  intros Htruthy Hnot. destruct value as [|b|n|text|items|fields]; cbn in *;
    try rewrite Htruthy; try reflexivity; try discriminate.
  now elim (Hnot text).
Qed.

(** X26. Past the gates, on a matched trigger whose [commentReply] is a
    truthy value that is not a string, the call runs its DM action and then
    throws the TypeError of [trim].  No reply is attempted; the outer
    [catch] writes a FAILED row with the TypeError's message and the
    failure counter is incremented, also when the DM was delivered.  Every
    row written is FAILED: one when the DM was delivered, two when it was
    not. *)
Theorem processSingleComment_reply_not_a_string (E : Env) (aid : string)
    (c : InstagramComment) (tok : string) (w : World) (a : Automation) (t : Trigger)
    (value : JsValue) :
  automations w !! aid = Some a ->
  a_status a = ACTIVE ->
  logsFor aid (c_id c) w = [] ->
  findMatchingTrigger E (c_text c) (a_triggers (activeTriggers a)) = Some t ->
  checkLimits E (activeTriggers a) w = (Ret true, w) ->
  commentReplyText t = Some value ->
  truthyValue value = true ->
  (forall text, value <> JsString text) ->
  exists w' evs rows,
    processSingleComment E aid c tok w
    = (Throw (JsError "commentReplyText.trim is not a function"), w')
    /\ events w' = events w ++ evs
    /\ anyEvent isReplySent evs = false
    /\ anyEvent isReplyFailed evs = false
    /\ logs w' = logs w ++ rows
    /\ Forall (fun row => l_status row = FAILED) rows
    /\ last rows
       = Some (logData aid c FAILED None "commentReplyText.trim is not a function"
                 (clock w))
    /\ length rows = (if anyEvent isDmSent evs then 1 else 2)%nat
    /\ automations w' = <[aid := bumpStats false (clock w) a]> (automations w).
Proof.
  intros H1 H2 H3 H4 H5 Hvalue Htruthy Hnot.
  pose proof (replyCondition_not_a_string value Htruthy Hnot) as Hcond.
  rewrite <- Hvalue in Hcond.
  destruct (processSingleComment_ill_typed E aid c tok w a t _ H1 H2 H3 H4 H5 Hcond)
    as (dm & w' & evs & Hthrow & Ha' & _ & Hl' & He' & Hact & _).
  exists w', evs. eexists. split; [exact Hthrow|]. split; [exact He'|].
  rewrite (anyEvent_actions _ evs isReplySent_action),
    (anyEvent_actions _ evs isReplyFailed_action),
    (anyEvent_actions _ evs isDmSent_action), Hact.
  do 2 (split; [now destruct dm|]).
  split; [exact Hl'|].
  split; [destruct dm; repeat constructor|].
  split; [now destruct dm|].
  split; [now destruct dm | exact Ha'].
Qed.

(** ** Rate limiter *)

Lemma successCountSince_addLog (id : string) (since : Z) (row : AutomationLog)
    (w : World) :
  successCountSince id since (addLog row w)
  = successCountSince id since w + (if isSuccessSince id since row then 1 else 0).
Proof.
  unfold successCountSince, addLog. cbn [logs].
  rewrite List.filter_app, length_app. cbn [List.filter].
  destruct (isSuccessSince id since row); cbn [length]; lia.
Qed.

(** X14. A row that is not a SUCCESS row, or belongs to another
    automation, or dates from before the current local day, does not count
    against the caps: adding it does not change the answer of
    [checkLimits]. *)
Theorem checkLimits_counts_only_successes (E : Env) (a : Automation) (w : World)
    (row : AutomationLog) :
  l_status row <> SUCCESS
  \/ l_automationId row <> a_id a
  \/ l_executedAt row < startOfDay_spec E (clock w) ->
  fst (checkLimits E a (addLog row w)) = fst (checkLimits E a w).
Proof.
  intros Hrow. rewrite !checkLimits_run. cbn [fst addLog clock].
  assert (isSuccessSince (a_id a) (startOfDay_spec E (clock w)) row = false) as Hno.
  { unfold isSuccessSince. destruct Hrow as [Hs | [Hid | Ht]].
    - rewrite (bool_decide_eq_false_2 _ Hs). now rewrite andb_false_r.
    - apply String.eqb_neq in Hid. now rewrite Hid.
    - replace (startOfDay_spec E (clock w) <=? l_executedAt row) with false
        by (symmetry; apply Z.leb_gt; lia).
      apply andb_false_r. }
  rewrite successCountSince_addLog, Hno, Z.add_0_r. reflexivity.
Qed.

(** ** Batch paths, row by row *)

Lemma dmLoopBody_batchLoopBody (E : Env) (aid tok : string) :
  dmLoopBody E aid tok
  = batchLoopBody E aid tok
      (fun c text => platformSendDirectMessage E (getUserIdFromComment c) text tok)
      (fun c => "DM sent to @" +:+ c_username c).
Proof. reflexivity. Qed.

Lemma replyLoopBody_batchLoopBody (E : Env) (aid tok : string) :
  replyLoopBody E aid tok
  = batchLoopBody E aid tok
      (fun c text => platformReplyToComment E (c_id c) text tok)
      (fun _ => "Comment replied successfully").
Proof. reflexivity. Qed.

Lemma logsFor_addLog (aid cid : string) (row : AutomationLog) (w : World) :
  logsFor aid cid (addLog row w)
  = logsFor aid cid w ++ (if logMatches aid cid row then [row] else []).
Proof. unfold logsFor, addLog. cbn [logs]. now rewrite List.filter_app. Qed.

Lemma logMatches_logData (aid aid' cid : string) (c : InstagramComment) (st : LogStatus)
    (rt : option string) (msg : string) (now : Z) :
  logMatches aid' cid (logData aid c st rt msg now)
  = String.eqb aid aid' && String.eqb (c_id c) cid.
Proof. reflexivity. Qed.

Lemma bool_decide_elem_cons_ne (x y : string) (l : list string) :
  y <> x -> bool_decide (x ∈ y :: l) = bool_decide (x ∈ l).
Proof.
  intros Hne. apply bool_decide_ext. rewrite elem_of_cons.
  split; [intros [Heq | Hin]; [congruence | exact Hin] | now right].
Qed.

Section BatchRows.

Variables (E : Env) (aid tok : string) (a : Automation).
Variable send : InstagramComment -> string -> M unit.
Variable successMessage : InstagramComment -> string.

Hypothesis send_frame :
  forall c text w, exists o w1 evs, send c text w = (o, w1) /\ Extends w w1 [] evs.

(** A comment that already has a row is passed over: the iteration
    changes nothing. *)
Lemma batchLoopBody_logged (c : InstagramComment) (w : World) (n : Counters) :
  logsFor aid (c_id c) w <> [] ->
  batchLoopBody E aid tok send successMessage a c (w, n) = (Ret tt, (w, n)).
Proof.
  intros H. unfold batchLoopBody, tryCatch, bind, lift, automationLogFindFirst.
  cbn [fst snd].
  destruct (List.find (logMatches aid (c_id c)) (logs w)) eqn:Hf; [reflexivity|].
  apply find_logsFor in Hf. contradiction.
Qed.

(** A comment without a row gets exactly one, whatever happens. *)
Lemma batchLoopBody_fresh (c : InstagramComment) (w : World) (n : Counters)
    (a0 : Automation) :
  automations w !! aid = Some a0 ->
  logsFor aid (c_id c) w = [] ->
  exists w' n' st rt msg a1,
    batchLoopBody E aid tok send successMessage a c (w, n) = (Ret tt, (w', n'))
    /\ logs w' = logs w ++ [logData aid c st rt msg (clock w)]
    /\ automations w' !! aid = Some a1
    /\ a_status a1 = a_status a0
    /\ clock w' = clock w.
Proof.
  intros H H3. unfold batchLoopBody, tryCatch, bind, lift, automationLogFindFirst.
  cbn [fst snd]. apply find_logsFor in H3. rewrite H3.
  destruct (findMatchingTrigger E (c_text c) (a_triggers a)) as [t|].
  2:{ rewrite createLog_run. cbn [fst snd]. do 6 eexists.
      split; [reflexivity|]. cbn. eauto. }
  destruct (generateResponse_run E t c (a_userPlan a) tok w)
    as (o & w1 & evs & Hgen & (Ha1 & Hc1 & Hl1 & He1) & _).
  cbn [fst snd]. rewrite Hgen. cbn [fst snd]. rewrite app_nil_r in Hl1.
  assert (forall e w2 n2,
             automations w2 = automations w -> logs w2 = logs w ->
             clock w2 = clock w ->
             exists w' n' st rt msg a1,
               commentFailed aid c e (w2, n2) = (Ret tt, (w', n'))
               /\ logs w' = logs w ++ [logData aid c st rt msg (clock w)]
               /\ automations w' !! aid = Some a1
               /\ a_status a1 = a_status a0
               /\ clock w' = clock w) as Hfail.
  { intros e w2 n2 Ha2 Hl2 Hc2.
    unfold commentFailed, bind, lift, modifyLocals. cbn [fst snd].
    rewrite createLog_run. cbn [fst snd].
    rewrite (updateAutomationStats_run aid false a0 (addLog _ w2))
      by (cbn; now rewrite Ha2).
    cbn [fst snd]. do 6 eexists. split; [reflexivity|].
    cbn -[logData]. rewrite lookup_insert_eq, Hl2, Hc2. eauto. }
  destruct o as [text|e]; [|now apply Hfail].
  destruct (send_frame c text w1) as (o & w2 & evs2 & -> & (Ha2 & Hc2 & Hl2 & He2)).
  rewrite app_nil_r in Hl2. cbn [fst snd].
  destruct o as [[]|e].
  2:{ apply Hfail; congruence. }
  rewrite createLog_run. unfold modifyLocals. cbn [fst snd].
  rewrite (updateAutomationStats_run aid true a0 (addLog _ w2))
    by (cbn; now rewrite Ha2, Ha1).
  cbn [fst snd]. do 6 eexists. split; [reflexivity|].
  cbn -[logData]. rewrite lookup_insert_eq, Hl2, Hl1, Hc2, Hc1. eauto.
Qed.

(** After the loop every fetched comment that had no row has exactly one,
    and the rows of every other comment are as many as before. *)
Lemma batchLoop_rows (comments : list InstagramComment) :
  forall (w : World) (n : Counters) (a0 : Automation),
    automations w !! aid = Some a0 ->
    exists w' n' a1,
      forOf comments (batchLoopBody E aid tok send successMessage a) (w, n)
      = (Ret tt, (w', n'))
      /\ automations w' !! aid = Some a1
      /\ a_status a1 = a_status a0
      /\ forall cid,
           length (logsFor aid cid w')
           = match logsFor aid cid w with
             | [] => if bool_decide (cid ∈ List.map c_id comments) then 1%nat else 0%nat
             | _ :: _ => length (logsFor aid cid w)
             end.
Proof.
  induction comments as [|c rest IH]; intros w n a0 H.
  - exists w, n, a0. split; [reflexivity|]. split; [exact H|]. split; [reflexivity|].
    intros cid. cbn [List.map]. rewrite bool_decide_eq_false_2 by apply not_elem_of_nil.
    now destruct (logsFor aid cid w).
  - cbn [forOf]. unfold bind at 1.
    destruct (logsFor aid (c_id c) w) as [|r0 rs0] eqn:H3.
    + destruct (batchLoopBody_fresh c w n a0 H H3)
        as (w1 & n1 & st & rt & msg & a1 & -> & Hl1 & Ha1 & Hs1 & _).
      destruct (IH w1 n1 a1 Ha1) as (w2 & n2 & a2 & -> & Ha2 & Hs2 & Hrows).
      exists w2, n2, a2. split; [reflexivity|]. split; [exact Ha2|].
      split; [congruence|]. intros cid. rewrite Hrows.
      rewrite (logsFor_extend aid cid w w1 _ Hl1). cbn [List.filter].
      rewrite logMatches_logData, String.eqb_refl. cbn [andb List.map].
      destruct (String.eqb_spec (c_id c) cid) as [Heq|Hne].
      * subst cid. rewrite H3. cbn [app length].
        rewrite bool_decide_eq_true_2 by (apply elem_of_cons; now left). reflexivity.
      * rewrite app_nil_r. destruct (logsFor aid cid w); [|reflexivity].
        now rewrite bool_decide_elem_cons_ne.
    + rewrite batchLoopBody_logged by (rewrite H3; discriminate).
      destruct (IH w n a0 H) as (w2 & n2 & a2 & -> & Ha2 & Hs2 & Hrows).
      exists w2, n2, a2. split; [reflexivity|]. split; [exact Ha2|].
      split; [exact Hs2|]. intros cid. rewrite Hrows.
      destruct (logsFor aid cid w) eqn:Hcid; [|reflexivity].
      cbn [List.map]. rewrite bool_decide_elem_cons_ne; [reflexivity|].
      intros Heq. congruence.
Qed.

(** With every fetched comment already logged the loop does nothing. *)
Lemma batchLoop_all_logged (comments : list InstagramComment) (w : World) (n : Counters) :
  Forall (fun c => logsFor aid (c_id c) w <> []) comments ->
  forOf comments (batchLoopBody E aid tok send successMessage a) (w, n) = (Ret tt, (w, n)).
Proof.
  induction 1 as [|c rest Hc _ IH]; [reflexivity|].
  cbn [forOf]. unfold bind at 1. now rewrite batchLoopBody_logged.
Qed.

End BatchRows.

(** What a batch run is once its gates are passed and the comments are
    fetched. *)
Lemma processBatch_loop (E : Env)
    (body : Automation -> InstagramComment -> ST (World * Counters) unit)
    (summary : Counters -> string) (aid postId tok : string) (w : World)
    (a : Automation) (comments : list InstagramComment) (w' : World) (n' : Counters) :
  automations w !! aid = Some a ->
  a_status a = ACTIVE ->
  checkLimits E (activeTriggers a) w = (Ret true, w) ->
  getMediaComments E (events w) postId tok = inr comments ->
  forOf comments (body (activeTriggers a))
    (record (CallGetMediaComments postId tok) None w,
     {| n_processed := 0; n_successful := 0; n_failed := 0 |})
  = (Ret tt, (w', n')) ->
  processBatch E body summary aid postId tok w
  = (Ret {| br_processed := n_processed n';
            br_successful := Some (n_successful n');
            br_failed := Some (n_failed n');
            br_message := summary n' |}, w').
Proof.
  intros H1 H2 H5 Hc Hloop.
  unfold processBatch, tryCatch, bind, automationFindUnique, platformGetMediaComments,
    withLocals, getLocals.
  rewrite H1. cbn [fmap option_fmap option_map activeTriggers a_status].
  rewrite H2. rewrite bool_decide_eq_true_2 by reflexivity. cbn [negb].
  fold (activeTriggers a). rewrite H5. cbn [negb]. rewrite Hc, Hloop. reflexivity.
Qed.

Lemma processBatch_inactive (E : Env)
    (body : Automation -> InstagramComment -> ST (World * Counters) unit)
    (summary : Counters -> string) (aid postId tok : string) (w : World) :
  match automations w !! aid with
  | Some a => a_status a <> ACTIVE
  | None => True
  end ->
  processBatch E body summary aid postId tok w
  = (Ret (batchEarly "Automation not active"), w).
Proof.
  intros H. unfold processBatch, tryCatch, bind, automationFindUnique.
  destruct (automations w !! aid) as [a|]; [|reflexivity].
  cbn [fmap option_fmap option_map activeTriggers a_status].
  rewrite bool_decide_eq_false_2 by exact H. reflexivity.
Qed.

Lemma processBatch_limited (E : Env)
    (body : Automation -> InstagramComment -> ST (World * Counters) unit)
    (summary : Counters -> string) (aid postId tok : string) (w : World) (a : Automation) :
  automations w !! aid = Some a ->
  a_status a = ACTIVE ->
  checkLimits E (activeTriggers a) w = (Ret false, w) ->
  processBatch E body summary aid postId tok w
  = (Ret (batchEarly "Rate limit reached"), w).
Proof.
  intros H1 H2 H5. unfold processBatch, tryCatch, bind, automationFindUnique.
  rewrite H1. cbn [fmap option_fmap option_map activeTriggers a_status].
  rewrite H2. rewrite bool_decide_eq_true_2 by reflexivity. cbn [negb].
  fold (activeTriggers a). rewrite H5. reflexivity.
Qed.

(** X15. On an automation that is missing or not ACTIVE the three entry
    points do nothing: each returns with 'Automation not active' and the
    world is untouched, so no comment is fetched and, even for a comment
    that already has a row, the answer is not 'Already processed'. *)
Theorem inactive_automation_is_inert (E : Env) (aid postId tok : string)
    (c : InstagramComment) (w : World) :
  match automations w !! aid with
  | Some a => a_status a <> ACTIVE
  | None => True
  end ->
  processSingleComment E aid c tok w = (Ret (notProcessed "Automation not active"), w)
  /\ processCommentToDMAutomation E aid postId tok w
     = (Ret (batchEarly "Automation not active"), w)
  /\ processCommentReplyAutomation E aid postId tok w
     = (Ret (batchEarly "Automation not active"), w).
Proof.
  intros H. split; [now apply processSingleComment_inactive|].
  split; exact (processBatch_inactive E _ _ aid postId tok w H).
Qed.

(** X16. A batch run on an ACTIVE automation whose daily cap [n > 0] is
    reached returns [processed = 0] with 'Rate limit reached' before
    fetching anything: the world, event history included, is untouched. *)
Theorem batch_daily_cap (E : Env) (aid postId tok : string) (w : World)
    (a : Automation) (n : Z) :
  automations w !! aid = Some a ->
  a_status a = ACTIVE ->
  a_dailyLimit a = Some n ->
  0 < n ->
  n <= successCountSince (a_id a) (startOfDay_spec E (clock w)) w ->
  processCommentToDMAutomation E aid postId tok w
  = (Ret (batchEarly "Rate limit reached"), w)
  /\ processCommentReplyAutomation E aid postId tok w
     = (Ret (batchEarly "Rate limit reached"), w).
Proof.
  intros H1 H2 Hd Hpos Hcount.
  pose proof (checkLimits_daily_reached E a w n Hd Hpos Hcount) as H5.
  split; now apply (processBatch_limited E _ _ aid postId tok w a).
Qed.

(** X17. When fetching the comments fails, a batch run throws that same
    error: no row is written and no counter moves; the failed call is the
    only addition to the event history. *)
Theorem batch_fetch_failure (E : Env) (aid postId tok : string) (w : World)
    (a : Automation) (e : Exn) :
  automations w !! aid = Some a ->
  a_status a = ACTIVE ->
  checkLimits E (activeTriggers a) w = (Ret true, w) ->
  getMediaComments E (events w) postId tok = inl e ->
  let w' := record (CallGetMediaComments postId tok) (Some e) w in
  processCommentToDMAutomation E aid postId tok w = (Throw e, w')
  /\ processCommentReplyAutomation E aid postId tok w = (Throw e, w')
  /\ logs w' = logs w
  /\ automations w' = automations w.
Proof.
  intros H1 H2 H5 Hc. cbv zeta.
  assert (forall body summary,
             processBatch E body summary aid postId tok w
             = (Throw e, record (CallGetMediaComments postId tok) (Some e) w)) as Hrun.
  { intros body summary.
    unfold processBatch, tryCatch, bind, automationFindUnique, platformGetMediaComments.
    rewrite H1. cbn [fmap option_fmap option_map activeTriggers a_status].
    rewrite H2. rewrite bool_decide_eq_true_2 by reflexivity. cbn [negb].
    fold (activeTriggers a). rewrite H5. cbn [negb]. rewrite Hc. reflexivity. }
  repeat split; apply Hrun.
Qed.

Section BatchRuns.

Variables (E : Env) (aid postId tok : string) (w : World) (a : Automation).
Variable comments : list InstagramComment.
Variable send : InstagramComment -> string -> M unit.
Variable successMessage : InstagramComment -> string.
Variable summary : Counters -> string.

Hypothesis send_frame :
  forall c text w, exists o w1 evs, send c text w = (o, w1) /\ Extends w w1 [] evs.
Hypothesis Hfound : automations w !! aid = Some a.
Hypothesis Hactive : a_status a = ACTIVE.
Hypothesis Hlimits : checkLimits E (activeTriggers a) w = (Ret true, w).
Hypothesis Hfetch : getMediaComments E (events w) postId tok = inr comments.

Let run : Outcome BatchResult * World :=
  processBatch E (batchLoopBody E aid tok send successMessage) summary aid postId tok w.

Lemma processBatch_rows :
  (exists a1, automations (snd run) !! aid = Some a1 /\ a_status a1 = ACTIVE)
  /\ forall cid,
       length (logsFor aid cid (snd run))
       = match logsFor aid cid w with
         | [] => if bool_decide (cid ∈ List.map c_id comments) then 1%nat else 0%nat
         | _ :: _ => length (logsFor aid cid w)
         end.
Proof.
  destruct (batchLoop_rows E aid tok (activeTriggers a) send successMessage send_frame
              comments (record (CallGetMediaComments postId tok) None w)
              {| n_processed := 0; n_successful := 0; n_failed := 0 |} a Hfound)
    as (w' & n' & a1 & Hloop & Ha1 & Hs1 & Hrows).
  unfold run.
  rewrite (processBatch_loop E _ summary aid postId tok w a comments w' n')
    by assumption.
  cbn [snd]. split; [|exact Hrows]. exists a1. split; [exact Ha1 | congruence].
Qed.

Lemma processBatch_all_logged :
  Forall (fun c => logsFor aid (c_id c) w <> []) comments ->
  run = (Ret {| br_processed := 0; br_successful := Some 0; br_failed := Some 0;
                br_message :=
                  summary {| n_processed := 0; n_successful := 0; n_failed := 0 |} |},
         record (CallGetMediaComments postId tok) None w).
Proof.
  intros Hall. unfold run.
  rewrite (processBatch_loop E _ summary aid postId tok w a comments
             (record (CallGetMediaComments postId tok) None w)
             {| n_processed := 0; n_successful := 0; n_failed := 0 |});
    [reflexivity | assumption..|].
  now apply batchLoop_all_logged.
Qed.

(** After the run every fetched comment has a row. *)
Lemma processBatch_leaves_logged :
  Forall (fun c => logsFor aid (c_id c) (snd run) <> []) comments.
Proof.
  apply Forall_forall. intros c Hin Hnil.
  destruct processBatch_rows as [_ Hrows]. specialize (Hrows (c_id c)).
  rewrite Hnil in Hrows. cbn [length] in Hrows.
  destruct (logsFor aid (c_id c) w); [|discriminate].
  rewrite bool_decide_eq_true_2 in Hrows; [discriminate|].
  apply list_elem_of_In, in_map. now apply list_elem_of_In.
Qed.

End BatchRuns.

(** X18. After a batch run that reaches its loop, every fetched comment
    that had no row of the automation has exactly one, also when it was
    fetched twice, and the number of rows of any other comment is what it
    was. *)
Theorem batch_one_row_per_comment (E : Env) (aid postId tok : string) (w : World)
    (a : Automation) (comments : list InstagramComment) :
  automations w !! aid = Some a ->
  a_status a = ACTIVE ->
  checkLimits E (activeTriggers a) w = (Ret true, w) ->
  getMediaComments E (events w) postId tok = inr comments ->
  let expected cid :=
    match logsFor aid cid w with
    | [] => if bool_decide (cid ∈ List.map c_id comments) then 1%nat else 0%nat
    | _ :: _ => length (logsFor aid cid w)
    end in
  (forall cid,
     length (logsFor aid cid (snd (processCommentToDMAutomation E aid postId tok w)))
     = expected cid)
  /\ (forall cid,
        length (logsFor aid cid (snd (processCommentReplyAutomation E aid postId tok w)))
        = expected cid).
Proof.
  intros H1 H2 H5 Hc. cbv zeta. split.
  - unfold processCommentToDMAutomation. rewrite dmLoopBody_batchLoopBody.
    eapply proj2, processBatch_rows; try eassumption.
    intros c text w1. apply platformSendDirectMessage_frame.
  - unfold processCommentReplyAutomation. rewrite replyLoopBody_batchLoopBody.
    eapply proj2, processBatch_rows; try eassumption.
    intros c text w1. apply platformReplyToComment_frame.
Qed.

(** X19. A batch run over comments that all have a row already fetches
    them and does nothing else: the three counters are 0, no row is
    written, no counter of the automation moves, nothing is sent. *)
Theorem batch_all_logged_noop (E : Env) (aid postId tok : string) (w : World)
    (a : Automation) (comments : list InstagramComment) :
  automations w !! aid = Some a ->
  a_status a = ACTIVE ->
  checkLimits E (activeTriggers a) w = (Ret true, w) ->
  getMediaComments E (events w) postId tok = inr comments ->
  Forall (fun c => logsFor aid (c_id c) w <> []) comments ->
  let w' := record (CallGetMediaComments postId tok) None w in
  processCommentToDMAutomation E aid postId tok w
  = (Ret {| br_processed := 0; br_successful := Some 0; br_failed := Some 0;
            br_message := "Processed 0 comments, sent 0 DMs" |}, w')
  /\ processCommentReplyAutomation E aid postId tok w
     = (Ret {| br_processed := 0; br_successful := Some 0; br_failed := Some 0;
               br_message := "Processed 0 comments, replied to 0" |}, w')
  /\ logs w' = logs w
  /\ automations w' = automations w.
Proof.
  intros H1 H2 H5 Hc Hall. cbv zeta.
  split; [|split; [|split; reflexivity]].
  - unfold processCommentToDMAutomation. rewrite dmLoopBody_batchLoopBody.
    now apply (processBatch_all_logged E aid postId tok w a comments).
  - unfold processCommentReplyAutomation. rewrite replyLoopBody_batchLoopBody.
    now apply (processBatch_all_logged E aid postId tok w a comments).
Qed.

(** X20. Running a batch again is harmless.  After a DM batch run that
    reached its loop the automation is still ACTIVE, and a second DM run,
    at any later time and against any platform, that passes the rate limit
    and fetches the same comments (or some of them) sends nothing, writes
    nothing and reports zeros. *)
Theorem batch_rerun_noop (E E2 : Env) (aid postId tok tok2 : string) (w : World)
    (a : Automation) (comments comments2 : list InstagramComment) (t2 : Z) :
  automations w !! aid = Some a ->
  a_status a = ACTIVE ->
  checkLimits E (activeTriggers a) w = (Ret true, w) ->
  getMediaComments E (events w) postId tok = inr comments ->
  let w1 := atTime t2 (snd (processCommentToDMAutomation E aid postId tok w)) in
  exists a1,
    automations w1 !! aid = Some a1
    /\ a_status a1 = ACTIVE
    /\ (checkLimits E2 (activeTriggers a1) w1 = (Ret true, w1) ->
        getMediaComments E2 (events w1) postId tok2 = inr comments2 ->
        (forall c, In c comments2 -> In (c_id c) (List.map c_id comments)) ->
        processCommentToDMAutomation E2 aid postId tok2 w1
        = (Ret {| br_processed := 0; br_successful := Some 0; br_failed := Some 0;
                  br_message := "Processed 0 comments, sent 0 DMs" |},
           record (CallGetMediaComments postId tok2) None w1)).
Proof.
  intros H1 H2 H5 Hc. cbv zeta.
  unfold processCommentToDMAutomation. rewrite !dmLoopBody_batchLoopBody.
  pose (send := fun (E0 : Env) (tok0 : string) (c : InstagramComment) (text : string) =>
                  platformSendDirectMessage E0 (getUserIdFromComment c) text tok0).
  pose (msg := fun c => "DM sent to @" +:+ c_username c).
  pose (summary := fun n => "Processed " +:+ Js.showZ (n_processed n)
                            +:+ " comments, sent " +:+ Js.showZ (n_successful n)
                            +:+ " DMs").
  assert (forall E0 tok0 c text w, exists o w1 evs,
             send E0 tok0 c text w = (o, w1) /\ Extends w w1 [] evs) as Hsend.
  { intros E0 tok0 c text w0. apply platformSendDirectMessage_frame. }
  destruct (processBatch_rows E aid postId tok w a comments (send E tok) msg summary
              (Hsend E tok) H1 H2 H5 Hc) as [(a1 & Ha1 & Hs1) Hrows].
  pose proof (processBatch_leaves_logged E aid postId tok w a comments (send E tok) msg
                summary (Hsend E tok) H1 H2 H5 Hc) as Hlogged.
  exists a1. split; [exact Ha1|]. split; [exact Hs1|].
  intros H5' Hc' Hsub.
  apply (processBatch_all_logged E2 aid postId tok2 _ a1 comments2 (send E2 tok2) msg
           summary); try assumption.
  apply Forall_forall. intros c2 Hin2.
  apply list_elem_of_In in Hin2. specialize (Hsub c2 Hin2).
  apply in_map_iff in Hsub as (c & Hid & Hin).
  rewrite Forall_forall in Hlogged. apply list_elem_of_In in Hin.
  specialize (Hlogged c Hin). rewrite <- Hid. exact Hlogged.
Qed.

(** ** [runActiveAutomations] *)

(** A loop whose body always returns and keeps [P] returns and keeps [P]. *)
Lemma forOf_invariant {S A : Type} (P : S -> Prop) (body : A -> ST S unit)
    (xs : list A) :
  (forall x s, P s -> exists s', body x s = (Ret tt, s') /\ P s') ->
  forall s, P s -> exists s', forOf xs body s = (Ret tt, s') /\ P s'.
Proof.
  intros Hbody. induction xs as [|x xs IH]; intros s Hs.
  - exists s. split; [reflexivity | exact Hs].
  - destruct (Hbody x s Hs) as (s1 & Hb & Hs1).
    destruct (IH s1 Hs1) as (s2 & Hr & Hs2).
    exists s2. split; [|exact Hs2].
    cbn [forOf]. unfold bind at 1. now rewrite Hb.
Qed.

Lemma countStatus_nonneg (st : LogStatus) (rows : list AutomationLog) :
  0 <= countStatus st rows.
Proof. unfold countStatus. lia. Qed.

(** Whatever the world, a batch run that returns reports as many
    processed comments as successful ones, and no negative count. *)
Lemma processBatch_result (E : Env) (aid postId tok : string)
    (send : InstagramComment -> string -> M unit)
    (successMessage : InstagramComment -> string) (summary : Counters -> string)
    (w : World) :
  (forall c text w, exists o w1 evs, send c text w = (o, w1) /\ Extends w w1 [] evs) ->
  match fst (processBatch E (batchLoopBody E aid tok send successMessage) summary
               aid postId tok w) with
  | Ret r =>
      br_processed r = default 0 (br_successful r)
      /\ 0 <= br_processed r
      /\ 0 <= default 0 (br_failed r)
  | Throw _ => True
  end.
Proof.
  intros Hsend.
  destruct (automations w !! aid) as [a|] eqn:H1.
  2:{ rewrite processBatch_inactive by now rewrite H1. unfold batchEarly. simpl. lia. }
  destruct (decide (a_status a = ACTIVE)) as [H2|H2].
  2:{ rewrite processBatch_inactive by now rewrite H1. unfold batchEarly. simpl. lia. }
  pose proof (checkLimits_run E (activeTriggers a) w) as H5.
  match type of H5 with _ = (Ret ?b, _) => destruct b end.
  2:{ rewrite (processBatch_limited E _ _ aid postId tok w a) by done. unfold batchEarly. simpl. lia. }
  destruct (getMediaComments E (events w) postId tok) as [e|comments] eqn:Hc.
  { unfold processBatch, tryCatch, bind, automationFindUnique, platformGetMediaComments.
    rewrite H1. cbn [fmap option_fmap option_map activeTriggers a_status].
    rewrite H2. rewrite bool_decide_eq_true_2 by reflexivity. cbn [negb].
    fold (activeTriggers a). rewrite H5. cbn [negb]. rewrite Hc. exact I. }
  pose proof (forOf_run E aid tok (activeTriggers a) send successMessage Hsend comments
                (record (CallGetMediaComments postId tok) None w)
                {| n_processed := 0; n_successful := 0; n_failed := 0 |} a H1)
    as (w' & n' & rows & Hloop & (_ & _ & Hp & Hs & Hf) & _).
  change (forOf comments (batchLoopBody E aid tok send successMessage (activeTriggers a))
            (record (CallGetMediaComments postId tok) None w,
             {| n_processed := 0; n_successful := 0; n_failed := 0 |})
          = (Ret tt, (w', n'))) in Hloop.
  rewrite (processBatch_loop E _ summary aid postId tok w a comments w' n')
    by assumption.
  cbn [fst br_processed br_successful br_failed default] in *.
  pose proof (countStatus_nonneg SUCCESS rows).
  pose proof (countStatus_nonneg FAILED rows).
  cbn [n_processed n_successful n_failed] in *. unfold id. lia.
Qed.

Lemma runPost_balanced (E : Env) (R : Relations) (a : Automation) (tok postId : string)
    (s : World * RunTotals) :
  TotalsBalanced s ->
  exists s', runPost E R a tok postId s = (Ret tt, s') /\ TotalsBalanced s'.
Proof.
  intros (Hp & Hnn & Hf). destruct s as [w t]. cbn [snd] in *.
  assert (forall w', TotalsBalanced (w', countPostFailure t)) as Hfail.
  { intros w'. unfold TotalsBalanced. cbn. lia. }
  assert (forall w' r,
             br_processed r = default 0 (br_successful r)
             /\ 0 <= br_processed r /\ 0 <= default 0 (br_failed r) ->
             TotalsBalanced (w', addResult r t)) as Hok.
  { intros w' r (H1 & H2 & H3). unfold TotalsBalanced. cbn. lia. }
  unfold runPost, tryCatch, bind, lift, modifyLocals, ret. cbn [fst snd].
  destruct (rel_type R (a_id a)); cbn [fst snd];
    try (eexists; split; [reflexivity|]; unfold TotalsBalanced; cbn; lia).
  - pose proof (processBatch_result E (a_id a) postId tok
                  (fun c text => platformSendDirectMessage E (getUserIdFromComment c) text tok)
                  (fun c => "DM sent to @" +:+ c_username c)
                  (fun n => "Processed " +:+ Js.showZ (n_processed n)
                            +:+ " comments, sent " +:+ Js.showZ (n_successful n)
                            +:+ " DMs") w
                  (fun c text w0 => platformSendDirectMessage_frame E _ text tok w0))
      as Hres.
    change (processBatch E _ _ (a_id a) postId tok w)
      with (processCommentToDMAutomation E (a_id a) postId tok w) in Hres.
    destruct (processCommentToDMAutomation E (a_id a) postId tok w) as [[r|e] w'];
      cbn [fst snd] in *; eexists; (split; [reflexivity|]); auto.
  - pose proof (processBatch_result E (a_id a) postId tok
                  (fun c text => platformReplyToComment E (c_id c) text tok)
                  (fun _ => "Comment replied successfully")
                  (fun n => "Processed " +:+ Js.showZ (n_processed n)
                            +:+ " comments, replied to " +:+ Js.showZ (n_successful n)) w
                  (fun c text w0 => platformReplyToComment_frame E _ text tok w0))
      as Hres.
    change (processBatch E _ _ (a_id a) postId tok w)
      with (processCommentReplyAutomation E (a_id a) postId tok w) in Hres.
    destruct (processCommentReplyAutomation E (a_id a) postId tok w) as [[r|e] w'];
      cbn [fst snd] in *; eexists; (split; [reflexivity|]); auto.
Qed.

Lemma runAutomation_balanced (E : Env) (R : Relations) (a : Automation)
    (s : World * RunTotals) :
  TotalsBalanced s ->
  exists s', runAutomation E R a s = (Ret tt, s') /\ TotalsBalanced s'.
Proof.
  intros Hs. unfold runAutomation.
  destruct (truthyString (rel_accessToken R (a_id a))) as [tok|].
  - apply forOf_invariant; [|exact Hs]. intros postId s0. apply runPost_balanced.
  - exists s. split; [reflexivity | exact Hs].
Qed.

(** X21. [runActiveAutomations] always returns, however many posts fail:
    [success] is true, [processed] is the number of ACTIVE automations of
    type COMMENT_TO_DM or COMMENT_REPLY in the table (those without a token
    included), [totalProcessed] equals [totalSuccessful], and no total is
    negative. *)
Theorem runActiveAutomations_totals (E : Env) (R : Relations) (w : World) :
  exists r w',
    runActiveAutomations E R w = (Ret r, w')
    /\ rr_success r = true
    /\ rr_processed r
       = Z.of_nat (length (List.filter
                             (fun a => bool_decide (a_status a = ACTIVE)
                                       && isCommentType (rel_type R (a_id a)))
                             (List.map snd (map_to_list (automations w)))))
    /\ rr_totalProcessed r = rr_totalSuccessful r
    /\ 0 <= rr_totalProcessed r
    /\ 0 <= rr_totalFailed r.
Proof.
  unfold runActiveAutomations, tryCatch, bind, automationFindManyActive, withLocals,
    getLocals, ret.
  set (selected := List.map activeTriggers _).
  destruct (forOf_invariant TotalsBalanced (runAutomation E R) selected
              (fun a s => runAutomation_balanced E R a s)
              (w, {| t_processed := 0; t_successful := 0; t_failed := 0 |}))
    as ([w' t'] & -> & (Hp & Hnn & Hf)).
  { unfold TotalsBalanced. cbn. lia. }
  cbn [fst snd] in *. do 2 eexists. split; [reflexivity|].
  cbn [rr_success rr_processed rr_totalProcessed rr_totalSuccessful rr_totalFailed].
  subst selected. rewrite length_map. auto.
Qed.

(** ** [testAutomation] *)

(** X22. [testAutomation] is a dry run: whatever the status of the
    automation, its only effect is the call that fetches the comments.  It
    returns the number of comments, the number of those that match a
    trigger, which is never more, and one entry per matching comment, in
    order; an error of the fetch is thrown on. *)
Theorem testAutomation_dry_run (E : Env) (R : Relations) (aid postId tok : string)
    (w : World) (a : Automation) :
  automations w !! aid = Some a ->
  truthyString (rel_accessToken R (a_id a)) = Some tok ->
  match getMediaComments E (events w) postId tok with
  | inr comments =>
      exists r,
        testAutomation E R aid postId w
        = (Ret r, record (CallGetMediaComments postId tok) None w)
        /\ ts_success r = true
        /\ ts_totalComments r = Z.of_nat (length comments)
        /\ 0 <= ts_matchedComments r <= ts_totalComments r
        /\ ts_matchedComments r = Z.of_nat (length (ts_matches r))
        /\ List.map mc_text (ts_matches r)
           = List.filter
               (fun text =>
                  bool_decide
                    (findMatchingTrigger E text (List.filter tr_isActive (a_triggers a))
                     <> None))
               (List.map c_text comments)
  | inl e =>
      testAutomation E R aid postId w
      = (Throw e, record (CallGetMediaComments postId tok) (Some e) w)
  end.
Proof.
  intros H1 Htok.
  unfold testAutomation, tryCatch, bind, automationFindUnique, platformGetMediaComments.
  rewrite H1. cbn [fmap option_fmap option_map activeTriggers a_id a_triggers].
  rewrite Htok.
  destruct (getMediaComments E (events w) postId tok) as [e|comments]; [reflexivity|].
  eexists. split; [reflexivity|].
  cbn [ts_success ts_totalComments ts_matchedComments ts_matches].
  split; [reflexivity|]. split; [reflexivity|].
  rewrite length_map. split; [|split; [reflexivity|]].
  - pose proof (List.filter_length_le
                  (fun comment =>
                     match findMatchingTrigger E (c_text comment)
                             (List.filter tr_isActive (a_triggers a)) with
                     | Some _ => true
                     | None => false
                     end) comments).
    lia.
  - rewrite List.map_map. cbn [mc_text].
    induction comments as [|c rest IH]; [reflexivity|].
    cbn [List.filter List.map].
    destruct (findMatchingTrigger E (c_text c) (List.filter tr_isActive (a_triggers a))).
    + rewrite bool_decide_eq_true_2 by discriminate. cbn [List.map]. now f_equal.
    + rewrite bool_decide_eq_false_2 by (intros H; now apply H). exact IH.
Qed.

(** X23. [testAutomation] throws 'Automation not found' for a missing
    automation and 'Integration not configured properly' for one whose
    integration has no access token (or an empty one), in both cases
    before any call and without changing anything. *)
Theorem testAutomation_errors (E : Env) (R : Relations) (aid postId : string)
    (w : World) :
  match automations w !! aid with
  | None => testAutomation E R aid postId w = (Throw (JsError "Automation not found"), w)
  | Some a =>
      truthyString (rel_accessToken R (a_id a)) = None ->
      testAutomation E R aid postId w
      = (Throw (JsError "Integration not configured properly"), w)
  end.
Proof.
  unfold testAutomation, tryCatch, bind, automationFindUnique.
  destruct (automations w !! aid) as [a|]; [|reflexivity].
  cbn [fmap option_fmap option_map activeTriggers a_id]. now intros ->.
Qed.

(** ** [getAutomationStats] *)

Lemma filter_length_Permutation {A : Type} (p : A -> bool) (l l' : list A) :
  l ≡ₚ l' -> length (List.filter p l) = length (List.filter p l').
Proof.
  induction 1 as [|x l l' _ IH|x y l|l l' l'' _ IH1 _ IH2]; cbn [List.filter].
  - reflexivity.
  - destruct (p x); cbn [length]; now rewrite IH.
  - destruct (p x), (p y); reflexivity.
  - now rewrite IH1.
Qed.

Lemma status_partition (rows : list AutomationLog) :
  Z.of_nat (length rows)
  = countWithStatus SUCCESS rows + countWithStatus FAILED rows
    + countWithStatus SKIPPED rows.
Proof.
  unfold countWithStatus. induction rows as [|row rows IH]; [reflexivity|].
  cbn [List.filter length].
  destruct (l_status row);
    repeat match goal with
           | |- context [bool_decide (?x = ?y)] =>
               let b := eval vm_compute in (bool_decide (x = y)) in
               change (bool_decide (x = y)) with b
           end; cbn [length]; lia.
Qed.

(** X24. [getAutomationStats] reads and never writes: it returns with the
    world unchanged.  [total] is the number of rows of the automation
    executed in the last [days] days, [successful], [failed] and [skipped]
    are the numbers of those rows with each status, and they add up to
    [total]. *)
Theorem getAutomationStats_totals (isoDay : Z -> string) (aid : string) (days : Z)
    (w : World) :
  let rows := rowsSince aid (clock w - days * msPerDay) w in
  exists r,
    getAutomationStats isoDay aid days w = (Ret r, w)
    /\ st_total r = Z.of_nat (length rows)
    /\ st_successful r = countWithStatus SUCCESS rows
    /\ st_failed r = countWithStatus FAILED rows
    /\ st_skipped r = countWithStatus SKIPPED rows
    /\ st_total r = st_successful r + st_failed r + st_skipped r.
Proof.
  cbv zeta. unfold getAutomationStats, tryCatch, bind, newDate,
    automationLogFindManySince, ret.
  fold (rowsSince aid (clock w - days * msPerDay) w).
  set (rows := rowsSince aid (clock w - days * msPerDay) w).
  pose proof (merge_sort_Permutation newerFirst rows) as Hperm.
  eexists. split; [reflexivity|].
  cbn [st_total st_successful st_failed st_skipped].
  unfold countWithStatus.
  rewrite !(filter_length_Permutation _ _ _ Hperm), (Permutation_length Hperm).
  repeat split. apply status_partition.
Qed.

Lemma filter_Permutation {A : Type} (p : A -> bool) (l l' : list A) :
  l ≡ₚ l' -> List.filter p l ≡ₚ List.filter p l'.
Proof.
  induction 1 as [|x l l' _ IH|x y l|l l' l'' _ IH1 _ IH2]; cbn [List.filter].
  - reflexivity.
  - destruct (p x); [now constructor | exact IH].
  - destruct (p x), (p y); try reflexivity. apply perm_swap.
  - now transitivity (List.filter p l').
Qed.

Lemma DayStats_eq (d d' : DayStats) :
  d_success d = d_success d' -> d_failed d = d_failed d' ->
  d_skipped d = d_skipped d' -> d = d'.
Proof. destruct d, d'. cbn. now intros -> -> ->. Qed.

Lemma countWithStatus_cons (st : LogStatus) (row : AutomationLog)
    (rows : list AutomationLog) :
  countWithStatus st (row :: rows)
  = (if bool_decide (l_status row = st) then 1 else 0) + countWithStatus st rows.
Proof.
  unfold countWithStatus. cbn [List.filter].
  destruct (bool_decide (l_status row = st)); cbn [length]; lia.
Qed.

Lemma countInDay_addDayCounts (row : AutomationLog) (d : DayStats)
    (rows : list AutomationLog) :
  addDayCounts (countInDay (l_status row) d) rows = addDayCounts d (row :: rows).
Proof.
  apply DayStats_eq; unfold addDayCounts; cbn [d_success d_failed d_skipped];
    rewrite countWithStatus_cons; destruct (l_status row);
    repeat match goal with
           | |- context [bool_decide (?x = ?y)] =>
               let b := eval vm_compute in (bool_decide (x = y)) in
               change (bool_decide (x = y)) with b
           end; cbn [countInDay d_success d_failed d_skipped]; lia.
Qed.

Lemma groupByDay_lookup (isoDay : Z -> string) (acc : gmap string DayStats)
    (row : AutomationLog) (day : string) :
  groupByDay isoDay acc row !! day
  = if String.eqb (isoDay (l_executedAt row)) day
    then Some (countInDay (l_status row)
                 match acc !! day with
                 | Some d => d
                 | None => {| d_success := 0; d_failed := 0; d_skipped := 0 |}
                 end)
    else acc !! day.
Proof.
  unfold groupByDay.
  destruct (String.eqb_spec (isoDay (l_executedAt row)) day) as [Heq|Hne].
  - rewrite Heq. apply lookup_insert_eq.
  - now apply lookup_insert_ne.
Qed.

Lemma rowsOnDay_cons (isoDay : Z -> string) (day : string) (row : AutomationLog)
    (rows : list AutomationLog) :
  rowsOnDay isoDay day (row :: rows)
  = if String.eqb (isoDay (l_executedAt row)) day
    then row :: rowsOnDay isoDay day rows
    else rowsOnDay isoDay day rows.
Proof. reflexivity. Qed.

(** What the grouping loop leaves under a day key. *)
Lemma groupByDay_fold (isoDay : Z -> string) (day : string) (rows : list AutomationLog) :
  forall acc : gmap string DayStats,
    fold_left (groupByDay isoDay) rows acc !! day
    = match acc !! day with
      | Some d => Some (addDayCounts d (rowsOnDay isoDay day rows))
      | None =>
          match rowsOnDay isoDay day rows with
          | [] => None
          | onDay =>
              Some (addDayCounts {| d_success := 0; d_failed := 0; d_skipped := 0 |}
                      onDay)
          end
      end.
Proof.
  induction rows as [|row rows IH]; intros acc.
  - cbn [fold_left rowsOnDay List.filter].
    destruct (acc !! day) as [d|]; [|reflexivity].
    f_equal. apply DayStats_eq; unfold addDayCounts, countWithStatus; cbn; lia.
  - cbn [fold_left]. rewrite IH, groupByDay_lookup, rowsOnDay_cons.
    destruct (String.eqb (isoDay (l_executedAt row)) day); [|reflexivity].
    destruct (acc !! day) as [d|]; f_equal; apply countInDay_addDayCounts.
Qed.

(** X25. In the result of [getAutomationStats], [byDay] has an entry for
    a day exactly when some row of the automation in the window was
    executed on that day, and the entry holds the numbers of that day's
    rows with each status. *)
Theorem getAutomationStats_byDay (isoDay : Z -> string) (aid : string) (days : Z)
    (w : World) :
  let rows := rowsSince aid (clock w - days * msPerDay) w in
  exists r,
    getAutomationStats isoDay aid days w = (Ret r, w)
    /\ forall day,
         match st_byDay r !! day with
         | None => rowsOnDay isoDay day rows = []
         | Some d =>
             rowsOnDay isoDay day rows <> []
             /\ d_success d = countWithStatus SUCCESS (rowsOnDay isoDay day rows)
             /\ d_failed d = countWithStatus FAILED (rowsOnDay isoDay day rows)
             /\ d_skipped d = countWithStatus SKIPPED (rowsOnDay isoDay day rows)
         end.
Proof.
  cbv zeta. unfold getAutomationStats, tryCatch, bind, newDate,
    automationLogFindManySince, ret.
  fold (rowsSince aid (clock w - days * msPerDay) w).
  set (rows := rowsSince aid (clock w - days * msPerDay) w).
  pose proof (merge_sort_Permutation newerFirst rows) as Hperm.
  eexists. split; [reflexivity|]. intros day. cbn [st_byDay].
  rewrite groupByDay_fold, lookup_empty.
  pose proof (filter_Permutation
                (fun l => String.eqb (isoDay (l_executedAt l)) day) _ _ Hperm) as Hday.
  fold (rowsOnDay isoDay day (merge_sort newerFirst rows)) in Hday.
  fold (rowsOnDay isoDay day rows) in Hday.
  unfold countWithStatus.
  rewrite <- !(filter_length_Permutation _ _ _ Hday).
  destruct (rowsOnDay isoDay day (merge_sort newerFirst rows)) as [|row0 onDay] eqn:Hsorted.
  - now apply Permutation_nil in Hday.
  - split.
    + intros Hnil. rewrite Hnil in Hday. symmetry in Hday.
      now apply Permutation_nil_cons in Hday.
    + cbn [addDayCounts d_success d_failed d_skipped]. unfold countWithStatus.
      repeat split; lia.
Qed.

(** ** The further theorems at the concrete deployment *)

Lemma generateResponse_ai_verbatim_witness :
  let w := Scenario.world (Scenario.automation ACTIVE None None [scenarioAiTrigger]) [] 0 in
  generateResponse scenarioAiEnv scenarioAiTrigger Scenario.comment "PRO" "tok" w
  = (Ret "Hi buyer1, it is {time}",
     record (CallGenerateCommentReply
               {| commentText := "How much does it cost?"; userName := "buyer1";
                  userPrompt := Some "Be brief" |}) None w).
Proof.
  cbv zeta.
  apply (generateResponse_ai_verbatim scenarioAiEnv scenarioAiTrigger scenarioAiResponse
           Scenario.comment "PRO" "tok" "Hi buyer1, it is {time}");
    [reflexivity | reflexivity | now left | reflexivity].
Defined.

Lemma generateResponse_invalid_type_witness :
  let w := Scenario.world (Scenario.automation ACTIVE None None []) [] 0 in
  generateResponse (Scenario.env None None) scenarioTemplateTrigger Scenario.comment
    "PRO" "tok" w
  = (Throw (JsError "Invalid response type"), w).
Proof.
  cbv zeta.
  apply (generateResponse_invalid_type (Scenario.env None None) scenarioTemplateTrigger
           {| responseType := TEMPLATE; customMessage := Some "Hello"; aiPrompt := None |}
           Scenario.comment "PRO" "tok"); [reflexivity | now left].
Defined.

Lemma processSingleComment_skips_unmatched_witness :
  let E := Scenario.env None None in
  let w := Scenario.world (scenarioShop None) [] Scenario.halfPastThree in
  (automations w !! "a1" = Some (scenarioShop None)
   /\ logsFor "a1" "c3" w = []
   /\ findMatchingTrigger E "nice photo" (a_triggers (activeTriggers (scenarioShop None)))
      = None)
  /\ exists w' row,
       processSingleComment E "a1" Scenario.comment3 "tok" w
       = (Ret (notProcessed "No keyword match"), w')
       /\ logs w' = logs w ++ [row]
       /\ logsFor "a1" "c3" w' = [row]
       /\ l_status row = SKIPPED
       /\ l_action row = "skipped_comment"
       /\ l_responseText row = None
       /\ md_commentText (l_metadata row) = "nice photo"
       /\ events w' = events w
       /\ automations w' = automations w.
Proof.
  cbv zeta. split; [repeat split|].
  apply (processSingleComment_skips_unmatched (Scenario.env None None) "a1"
           Scenario.comment3 "tok"
           (Scenario.world (scenarioShop None) [] Scenario.halfPastThree)
           (scenarioShop None)); reflexivity.
Defined.

Lemma processSingleComment_daily_cap_witness :
  let E := Scenario.env None None in
  let w := Scenario.world (scenarioShop (Some 1))
             [Scenario.logRow "c0" SUCCESS Scenario.tenOClock] Scenario.halfPastThree in
  (1 <= successCountSince "a1" (startOfDay_spec E (clock w)) w)
  /\ processSingleComment E "a1" Scenario.comment "tok" w
     = (Ret (notProcessed "Rate limit reached"), w).
Proof.
  cbv zeta. split; [vm_compute; discriminate|].
  apply (processSingleComment_daily_cap (Scenario.env None None) "a1" Scenario.comment
           "tok"
           (Scenario.world (scenarioShop (Some 1))
              [Scenario.logRow "c0" SUCCESS Scenario.tenOClock] Scenario.halfPastThree)
           (scenarioShop (Some 1)) (Scenario.trigger "t1" "cost" None) 1);
    try reflexivity; vm_compute; discriminate.
Defined.

Lemma processSingleComment_response_error_witness :
  let E := Scenario.env None None in
  let a := Scenario.automation ACTIVE None None [scenarioAiTrigger] in
  let w := Scenario.world a [] Scenario.halfPastThree in
  generateResponse E scenarioAiTrigger Scenario.comment "FREE" "tok" w
  = (Throw (JsError "AI responses require PRO plan"), w)
  /\ exists w' row,
       processSingleComment E "a1" Scenario.comment "tok" w
       = (Ret (notProcessed ("Failed: " +:+ "AI responses require PRO plan")), w')
       /\ events w' = events w
       /\ logs w' = logs w ++ [row]
       /\ l_status row = FAILED
       /\ l_message row = "DM failed: " +:+ "AI responses require PRO plan"
       /\ automations w' = <["a1" := bumpStats false (clock w) a]> (automations w).
Proof.
  cbv zeta. split; [reflexivity|].
  apply (processSingleComment_response_error (Scenario.env None None) "a1"
           Scenario.comment "tok"
           (Scenario.world (Scenario.automation ACTIVE None None [scenarioAiTrigger]) []
              Scenario.halfPastThree)
           (Scenario.automation ACTIVE None None [scenarioAiTrigger])
           scenarioAiTrigger "AI responses require PRO plan"); reflexivity.
Defined.

Lemma checkLimits_counts_only_successes_witness :
  let E := Scenario.env None None in
  let a := scenarioShop (Some 1) in
  let w := Scenario.world a [] Scenario.halfPastThree in
  let row := Scenario.logRow "c0" FAILED Scenario.halfPastThree in
  l_status row <> SUCCESS
  /\ fst (checkLimits E a (addLog row w)) = fst (checkLimits E a w).
Proof.
  cbv zeta. split; [discriminate|].
  apply (checkLimits_counts_only_successes (Scenario.env None None)
           (scenarioShop (Some 1))
           (Scenario.world (scenarioShop (Some 1)) [] Scenario.halfPastThree)
           (Scenario.logRow "c0" FAILED Scenario.halfPastThree)).
  left. discriminate.
Defined.

Lemma inactive_automation_is_inert_witness :
  let E := Scenario.batchEnv in
  let a := Scenario.automation PAUSED None None [Scenario.trigger "t1" "cost" None] in
  let w := Scenario.world a [] Scenario.halfPastThree in
  a_status a <> ACTIVE
  /\ processSingleComment E "a1" Scenario.comment "tok" w
     = (Ret (notProcessed "Automation not active"), w)
  /\ processCommentToDMAutomation E "a1" "post1" "tok" w
     = (Ret (batchEarly "Automation not active"), w)
  /\ processCommentReplyAutomation E "a1" "post1" "tok" w
     = (Ret (batchEarly "Automation not active"), w).
Proof.
  cbv zeta. split; [discriminate|].
  apply (inactive_automation_is_inert Scenario.batchEnv "a1" "post1" "tok"
           Scenario.comment
           (Scenario.world
              (Scenario.automation PAUSED None None [Scenario.trigger "t1" "cost" None])
              [] Scenario.halfPastThree)).
  vm_compute. discriminate.
Defined.

Lemma batch_daily_cap_witness :
  let E := Scenario.batchEnv in
  let w := Scenario.world (scenarioShop (Some 1))
             [Scenario.logRow "c0" SUCCESS Scenario.tenOClock] Scenario.halfPastThree in
  (1 <= successCountSince "a1" (startOfDay_spec E (clock w)) w)
  /\ processCommentToDMAutomation E "a1" "post1" "tok" w
     = (Ret (batchEarly "Rate limit reached"), w)
  /\ processCommentReplyAutomation E "a1" "post1" "tok" w
     = (Ret (batchEarly "Rate limit reached"), w).
Proof.
  cbv zeta. split; [vm_compute; discriminate|].
  apply (batch_daily_cap Scenario.batchEnv "a1" "post1" "tok"
           (Scenario.world (scenarioShop (Some 1))
              [Scenario.logRow "c0" SUCCESS Scenario.tenOClock] Scenario.halfPastThree)
           (scenarioShop (Some 1)) 1);
    try reflexivity; vm_compute; discriminate.
Defined.

Lemma batch_fetch_failure_witness :
  let w := Scenario.world (scenarioShop None) [] Scenario.halfPastThree in
  let w' := record (CallGetMediaComments "post1" "tok")
              (Some (JsError "Failed to fetch comments")) w in
  processCommentToDMAutomation scenarioFetchDown "a1" "post1" "tok" w
  = (Throw (JsError "Failed to fetch comments"), w')
  /\ processCommentReplyAutomation scenarioFetchDown "a1" "post1" "tok" w
     = (Throw (JsError "Failed to fetch comments"), w')
  /\ logs w' = logs w
  /\ automations w' = automations w.
Proof.
  cbv zeta.
  apply (batch_fetch_failure scenarioFetchDown "a1" "post1" "tok"
           (Scenario.world (scenarioShop None) [] Scenario.halfPastThree)
           (scenarioShop None) (JsError "Failed to fetch comments")); reflexivity.
Defined.

Lemma batch_one_row_per_comment_witness :
  let E := Scenario.batchEnv in
  let w := Scenario.world (scenarioShop None) [] Scenario.halfPastThree in
  let comments := [Scenario.comment; Scenario.comment2; Scenario.comment3] in
  let expected cid :=
    match logsFor "a1" cid w with
    | [] => if bool_decide (cid ∈ List.map c_id comments) then 1%nat else 0%nat
    | _ :: _ => length (logsFor "a1" cid w)
    end in
  getMediaComments E (events w) "post1" "tok" = inr comments
  /\ (forall cid,
        length (logsFor "a1" cid
                  (snd (processCommentToDMAutomation E "a1" "post1" "tok" w)))
        = expected cid)
  /\ (forall cid,
        length (logsFor "a1" cid
                  (snd (processCommentReplyAutomation E "a1" "post1" "tok" w)))
        = expected cid).
Proof.
  cbv zeta. split; [reflexivity|].
  apply (batch_one_row_per_comment Scenario.batchEnv "a1" "post1" "tok"
           (Scenario.world (scenarioShop None) [] Scenario.halfPastThree)
           (scenarioShop None)
           [Scenario.comment; Scenario.comment2; Scenario.comment3]); reflexivity.
Defined.

Lemma batch_all_logged_noop_witness :
  let E := Scenario.batchEnv in
  let w := Scenario.world (scenarioShop None)
             [Scenario.logRow "c1" SUCCESS Scenario.tenOClock;
              Scenario.logRow "c2" FAILED Scenario.tenOClock;
              Scenario.logRow "c3" SKIPPED Scenario.tenOClock] Scenario.halfPastThree in
  let w' := record (CallGetMediaComments "post1" "tok") None w in
  Forall (fun c => logsFor "a1" (c_id c) w <> [])
    [Scenario.comment; Scenario.comment2; Scenario.comment3]
  /\ processCommentToDMAutomation E "a1" "post1" "tok" w
     = (Ret {| br_processed := 0; br_successful := Some 0; br_failed := Some 0;
               br_message := "Processed 0 comments, sent 0 DMs" |}, w')
  /\ processCommentReplyAutomation E "a1" "post1" "tok" w
     = (Ret {| br_processed := 0; br_successful := Some 0; br_failed := Some 0;
               br_message := "Processed 0 comments, replied to 0" |}, w')
  /\ logs w' = logs w
  /\ automations w' = automations w.
Proof.
  cbv zeta.
  assert (Forall (fun c => logsFor "a1" (c_id c)
                             (Scenario.world (scenarioShop None)
                                [Scenario.logRow "c1" SUCCESS Scenario.tenOClock;
                                 Scenario.logRow "c2" FAILED Scenario.tenOClock;
                                 Scenario.logRow "c3" SKIPPED Scenario.tenOClock]
                                Scenario.halfPastThree) <> [])
            [Scenario.comment; Scenario.comment2; Scenario.comment3]) as Hall.
  { repeat constructor; vm_compute; discriminate. }
  split; [exact Hall|].
  apply (batch_all_logged_noop Scenario.batchEnv "a1" "post1" "tok" _ (scenarioShop None)
           [Scenario.comment; Scenario.comment2; Scenario.comment3]);
    try reflexivity. exact Hall.
Defined.

Lemma batch_rerun_noop_witness :
  let E := Scenario.batchEnv in
  let w := Scenario.world (scenarioShop None) [] Scenario.halfPastThree in
  let t2 := Scenario.halfPastThree + msPerHour in
  let w1 := atTime t2 (snd (processCommentToDMAutomation E "a1" "post1" "tok" w)) in
  processCommentToDMAutomation E "a1" "post1" "tok" w1
  = (Ret {| br_processed := 0; br_successful := Some 0; br_failed := Some 0;
            br_message := "Processed 0 comments, sent 0 DMs" |},
     record (CallGetMediaComments "post1" "tok") None w1).
Proof.
  cbv zeta.
  destruct (batch_rerun_noop Scenario.batchEnv Scenario.batchEnv "a1" "post1" "tok" "tok"
              (Scenario.world (scenarioShop None) [] Scenario.halfPastThree)
              (scenarioShop None)
              [Scenario.comment; Scenario.comment2; Scenario.comment3]
              [Scenario.comment; Scenario.comment2; Scenario.comment3]
              (Scenario.halfPastThree + msPerHour)
              eq_refl eq_refl eq_refl eq_refl) as (a1 & Ha1 & Hs1 & Hrerun).
  apply Hrerun.
  - vm_compute in Ha1. injection Ha1 as <-. vm_compute. reflexivity.
  - reflexivity.
  - intros c [<- | [<- | [<- | []]]]; cbn; auto.
Defined.

Lemma testAutomation_dry_run_witness :
  let E := Scenario.batchEnv in
  let a := Scenario.automation PAUSED None None [Scenario.trigger "t1" "cost" None] in
  let w := Scenario.world a [] Scenario.halfPastThree in
  exists r,
    testAutomation E scenarioRelations "a1" "post1" w
    = (Ret r, record (CallGetMediaComments "post1" "tok") None w)
    /\ ts_success r = true
    /\ ts_totalComments r = 3
    /\ 0 <= ts_matchedComments r <= ts_totalComments r
    /\ ts_matchedComments r = Z.of_nat (length (ts_matches r))
    /\ List.map mc_text (ts_matches r) = ["How much does it cost?"; "what does it COST"].
Proof.
  cbv zeta.
  exact (testAutomation_dry_run Scenario.batchEnv scenarioRelations "a1" "post1" "tok"
           (Scenario.world
              (Scenario.automation PAUSED None None [Scenario.trigger "t1" "cost" None])
              [] Scenario.halfPastThree)
           (Scenario.automation PAUSED None None [Scenario.trigger "t1" "cost" None])
           eq_refl eq_refl).
Defined.

Lemma processSingleComment_reply_not_a_string_witness :
  let E := Scenario.env None None in
  let a := Scenario.automation ACTIVE None None [scenarioIllTyped] in
  let w := Scenario.world a [] Scenario.halfPastThree in
  (commentReplyText scenarioIllTyped = Some (JsNumber 5)
   /\ truthyValue (JsNumber 5) = true)
  /\ exists w' evs rows,
       processSingleComment E "a1" Scenario.comment "tok" w
       = (Throw (JsError "commentReplyText.trim is not a function"), w')
       /\ events w' = events w ++ evs
       /\ anyEvent isReplySent evs = false
       /\ anyEvent isReplyFailed evs = false
       /\ logs w' = logs w ++ rows
       /\ Forall (fun row => l_status row = FAILED) rows
       /\ last rows
          = Some (logData "a1" Scenario.comment FAILED None
                    "commentReplyText.trim is not a function" (clock w))
       /\ length rows = (if anyEvent isDmSent evs then 1 else 2)%nat
       /\ automations w' = <["a1" := bumpStats false (clock w) a]> (automations w).
Proof.
  cbv zeta. split; [split; reflexivity|].
  apply (processSingleComment_reply_not_a_string (Scenario.env None None) "a1"
           Scenario.comment "tok"
           (Scenario.world (Scenario.automation ACTIVE None None [scenarioIllTyped]) []
              Scenario.halfPastThree)
           (Scenario.automation ACTIVE None None [scenarioIllTyped])
           scenarioIllTyped (JsNumber 5)); try reflexivity.
  intros text. discriminate.
Defined.
